(** * create_filtered_ifg_stack.py: filtered interferogram stack generator

    A shallow embedding of [scripts/create_filtered_ifg_stack.py] and the
    properties of its identity derivation, idempotency gate, stage
    sequencing, bundle assembly, metadata and cleanup.

    The script is one long sequence of effects on the working directory
    and of calls to external collaborators.  It is modelled as a program
    in a small trace/exception monad: every effect that takes place is
    appended to a trace, and every answer of the outside world (the
    filter, the catalog, the exit status of a child process, whether a
    file operation raises, the order in which a set is walked) is read
    from a [world] record.  Log lines go to the standard error stream and
    are left out. *)

From Stdlib Require Import ZArith Ascii String List Lia DecimalString.
From stdpp Require Import base tactics option list sorting gmap strings.

Local Open Scope Z_scope.
Local Open Scope string_scope.

(* ===================================================================== *)
(** * Python strings and bytes *)
(* ===================================================================== *)

(** A Python [str] is modelled by its UTF-8 bytes, which is what a Rocq
    [string] holds; [s.encode('utf-8')] then just exposes the bytes. *)
Definition encode_utf8 (s : string) : list Z :=
  map (fun c => Z.of_N (N_of_ascii c)) (list_ascii_of_string s).

(** [str(n)] for a Python [int]. *)
Definition str_of_Z (n : Z) : string := NilZero.string_of_int (Z.to_int n).

(** [sep.join(l)] *)
Fixpoint join (sep : string) (l : list string) : string :=
  match l with
  | [] => ""
  | [x] => x
  | x :: rest => x ++ sep ++ join sep rest
  end.

(** [s[0:n]] *)
Definition str_prefix (n : nat) (s : string) : string := String.substring 0 n s.

(* ===================================================================== *)
(** * hashlib.new('md5') *)
(* ===================================================================== *)

(** MD5 as in RFC 1321, on 32-bit words held in [Z] with the wrap-around
    written out.  A hash object is the byte string fed to it so far. *)
Module hashlib.

Definition wrap32 (x : Z) : Z := x mod 2 ^ 32.

Definition rotl32 (x c : Z) : Z :=
  wrap32 (Z.lor (Z.shiftl x c) (Z.shiftr x (32 - c))).

Definition not32 (x : Z) : Z := Z.lxor x 4294967295.

Definition shifts : list Z :=
  [7; 12; 17; 22; 7; 12; 17; 22; 7; 12; 17; 22; 7; 12; 17; 22;
   5; 9; 14; 20; 5; 9; 14; 20; 5; 9; 14; 20; 5; 9; 14; 20;
   4; 11; 16; 23; 4; 11; 16; 23; 4; 11; 16; 23; 4; 11; 16; 23;
   6; 10; 15; 21; 6; 10; 15; 21; 6; 10; 15; 21; 6; 10; 15; 21].

Definition sines : list Z :=
  [3614090360; 3905402710; 606105819; 3250441966; 4118548399; 1200080426; 2821735955; 4249261313;
   1770035416; 2336552879; 4294925233; 2304563134; 1804603682; 4254626195; 2792965006; 1236535329;
   4129170786; 3225465664; 643717713; 3921069994; 3593408605; 38016083; 3634488961; 3889429448;
   568446438; 3275163606; 4107603335; 1163531501; 2850285829; 4243563512; 1735328473; 2368359562;
   4294588738; 2272392833; 1839030562; 4259657740; 2763975236; 1272893353; 4139469664; 3200236656;
   681279174; 3936430074; 3572445317; 76029189; 3654602809; 3873151461; 530742520; 3299628645;
   4096336452; 1126891415; 2878612391; 4237533241; 1700485571; 2399980690; 4293915773; 2240044497;
   1873313359; 4264355552; 2734768916; 1309151649; 4149444226; 3174756917; 718787259; 3951481745].

(** The four chaining words A, B, C, D. *)
Record state := State { sA : Z; sB : Z; sC : Z; sD : Z }.

Definition init : state :=
  State 1732584193 4023233417 2562383102 271733878.

(** Little-endian word [i] of a 64-byte block. *)
Definition word_at (block : list Z) (i : nat) : Z :=
  nth (4 * i) block 0 + 256 * nth (4 * i + 1) block 0
  + 65536 * nth (4 * i + 2) block 0 + 16777216 * nth (4 * i + 3) block 0.

Definition round (block : list Z) (st : state) (i : nat) : state :=
  let '(State a b c d) := st in
  let '(f, g) :=
    if (i <? 16)%nat then
      (Z.lor (Z.land b c) (Z.land (not32 b) d), i)
    else if (i <? 32)%nat then
      (Z.lor (Z.land d b) (Z.land (not32 d) c), ((5 * i + 1) mod 16)%nat)
    else if (i <? 48)%nat then
      (Z.lxor b (Z.lxor c d), ((3 * i + 5) mod 16)%nat)
    else
      (Z.lxor c (Z.lor b (not32 d)), ((7 * i) mod 16)%nat) in
  let f' := wrap32 (f + a + nth i sines 0 + word_at block g) in
  State d (wrap32 (b + rotl32 f' (nth i shifts 0))) b c.

Definition compress (st : state) (block : list Z) : state :=
  let st' := fold_left (round block) (seq 0 64) st in
  State (wrap32 (sA st + sA st')) (wrap32 (sB st + sB st'))
        (wrap32 (sC st + sC st')) (wrap32 (sD st + sD st')).

(** The message length in bits, as 8 little-endian bytes. *)
Definition le64 (n : Z) : list Z :=
  map (fun k => (n / 256 ^ Z.of_nat k) mod 256) (seq 0 8).

Definition pad (msg : list Z) : list Z :=
  let len := Z.of_nat (length msg) in
  msg ++ [128] ++ repeat 0 (Z.to_nat ((55 - len) mod 64)) ++ le64 (8 * len).

Fixpoint blocks (n : nat) (bytes : list Z) : list (list Z) :=
  match n with
  | O => []
  | S n' => firstn 64 bytes :: blocks n' (skipn 64 bytes)
  end.

Definition digest_state (msg : list Z) : state :=
  let p := pad msg in
  fold_left compress (blocks (length p / 64) p) init.

Definition le32 (w : Z) : list Z :=
  [w mod 256; (w / 256) mod 256; (w / 65536) mod 256; (w / 16777216) mod 256].

Definition digest (msg : list Z) : list Z :=
  let st := digest_state msg in
  le32 (sA st) ++ le32 (sB st) ++ le32 (sC st) ++ le32 (sD st).

Definition hex_digit (n : Z) : ascii :=
  nth (Z.to_nat (n mod 16)) (list_ascii_of_string "0123456789abcdef") "0"%char.

Definition hex_byte (b : Z) : list ascii := [hex_digit (b / 16); hex_digit b].

Definition hex (bytes : list Z) : string :=
  string_of_list_ascii (flat_map hex_byte bytes).

(** The hash object: [new] is empty, [update] appends, [hexdigest] hashes
    everything fed so far. *)
Definition md5 := list Z.
Definition new : md5 := [].
Definition update (m : md5) (data : list Z) : md5 := (m ++ data)%list.
Definition hexdigest (m : md5) : string := hex (digest m).

End hashlib.

(* ===================================================================== *)
(** * Values carried by the request and the filter result *)
(* ===================================================================== *)

(** The scalars that [json.load] yields and that ["{}".format] renders.
    A float is identified by its [repr], the text that [format] prints. *)
Inductive pyval :=
| PNone
| PBool (b : bool)
| PInt (n : Z)
| PFloat (repr : string)
| PStr (s : string).

(** ["{}".format(v)] *)
Definition format (v : pyval) : string :=
  match v with
  | PNone => "None"
  | PBool true => "True"
  | PBool false => "False"
  | PInt n => str_of_Z n
  | PFloat r => r
  | PStr s => s
  end.

(** [s.zfill(n)] on a digit string. *)
Definition zfill (n : nat) (s : string) : string :=
  string_of_list_ascii (repeat "0"%char (n - String.length s)) ++ s.

(** A naive [datetime.datetime].  Python orders them field by field. *)
Record datetime := Datetime {
  year : Z; month : Z; day : Z;
  hour : Z; minute : Z; second : Z; microsecond : Z
}.

Definition dt_fields (d : datetime) : list Z :=
  [year d; month d; day d; hour d; minute d; second d; microsecond d].

Fixpoint lex_leb (a b : list Z) : bool :=
  match a, b with
  | [], _ => true
  | _ :: _, [] => false
  | x :: a', y :: b' => (x <? y)%Z || ((x =? y)%Z && lex_leb a' b')
  end.

Definition dt_leb (a b : datetime) : bool := lex_leb (dt_fields a) (dt_fields b).
Definition dt_le (a b : datetime) : Prop := dt_leb a b = true.

(** [d.strftime('%Y%m%dT%H%M%S')], for the four-digit years of radar
    acquisitions; the microseconds are dropped. *)
Definition strftime (d : datetime) : string :=
  zfill 4 (str_of_Z (year d)) ++ zfill 2 (str_of_Z (month d))
  ++ zfill 2 (str_of_Z (day d)) ++ "T" ++ zfill 2 (str_of_Z (hour d))
  ++ zfill 2 (str_of_Z (minute d)) ++ zfill 2 (str_of_Z (second d)).

(** The ['platform'] entry of a record: [None], one name or a list. *)
Inductive platform_field :=
| PlatNone
| PlatStr (s : string)
| PlatList (l : list string).

(** One entry of [filt_info['ifg_info']].  [fields] holds the remaining
    keys, which only the templates read. *)
Record IfgRecord := {
  product : string;
  sensor : string;
  sensor_name : string;
  platform : platform_field;
  fields : list (string * pyval)
}.

(** The dictionary returned by [filter_ifgs].  [ifg_info] is the dict's
    item list in insertion order. *)
Record FiltInfo := {
  center_lines_utc : list datetime;
  ifg_info : list (string * IfgRecord);
  ifg_coverage : list (string * pyval)
}.

(** The request document [input_json], holding every key that the script
    reads. *)
Record InputJson := {
  project : string;
  products : list string;
  region_of_interest : option (pyval * pyval * pyval * pyval);
  ref_point : pyval * pyval;
  ref_box_num_pixels : Z * Z;
  coverage_threshold : pyval;
  coherence_threshold : pyval;
  range_pixel_size : pyval;
  azimuth_pixel_size : pyval;
  inc : pyval;
  filt : pyval;
  netramp : pyval;
  gpsramp : pyval;
  subswath : Z + list Z
}.

(** The spatial envelope, in the script's variable names. *)
Record Envelope := {
  min_lon : pyval; max_lon : pyval; min_lat : pyval; max_lat : pyval
}.

(** The positional arguments of [filter_ifgs]. *)
Record FilterArgs := {
  fa_products : list string;
  fa_env : Envelope;
  fa_ref_lat : pyval; fa_ref_lon : pyval;
  fa_ref_width : Z; fa_ref_height : Z;
  fa_covth : pyval; fa_cohth : pyval;
  fa_range_pixel_size : pyval; fa_azimuth_pixel_size : pyval;
  fa_inc : pyval; fa_filt : pyval;
  fa_netramp : pyval; fa_gpsramp : pyval;
  fa_subswath : list Z
}.

(** The dictionary dumped as [<id>.met.json]. *)
Record Met := {
  bbox : list (pyval * pyval);
  dataset_type : string;
  product_type : string;
  reference : bool;
  sensing_time_initial : string;
  sensing_time_final : string;
  met_sensor : string;
  met_platform : list string;
  spacecraftName : list string;
  tags : list string;
  trackNumber : Z;
  swath : list Z;
  ifg_count : nat;
  ifgs : list string;
  timestep_count : nat;
  timesteps : list string
}.

(* ===================================================================== *)
(** * Effects, exceptions and the outside world *)
(* ===================================================================== *)

(** What a written file holds, kept as the data it renders. *)
Inductive content :=
| Pickle (fi : FiltInfo)
| IfgList (rows : list IfgRecord)
| Rendered (tmpl : string) (nvalid : option nat) (r : IfgRecord)
| MetJson (m : Met)
| Text (s : string).

(** File-system operations of the script.  [WriteDatasetJson] is the call
    of [write_dataset_json] of [giant_time_series.utils], which is not in
    the sources: by section 4.7 of the specification it writes the
    dataset descriptor (bounding box, version tag, time range) from its
    arguments, so the call is kept with the arguments it receives. *)
Inductive op :=
| WriteFile (path : string) (c : content)
| Copy (src dst : string)
| Move (src dst : string)
| Makedirs (path : string) (mode : Z)
| Rmtree (path : string)
| Unlink (path : string)
| WriteDatasetJson (prod_dir id : string) (bbox : list (pyval * pyval))
                   (starttime endtime version : string).

(** The four external processing steps, in the script's numbering. *)
Inductive stage := Step1 | Step2 | Step3 | Step4.

(** The places where the script calls [check_call]: a processing step or
    the compression of a product file. *)
Inductive callsite :=
| Stage (s : stage)
| Compress.

(** What happened, in order. *)
Inductive event :=
| Filtered (args : FilterArgs)
| Did (o : op)
| Ran (site : callsite) (cmd : string) (rc : Z)
| RanNoerr (cmd : string)
| Queried (es_url es_index id : string) (found : bool).

Inductive exn :=
| RuntimeError (msg : string)
| AttributeError (msg : string)
| IndexError (msg : string)
| KeyError (key : string)
| ValueError (msg : string)
| CalledProcessError (cmd : string) (rc : Z)
| OSError (o : op)
| CollaboratorError (name : string).

(** How a computation ends: a value, an exception, or [sys.exit]. *)
Inductive result (A : Type) :=
| Ok (a : A)
| Raise (e : exn)
| SysExit (code : Z).
Arguments Ok {A} a.
Arguments Raise {A} e.
Arguments SysExit {A} code.

(** Everything the script reads from outside itself. *)
Record world := {
  BASE_PATH : string;
  getcwd : string;
  abspath : string -> string;
  path_exists : string -> bool;
  json_load : string -> exn + InputJson;
  get_envelope : list string -> exn + Envelope;
  filter_ifgs : FilterArgs -> exn + FiltInfo;
  (** the order in which [list(s)] walks a set of strings *)
  set_iter : gset string -> list string;
  GRQ_ES_URL : string;
  DATASET_ALIAS : string;
  dataset_exists : string -> string -> string -> exn + bool;
  (** exit status of a child process, given what happened before *)
  exit_status : list event -> string -> Z;
  (** does this file operation raise, given what happened before *)
  os_error : list event -> op -> bool;
  (** the ['dates'] array of an HDF5 file, each entry through [int] *)
  h5_dates : string -> exn + list Z;
  glob : string -> list string;
  RSC_TMPL : string;
  PREPDATA_TMPL : string;
  PREPSBAS_TMPL : string
}.

(** A program takes the trace so far and returns the extended trace. *)
Definition M (A : Type) : Type := list event -> list event * result A.

Definition ret {A} (a : A) : M A := fun h => (h, Ok a).

Definition bind {A B} (m : M A) (k : A -> M B) : M B :=
  fun h =>
    match m h with
    | (h', Ok a) => k a h'
    | (h', Raise e) => (h', Raise e)
    | (h', SysExit c) => (h', SysExit c)
    end.

Definition raise {A} (e : exn) : M A := fun h => (h, Raise e).
Definition sys_exit {A} (code : Z) : M A := fun h => (h, SysExit code).
Definition emit (e : event) : M unit := fun h => ((h ++ [e])%list, Ok tt).

Definition lift {A} (r : exn + A) : M A :=
  match r with
  | inl e => raise e
  | inr a => ret a
  end.

Declare Scope prog_scope.
Delimit Scope prog_scope with prog.
Notation "x <- m ;; k" := (bind m (fun x => k))
  (at level 100, m at next level, right associativity) : prog_scope.
Notation "m ;; k" := (bind m (fun _ => k))
  (at level 100, right associativity) : prog_scope.
Local Open Scope prog_scope.

(** [for x in l: body x] *)
Fixpoint for_each {A} (l : list A) (body : A -> M unit) : M unit :=
  match l with
  | [] => ret tt
  | x :: rest => body x ;; for_each rest body
  end.

(* ===================================================================== *)
(** * Library functions the script calls *)
(* ===================================================================== *)

(** The [exn + A] results of pure steps that may raise. *)
Definition ebind {A B} (r : exn + A) (k : A -> exn + B) : exn + B :=
  match r with
  | inl e => inl e
  | inr a => k a
  end.

Notation "x <~ r ; k" := (ebind r (fun x => k))
  (at level 100, r at next level, right associativity) : prog_scope.

Fixpoint emap {A B} (f : A -> exn + B) (l : list A) : exn + list B :=
  match l with
  | [] => inr []
  | x :: rest => y <~ f x ; ys <~ emap f rest ; inr (y :: ys)
  end.

(** [l[0]] and [l[-1]] *)
Definition index0 {A} (l : list A) : exn + A :=
  match l with
  | [] => inl (IndexError "list index out of range")
  | x :: _ => inr x
  end.

Definition index_last {A} (l : list A) : exn + A :=
  match last l with
  | None => inl (IndexError "list index out of range")
  | Some x => inr x
  end.

(** Python compares [str] by code point, which on UTF-8 text is the
    order of the bytes. *)
Definition str_le (a b : string) : Prop := String.leb a b = true.

#[global] Instance str_le_dec : RelDecision str_le.
Proof. intros a b. unfold str_le. apply _. Defined.

#[global] Instance dt_le_dec : RelDecision dt_le.
Proof. intros a b. unfold dt_le. apply _. Defined.

(** [sorted(d)] on a dict: its keys in ascending order. *)
Definition sorted_keys {V} (d : list (string * V)) : list string :=
  merge_sort str_le (map fst d).

(** [d[k]] *)
Fixpoint getitem {V} (d : list (string * V)) (k : string) : exn + V :=
  match d with
  | [] => inl (KeyError k)
  | (k', v) :: rest => if String.eqb k' k then inr v else getitem rest k
  end.

(** [os.path.join(a, b)] of posixpath. *)
Definition ends_with_slash (s : string) : bool :=
  match last (list_ascii_of_string s) with
  | Some c => Ascii.eqb c "/"
  | None => false
  end.

Definition path_join (a b : string) : string :=
  match b with
  | String "/" _ => b
  | _ => if (String.eqb a "" || ends_with_slash a)%bool then a ++ b
         else a ++ "/" ++ b
  end.

(** [os.path.basename(p)]: what follows the last slash. *)
Fixpoint basename_aux (acc : string) (p : string) : string :=
  match p with
  | EmptyString => acc
  | String c rest =>
      if Ascii.eqb c "/" then basename_aux rest rest
      else basename_aux acc rest
  end.

Definition basename (p : string) : string := basename_aux p p.

(** [TN_RE = re.compile(r'_TN(\d+)_')] on ASCII text: the leftmost place
    where ["_TN"], a maximal non-empty run of digits and ["_"] follow one
    another.  The digits cannot be cut short, because what follows them
    must be the underscore. *)
Definition is_digit (c : ascii) : bool :=
  let n := N_of_ascii c in (48 <=? n)%N && (n <=? 57)%N.

Fixpoint span_digits (l : list ascii) : list ascii * list ascii :=
  match l with
  | c :: rest =>
      if is_digit c then
        let '(ds, tl) := span_digits rest in (c :: ds, tl)
      else ([], l)
  | [] => ([], [])
  end.

Definition match_here (l : list ascii) : option (list ascii) :=
  match l with
  | "_"%char :: "T"%char :: "N"%char :: tl =>
      match span_digits tl with
      | (d :: ds, "_"%char :: _) => Some (d :: ds)
      | _ => None
      end
  | _ => None
  end.

Fixpoint search (l : list ascii) : option (list ascii) :=
  match match_here l with
  | Some g => Some g
  | None =>
      match l with
      | [] => None
      | _ :: rest => search rest
      end
  end.

(** [TN_RE.search(s).group(1)]; [None.group] raises. *)
Definition TN_RE_search_group1 (s : string) : exn + list ascii :=
  match search (list_ascii_of_string s) with
  | Some g => inr g
  | None => inl (AttributeError "'NoneType' object has no attribute 'group'")
  end.

(** [int(digits)] on a run of the digits [0] to [9]; the value is that
    of Python for runs of at most 4300 digits, above which the
    interpreter's default limit makes [int] raise [ValueError]. *)
Definition int_of_digits (ds : list ascii) : Z :=
  fold_left (fun acc c => 10 * acc + (Z.of_N (N_of_ascii c) - 48)) ds 0.

(** [datetime.fromordinal(n)]: day 1 is 0001-01-01 of the proleptic
    Gregorian calendar, and [datetime.max] is day 3652059. *)
Definition fromordinal (n : Z) : exn + datetime :=
  if ((n <? 1) || (3652059 <? n))%Z then
    inl (ValueError "ordinal must be >= 1")
  else
    let z := n + 305 in
    let era := z / 146097 in
    let doe := z mod 146097 in
    let yoe := (doe - doe / 1460 + doe / 36524 - doe / 146096) / 365 in
    let doy := doe - (365 * yoe + yoe / 4 - yoe / 100) in
    let mp := (5 * doy + 2) / 153 in
    let d := doy - (153 * mp + 2) / 5 + 1 in
    let m := if (mp <? 10)%Z then mp + 3 else mp - 9 in
    let y := yoe + era * 400 + (if (m <=? 2)%Z then 1 else 0) in
    inr (Datetime y m d 0 0 0 0).

(** [d.isoformat('T')] of a datetime without microseconds. *)
Definition isoformat (d : datetime) : string :=
  zfill 4 (str_of_Z (year d)) ++ "-" ++ zfill 2 (str_of_Z (month d)) ++ "-"
  ++ zfill 2 (str_of_Z (day d)) ++ "T" ++ zfill 2 (str_of_Z (hour d)) ++ ":"
  ++ zfill 2 (str_of_Z (minute d)) ++ ":" ++ zfill 2 (str_of_Z (second d)).

(* ===================================================================== *)
(** * The script *)
(* ===================================================================== *)

Definition DATASET_VERSION : string := "v0.1".

(** [ID_TMPL.format(sensor=.., track=.., startdt=.., enddt=.., hash=..,
    version=..)] *)
Definition ID_TMPL_format (sensor : string) (track : Z)
    (startdt enddt hash version : string) : string :=
  "filtered-ifg-stack_" ++ sensor ++ "-TN" ++ str_of_Z track ++ "-"
  ++ startdt ++ "Z-" ++ enddt ++ "Z-" ++ hash ++ "-" ++ version.

(** Lines 169-185: the hash object after the fourteen updates. *)
Definition hash_updates (env : Envelope) (input_json : InputJson)
    (track : Z) (sensor : string) (platform ifg_list : list string)
    : hashlib.md5 :=
  let m := hashlib.new in
  let m := hashlib.update m (encode_utf8
             (format (min_lon env) ++ " " ++ format (max_lon env) ++ " "
              ++ format (min_lat env) ++ " " ++ format (max_lat env))) in
  let m := hashlib.update m (encode_utf8
             (format (fst (ref_point input_json)) ++ " "
              ++ format (snd (ref_point input_json)))) in
  let m := hashlib.update m (encode_utf8
             (str_of_Z (fst (ref_box_num_pixels input_json)) ++ " "
              ++ str_of_Z (snd (ref_box_num_pixels input_json)))) in
  let m := hashlib.update m (encode_utf8 (format (coherence_threshold input_json))) in
  let m := hashlib.update m (encode_utf8 (format (range_pixel_size input_json))) in
  let m := hashlib.update m (encode_utf8 (format (azimuth_pixel_size input_json))) in
  let m := hashlib.update m (encode_utf8 (format (inc input_json))) in
  let m := hashlib.update m (encode_utf8 (format (netramp input_json))) in
  let m := hashlib.update m (encode_utf8 (format (gpsramp input_json))) in
  let m := hashlib.update m (encode_utf8 (format (filt input_json))) in
  let m := hashlib.update m (encode_utf8 (str_of_Z track)) in
  let m := hashlib.update m (encode_utf8 sensor) in
  let m := hashlib.update m (encode_utf8 (join " " platform)) in
  let m := hashlib.update m (encode_utf8 (join " " ifg_list)) in
  m.

(** The names a ['platform'] entry contributes to the set. *)
Definition platform_names (p : platform_field) : list string :=
  match p with
  | PlatNone => []
  | PlatStr s => [s]
  | PlatList l => l
  end.

(** Lines 154-160: the set built by the loop over the records. *)
Definition collect_platforms (recs : list IfgRecord) : gset string :=
  fold_left (fun acc r => acc ∪ list_to_set (platform_names (platform r)))
            recs ∅.

(** What lines 140-192 compute. *)
Record Identity := {
  id_ifg_list : list string;
  id_track : Z;
  id_sensor : string;
  id_sensor_name : string;
  id_platform : list string;
  id_hash : string;
  id_centers : list datetime;
  id_str : string
}.

Section Script.

Variable w : world.

(** A file operation: it raises [OSError] when the world says so and
    otherwise takes place. *)
Definition perform (o : op) : M unit :=
  fun h =>
    if os_error w h o then (h, Raise (OSError o))
    else ((h ++ [Did o])%list, Ok tt).

(** [check_call(cmd, shell=True)]: run to completion, raise on a
    non-zero status. *)
Definition check_call (site : callsite) (cmd : string) : M unit :=
  fun h =>
    let rc := exit_status w h cmd in
    ((h ++ [Ran site cmd rc])%list,
     if (rc =? 0)%Z then Ok tt else Raise (CalledProcessError cmd rc)).

(** Modelled from the spec: [call_noerr] of [giant_time_series.utils] is
    not in the sources; section 4.6 makes the resize best-effort, so the
    call takes place and never raises. *)
Definition call_noerr (cmd : string) : M unit := emit (RanNoerr cmd).

(** Lines 62-68 *)
Definition load (input_json_file : string) : exn + (string * InputJson) :=
  let input_json_file := abspath w input_json_file in
  if negb (path_exists w input_json_file) then
    inl (RuntimeError ("Failed to find " ++ input_json_file ++ "."))
  else
    input_json <~ json_load w input_json_file ;
    inr (input_json_file, input_json).

(** Lines 76-83 *)
Definition envelope_of (input_json : InputJson) : exn + Envelope :=
  match region_of_interest input_json with
  | Some (a, b, c, d) =>
      inr {| min_lat := a; max_lat := b; min_lon := c; max_lon := d |}
  | None => get_envelope w (products input_json)
  end.

(** Lines 110-115 *)
Definition subswath_list (input_json : InputJson) : list Z :=
  match subswath input_json with
  | inl i => [i]
  | inr l => l
  end.

(** Lines 85-121; [int((n-1)/2)] truncates towards zero. *)
Definition filter_args (input_json : InputJson) (env : Envelope) : FilterArgs :=
  {| fa_products := products input_json;
     fa_env := env;
     fa_ref_lat := fst (ref_point input_json);
     fa_ref_lon := snd (ref_point input_json);
     fa_ref_width := Z.quot (fst (ref_box_num_pixels input_json) - 1) 2;
     fa_ref_height := Z.quot (snd (ref_box_num_pixels input_json) - 1) 2;
     fa_covth := coverage_threshold input_json;
     fa_cohth := coherence_threshold input_json;
     fa_range_pixel_size := range_pixel_size input_json;
     fa_azimuth_pixel_size := azimuth_pixel_size input_json;
     fa_inc := inc input_json;
     fa_filt := filt input_json;
     fa_netramp := netramp input_json;
     fa_gpsramp := gpsramp input_json;
     fa_subswath := subswath_list input_json |}.

Definition run_filter (input_json : InputJson) (env : Envelope) : M FiltInfo :=
  let args := filter_args input_json env in
  filt_info <- lift (filter_ifgs w args) ;;
  emit (Filtered args) ;;
  ret filt_info.

(** Lines 123-125 *)
Definition dump_filter_info (filt_info : FiltInfo) : M unit :=
  perform (WriteFile "filt_info.pkl" (Pickle filt_info)).

(** Lines 136-138 *)
Definition croak_if_empty (filt_info : FiltInfo) : M unit :=
  if (length (ifg_info filt_info) =? 0)%nat then
    raise (RuntimeError
             "All products in the stack were filtered out. Check thresholds.")
  else ret tt.

(** Lines 140-192: the identity generator. *)
Definition derive_identity (input_json : InputJson) (env : Envelope)
    (filt_info : FiltInfo) : exn + Identity :=
  let ifg_info := ifg_info filt_info in
  let ifg_list := sorted_keys ifg_info in
  first_key <~ index0 ifg_list ;
  first <~ getitem ifg_info first_key ;
  digits <~ TN_RE_search_group1 (product first) ;
  let track := int_of_digits digits in
  let sensor := sensor first in
  let sensor_name := sensor_name first in
  recs <~ emap (getitem ifg_info) ifg_list ;
  let platform := set_iter w (collect_platforms recs) in
  let m := hash_updates env input_json track sensor platform ifg_list in
  let roi_ref_hash := str_prefix 5 (hashlib.hexdigest m) in
  let centers := merge_sort dt_le (center_lines_utc filt_info) in
  startdt <~ index0 centers ;
  enddt <~ index_last centers ;
  inr {| id_ifg_list := ifg_list;
         id_track := track;
         id_sensor := sensor;
         id_sensor_name := sensor_name;
         id_platform := platform;
         id_hash := roi_ref_hash;
         id_centers := centers;
         id_str := ID_TMPL_format sensor track (strftime startdt)
                     (strftime enddt) roi_ref_hash DATASET_VERSION |}.

(** Lines 195-198: the idempotency gate. *)
Definition gate (id : string) : M unit :=
  let es_url := GRQ_ES_URL w in
  let es_index := DATASET_ALIAS w in
  found <- lift (dataset_exists w es_url es_index id) ;;
  emit (Queried es_url es_index id found) ;;
  if found then sys_exit 0 else ret tt.

(** Lines 200-221.  [ifg.list] is created when it is opened, before the
    three files written on the first record.  What the templates make of
    a record is kept as the record itself. *)
Definition render (filt_info : FiltInfo) (ifg_list : list string) : M unit :=
  rows <- lift (emap (getitem (ifg_info filt_info)) ifg_list) ;;
  perform (WriteFile "ifg.list" (IfgList rows)) ;;
  match rows with
  | first :: _ =>
      perform (WriteFile "example.rsc" (Rendered (RSC_TMPL w) None first)) ;;
      perform (WriteFile "prepdataxml.py"
                 (Rendered (PREPDATA_TMPL w) None first)) ;;
      perform (WriteFile "prepsbasxml.py"
                 (Rendered (PREPSBAS_TMPL w) (Some (length ifg_list)) first))
  | [] => ret tt
  end ;;
  perform (Copy (path_join (BASE_PATH w) "userfn.py") "userfn.py").

(** Lines 223-237: the four processing steps. *)
Definition stage_cmd (s : stage) : string :=
  match s with
  | Step1 => "python2 prepdataxml.py"
  | Step2 => BASE_PATH w ++ "/PrepIgramStackWrapper.py"
  | Step3 => "python2 prepsbasxml.py"
  | Step4 => BASE_PATH w ++ "/ProcessStackWrapper.py"
  end.

Definition run_stage (s : stage) : M unit := check_call (Stage s) (stage_cmd s).

Definition stages : M unit :=
  run_stage Step1 ;;
  run_stage Step2 ;;
  run_stage Step3 ;;
  run_stage Step4.

(** Lines 239-244 *)
Definition read_timesteps : M (list string) :=
  let proc_stack := path_join (path_join (getcwd w) "Stack") "PROC-STACK.h5" in
  times <- lift (h5_dates w proc_stack) ;;
  lift (emap (fun i => d <~ fromordinal i ; inr (isoformat d)) times).

(** Lines 246-274: the bundle assembler. *)
Definition assemble (id input_json_file : string) : M unit :=
  let prod_dir := id in
  perform (Makedirs prod_dir 493) ;;
  for_each (glob w "Stack/*") (fun i =>
    perform (Move i prod_dir) ;;
    check_call Compress
      ("pigz -f -9 " ++ path_join prod_dir (basename i))) ;;
  let png_files := glob w "Figs/Igrams/*.png" in
  png0 <- lift (index0 png_files) ;;
  perform (Copy png0 (path_join prod_dir "browse.png")) ;;
  call_noerr ("convert -resize 250x250 " ++ png0 ++ " "
              ++ path_join prod_dir "browse_small.png") ;;
  for_each png_files (fun i => perform (Move i prod_dir)) ;;
  perform (Copy input_json_file (path_join prod_dir (id ++ ".context.json"))) ;;
  for_each ["filt_info.pkl"; "data.xml"; "example.rsc"; "ifg.list";
            "prepdataxml.py"; "prepsbasxml.py"; "sbas.xml"; "userfn.py"]
           (fun f => perform (Move f prod_dir)).

(** Lines 276-300: the [met] dictionary. *)
Definition build_met (input_json : InputJson) (env : Envelope)
    (filt_info : FiltInfo) (idn : Identity) (timesteps : list string)
    : exn + Met :=
  t0 <~ index0 timesteps ;
  tn <~ index_last timesteps ;
  recs <~ emap (getitem (ifg_info filt_info)) (sorted_keys (ifg_info filt_info)) ;
  inr {| bbox := [ (max_lat env, max_lon env);
                   (max_lat env, min_lon env);
                   (min_lat env, min_lon env);
                   (min_lat env, max_lon env);
                   (max_lat env, max_lon env) ];
         dataset_type := "ifg-stack";
         product_type := "ifg-stack";
         reference := false;
         sensing_time_initial := t0;
         sensing_time_final := tn;
         met_sensor := id_sensor_name idn;
         met_platform := id_platform idn;
         spacecraftName := id_platform idn;
         tags := [project input_json];
         trackNumber := id_track idn;
         swath := subswath_list input_json;
         ifg_count := length (ifg_info filt_info);
         ifgs := map product recs;
         timestep_count := length timesteps;
         timesteps := timesteps |}.

(** Lines 305-312 *)
Definition geojson_bbox (env : Envelope) : list (pyval * pyval) :=
  [ (max_lon env, max_lat env);
    (max_lon env, min_lat env);
    (min_lon env, min_lat env);
    (min_lon env, max_lat env);
    (max_lon env, max_lat env) ].

(** Lines 276-313: the metadata emitter.  [write_dataset_json] is a
    collaborator; its call is recorded with the arguments it receives. *)
Definition emit_metadata (input_json : InputJson) (env : Envelope)
    (filt_info : FiltInfo) (idn : Identity) (timesteps : list string)
    : M unit :=
  let id := id_str idn in
  let prod_dir := id in
  met <- lift (build_met input_json env filt_info idn timesteps) ;;
  perform (WriteFile (path_join prod_dir (id ++ ".met.json")) (MetJson met)) ;;
  perform (WriteDatasetJson prod_dir id (geojson_bbox env)
             (sensing_time_initial met) (sensing_time_final met)
             DATASET_VERSION).

(** Lines 315-317 *)
Definition cleanup (input_json : InputJson) (ifg_list : list string) : M unit :=
  for_each (products input_json) (fun i => perform (Rmtree i)) ;;
  for_each ifg_list (fun i => perform (Unlink i)).

(** Lines 117-198: from the filter to the gate. *)
Definition identify (input_json : InputJson) : M (Envelope * FiltInfo * Identity) :=
  env <- lift (envelope_of input_json) ;;
  filt_info <- run_filter input_json env ;;
  dump_filter_info filt_info ;;
  croak_if_empty filt_info ;;
  idn <- lift (derive_identity input_json env filt_info) ;;
  gate (id_str idn) ;;
  ret (env, filt_info, idn).

(** Lines 200-313: from the rendered files to the dataset descriptor. *)
Definition produce (input_json_file : string) (input_json : InputJson)
    (env : Envelope) (filt_info : FiltInfo) (idn : Identity) : M unit :=
  render filt_info (id_ifg_list idn) ;;
  stages ;;
  timesteps <- read_timesteps ;;
  assemble (id_str idn) input_json_file ;;
  emit_metadata input_json env filt_info idn timesteps.

(** [main(input_json_file)] *)
Definition main (input_json_file : string) : M unit :=
  loaded <- lift (load input_json_file) ;;
  let '(input_json_file, input_json) := loaded in
  found <- identify input_json ;;
  let '(env, filt_info, idn) := found in
  produce input_json_file input_json env filt_info idn ;;
  cleanup input_json (id_ifg_list idn).

(** Lines 320-331: the process.  [except Exception] does not catch
    [SystemExit]; an exception that escapes ends the process with
    status 1, after the two error files were written. *)
Definition report_error (e : exn) : M unit :=
  perform (WriteFile "_alt_error.txt" (Text "str(e)")) ;;
  perform (WriteFile "_alt_traceback.txt" (Text "traceback.format_exc()")).

Definition script (input_json_file : string) : list event * Z :=
  match main input_json_file [] with
  | (h, Ok _) => (h, 0)
  | (h, SysExit code) => (h, code)
  | (h, Raise e) => (fst (report_error e h), 1)
  end.

End Script.

(* ===================================================================== *)
(** * A concrete run *)
(* ===================================================================== *)

(** Two interferograms of track 42 that pass the filter, one from each
    Sentinel-1 platform, listed by the filter in descending key order. *)
Definition rec_a : IfgRecord :=
  {| product := "S1-IFG_RM_M1S1_TN042_20170101T015012-20161220T015013_s1-poeorb";
     sensor := "S1";
     sensor_name := "SAR-C Sentinel1";
     platform := PlatStr "Sentinel-1A";
     fields := [("start_dt", PStr "20161220"); ("stop_dt", PStr "20170101")] |}.

Definition rec_b : IfgRecord :=
  {| product := "S1-IFG_RM_M1S1_TN042_20170113T015011-20170101T015012_s1-poeorb";
     sensor := "S1";
     sensor_name := "SAR-C Sentinel1";
     platform := PlatList ["Sentinel-1B"; "Sentinel-1A"];
     fields := [("start_dt", PStr "20170101"); ("stop_dt", PStr "20170113")] |}.

Definition demo_filt_info : FiltInfo :=
  {| center_lines_utc :=
       [ Datetime 2017 1 13 1 50 11 250000;
         Datetime 2016 12 20 1 50 13 0;
         Datetime 2017 1 1 1 50 12 500000 ];
     ifg_info := [("20170101_20170113", rec_b); ("20161220_20170101", rec_a)];
     ifg_coverage := [("20170101_20170113", PFloat "0.97");
                      ("20161220_20170101", PFloat "0.99")] |}.

Definition demo_json : InputJson :=
  {| project := "demo";
     products := ["S1-IFG_a"; "S1-IFG_b"; "S1-IFG_c"];
     region_of_interest :=
       Some (PFloat "34.5", PFloat "35.5", PFloat "-118.5", PFloat "-117.5");
     ref_point := (PFloat "35.0", PFloat "-118.0");
     ref_box_num_pixels := (9, 9);
     coverage_threshold := PFloat "0.9";
     coherence_threshold := PFloat "0.3";
     range_pixel_size := PFloat "2.33";
     azimuth_pixel_size := PFloat "14.1";
     inc := PFloat "39.0";
     filt := PBool true;
     netramp := PBool false;
     gpsramp := PBool false;
     subswath := inl 2 |}.

Definition demo_env : Envelope :=
  {| min_lat := PFloat "34.5"; max_lat := PFloat "35.5";
     min_lon := PFloat "-118.5"; max_lon := PFloat "-117.5" |}.

(** A world in which everything succeeds, up to the four answers that
    the examples vary. *)
Definition demo_world (fi : FiltInfo) (iter : gset string -> list string)
    (found : bool) (status : list event -> string -> Z)
    (oserr : list event -> op -> bool) : world :=
  {| BASE_PATH := "/home/ops/giant_time_series/scripts";
     getcwd := "/data/work/job-1";
     abspath := fun p => "/data/work/job-1/" ++ p;
     path_exists := fun _ => true;
     json_load := fun _ => inr demo_json;
     get_envelope := fun _ => inr demo_env;
     filter_ifgs := fun _ => inr fi;
     set_iter := iter;
     GRQ_ES_URL := "http://grq:9200";
     DATASET_ALIAS := "grq";
     dataset_exists := fun _ _ _ => inr found;
     exit_status := status;
     os_error := oserr;
     h5_dates := fun _ => inr [736318; 736330; 736342];
     glob := fun pat =>
       if String.eqb pat "Stack/*" then ["Stack/RAW-STACK.h5"; "Stack/PROC-STACK.h5"]
       else ["Figs/Igrams/I001.png"; "Figs/Igrams/I002.png"];
     RSC_TMPL := "WIDTH {width}";
     PREPDATA_TMPL := "prepdata";
     PREPSBAS_TMPL := "prepsbas {nvalid}" |}.

Definition all_ok : list event -> string -> Z := fun _ _ => 0.
Definition no_oserr : list event -> op -> bool := fun _ _ => false.

(** Two iteration orders of a set: ascending, and descending. *)
Definition iter_asc (s : gset string) : list string :=
  merge_sort str_le (elements s).
Definition iter_desc (s : gset string) : list string :=
  rev (merge_sort str_le (elements s)).

(** The run in which everything succeeds. *)
Definition demo_ok : world :=
  demo_world demo_filt_info iter_asc false all_ok no_oserr.

(** The same, with the identity already in the catalog. *)
Definition demo_exists : world :=
  demo_world demo_filt_info iter_asc true all_ok no_oserr.

(** The same, with the third step exiting with status 2. *)
Definition demo_step3_fails : world :=
  demo_world demo_filt_info iter_asc false
    (fun _ cmd => if String.eqb cmd "python2 prepsbasxml.py" then 2 else 0)
    no_oserr.

(** The filter keeps nothing. *)
Definition demo_nothing_left : world :=
  demo_world {| center_lines_utc := []; ifg_info := []; ifg_coverage := [] |}
    iter_asc false all_ok no_oserr.

(** The second date-pair key is not a file that [os.unlink] can remove. *)
Definition demo_unlink_fails : world :=
  demo_world demo_filt_info iter_asc false all_ok
    (fun _ o => match o with
                | Unlink k => String.eqb k "20170101_20170113"
                | _ => false
                end).

(** A filter result whose product names do not sort like their keys:
    the earlier pair was made from two master scenes ([M2S1]), the later
    one from one ([M1S1]). *)
Definition rec_a2 : IfgRecord :=
  {| product := "S1-IFG_RM_M2S1_TN042_20170101T015012-20161220T015013_s1-poeorb";
     sensor := "S1";
     sensor_name := "SAR-C Sentinel1";
     platform := PlatStr "Sentinel-1A";
     fields := [("start_dt", PStr "20161220"); ("stop_dt", PStr "20170101")] |}.

Definition demo_filt_info2 : FiltInfo :=
  {| center_lines_utc := center_lines_utc demo_filt_info;
     ifg_info := [("20170101_20170113", rec_b); ("20161220_20170101", rec_a2)];
     ifg_coverage := ifg_coverage demo_filt_info |}.

Definition demo_m2 : world :=
  demo_world demo_filt_info2 iter_asc false all_ok no_oserr.

(** The same interferograms seen on the neighbouring frame: every
    center line is four seconds later. *)
Definition demo_filt_info_next_frame : FiltInfo :=
  {| center_lines_utc :=
       [ Datetime 2017 1 13 1 50 15 250000;
         Datetime 2016 12 20 1 50 17 0;
         Datetime 2017 1 1 1 50 16 500000 ];
     ifg_info := ifg_info demo_filt_info;
     ifg_coverage := ifg_coverage demo_filt_info |}.

(** The filter result of [demo_filt_info] with its records and its
    center lines listed the other way round. *)
Definition demo_filt_info_reordered : FiltInfo :=
  {| center_lines_utc := rev (center_lines_utc demo_filt_info);
     ifg_info := rev (ifg_info demo_filt_info);
     ifg_coverage := rev (ifg_coverage demo_filt_info) |}.

(** The run of [demo_ok] in a process whose sets of strings are walked
    in the opposite order. *)
Definition demo_desc : world :=
  demo_world demo_filt_info iter_desc false all_ok no_oserr.

(* ===================================================================== *)
(** * Vocabulary of the properties *)
(* ===================================================================== *)

(** The error of line 138; the specification calls it
    [AllFilteredOutError]. *)
Definition AllFilteredOutError : exn :=
  RuntimeError "All products in the stack were filtered out. Check thresholds.".

Definition is_hex_digit (c : ascii) : Prop :=
  In c (list_ascii_of_string "0123456789abcdef").

(** The earliest and the latest of a list of times. *)
Definition earliest (l : list datetime) : option datetime :=
  head (merge_sort dt_le l).
Definition latest (l : list datetime) : option datetime :=
  last (merge_sort dt_le l).

(** [list(s)] walks the members of [s], each once. *)
Definition iterates_sets (w : world) : Prop :=
  forall s : gset string, set_iter w s ≡ₚ elements s.

(** Classes of events. *)
Definition is_stage_event (e : event) : Prop :=
  match e with
  | Ran (Stage _) _ _ => True
  | _ => False
  end.

Definition is_call (e : event) : Prop :=
  match e with
  | Ran _ _ _ | RanNoerr _ => True
  | _ => False
  end.

Definition is_query (e : event) : Prop :=
  match e with
  | Queried _ _ _ _ => True
  | _ => False
  end.

Definition is_mkdir (e : event) : Prop :=
  match e with
  | Did (Makedirs _ _) => True
  | _ => False
  end.

Definition is_removal (e : event) : Prop :=
  match e with
  | Did (Rmtree _) | Did (Unlink _) => True
  | _ => False
  end.

Definition is_write (e : event) : Prop :=
  match e with
  | Did (WriteFile _ _) | Did (WriteDatasetJson _ _ _ _ _ _) => True
  | _ => False
  end.

(** Events that only the bundle assembler and the metadata emitter
    produce: the directory, the moves, the compression, the thumbnail,
    the metadata record and the dataset descriptor. *)
Definition is_bundle_event (e : event) : Prop :=
  match e with
  | Did (Makedirs _ _) | Did (Move _ _) | Ran Compress _ _ | RanNoerr _
  | Did (WriteFile _ (MetJson _)) | Did (WriteDatasetJson _ _ _ _ _ _) => True
  | _ => False
  end.


(** How a run through a list of stages can go: each stage is called once,
    in order; the first non-zero status ends the run with
    [CalledProcessError]. *)
Inductive stage_run (w : world) : list stage -> list event -> result unit -> Prop :=
| stage_run_done : stage_run w [] [] (Ok tt)
| stage_run_ok s rest t r :
    stage_run w rest t r ->
    stage_run w (s :: rest) (Ran (Stage s) (stage_cmd w s) 0 :: t) r
| stage_run_fail s rest rc :
    rc <> 0 ->
    stage_run w (s :: rest) [Ran (Stage s) (stage_cmd w s) rc]
              (Raise (CalledProcessError (stage_cmd w s) rc)).

(** The two files written by the handler of lines 325-330. *)
Definition is_error_file (e : event) : Prop :=
  exists p s, e = Did (WriteFile p (Text s)).

(** Events of the rendering step (lines 200-221). *)
Definition is_render_event (e : event) : Prop :=
  match e with
  | Did (WriteFile _ (IfgList _)) | Did (WriteFile _ (Rendered _ _ _))
  | Did (Copy _ _) => True
  | _ => False
  end.

(** Events of the bundle assembler (lines 246-274). *)
Definition is_assemble_event (e : event) : Prop :=
  match e with
  | Did (Makedirs _ _) | Did (Move _ _) | Did (Copy _ _)
  | Ran Compress _ _ | RanNoerr _ => True
  | _ => False
  end.

(** Events of the metadata emitter (lines 276-313). *)
Definition is_emit_event (e : event) : Prop :=
  match e with
  | Did (WriteFile _ (MetJson _)) | Did (WriteDatasetJson _ _ _ _ _ _) => True
  | _ => False
  end.

(** Events of lines 200-313, from the rendering to the descriptor. *)
Definition is_produce_event (e : event) : Prop :=
  is_render_event e \/ is_stage_event e \/ is_assemble_event e \/ is_emit_event e.

(** How lines 127-198 can go once the snapshot is written: the empty
    check, the identity, the catalog query. *)
Inductive after_dump (w : world) (ij : InputJson) (env : Envelope) (fi : FiltInfo)
  : list event -> result (Envelope * FiltInfo * Identity) -> Prop :=
| all_filtered_out :
    ifg_info fi = [] ->
    after_dump w ij env fi [] (Raise AllFilteredOutError)
| no_identity e :
    ifg_info fi <> [] ->
    derive_identity w ij env fi = inl e ->
    after_dump w ij env fi [] (Raise e)
| catalog_error idn e :
    ifg_info fi <> [] ->
    derive_identity w ij env fi = inr idn ->
    dataset_exists w (GRQ_ES_URL w) (DATASET_ALIAS w) (id_str idn) = inl e ->
    after_dump w ij env fi [] (Raise e)
| already_exists idn :
    ifg_info fi <> [] ->
    derive_identity w ij env fi = inr idn ->
    dataset_exists w (GRQ_ES_URL w) (DATASET_ALIAS w) (id_str idn) = inr true ->
    after_dump w ij env fi
      [Queried (GRQ_ES_URL w) (DATASET_ALIAS w) (id_str idn) true] (SysExit 0)
| not_yet_there idn :
    ifg_info fi <> [] ->
    derive_identity w ij env fi = inr idn ->
    dataset_exists w (GRQ_ES_URL w) (DATASET_ALIAS w) (id_str idn) = inr false ->
    after_dump w ij env fi
      [Queried (GRQ_ES_URL w) (DATASET_ALIAS w) (id_str idn) false]
      (Ok (env, fi, idn)).

(** How lines 76-198 can go: the envelope, the filter, the snapshot, and
    then the above. *)
Inductive identify_run (w : world) (ij : InputJson)
  : list event -> result (Envelope * FiltInfo * Identity) -> Prop :=
| no_envelope e :
    envelope_of w ij = inl e ->
    identify_run w ij [] (Raise e)
| filter_raised env e :
    envelope_of w ij = inr env ->
    filter_ifgs w (filter_args ij env) = inl e ->
    identify_run w ij [] (Raise e)
| dump_raised env fi :
    envelope_of w ij = inr env ->
    filter_ifgs w (filter_args ij env) = inr fi ->
    identify_run w ij [Filtered (filter_args ij env)]
      (Raise (OSError (WriteFile "filt_info.pkl" (Pickle fi))))
| dumped env fi t r :
    envelope_of w ij = inr env ->
    filter_ifgs w (filter_args ij env) = inr fi ->
    after_dump w ij env fi t r ->
    identify_run w ij
      (Filtered (filter_args ij env)
       :: Did (WriteFile "filt_info.pkl" (Pickle fi)) :: t) r.

(** A computation that did not return a value hands its way of ending
    to the caller. *)
Definition stopped {A B} (r : result A) (r' : result B) : Prop :=
  (exists e, r = Raise e /\ r' = Raise e) \/
  (exists c, r = SysExit c /\ r' = SysExit c).

(** Events that can precede the first stage: those of [identify] and of
    the rendering. *)
Definition is_pre_stage_event (e : event) : Prop :=
  match e with
  | Filtered _ | Queried _ _ _ _ | Did (WriteFile _ (Pickle _)) => True
  | _ => is_render_event e
  end.

(** Events that can follow the last stage. *)
Definition is_post_stage_event (e : event) : Prop :=
  is_assemble_event e \/ is_emit_event e \/ is_removal e.

(** The event of a stage that ran and returned status 0. *)
Definition passed (w : world) (s : stage) : event :=
  Ran (Stage s) (stage_cmd w s) 0.

Definition all_stages : list stage := [Step1; Step2; Step3; Step4].

(** The idempotent skip in the words of the specification: when the
    catalog holds the identity, the process ends with status 0, runs
    nothing, creates no directory and writes no file. *)
Definition skip_writes_nothing : Prop :=
  forall w f u i id,
    Queried u i id true ∈ (script w f).1 ->
    (script w f).2 = 0 /\
    Forall (fun e => ~ is_call e /\ ~ is_mkdir e /\ ~ is_write e) (script w f).1.

(** Cleanup on success only, in the words of the specification: a run
    that returns has removed every input product and every date-pair
    symlink; a run that raises, wherever it does, has removed none. *)
Definition cleanup_on_success_only : Prop :=
  forall w f h r,
    main w f [] = (h, r) ->
    (r = Ok tt ->
     exists f' ij args fi,
       load w f = inr (f', ij) /\ Filtered args ∈ h /\
       filter_ifgs w args = inr fi /\
       (forall p, p ∈ products ij -> Did (Rmtree p) ∈ h) /\
       (forall k, k ∈ (ifg_info fi).*1 -> Did (Unlink k) ∈ h)) /\
    (forall e, r = Raise e -> Forall (fun ev => ~ is_removal ev) h).

(** The file [PROC-STACK.h5] that [main] reads. *)
Definition proc_stack (w : world) : string :=
  path_join (path_join (getcwd w) "Stack") "PROC-STACK.h5".

(** The metadata of a run that returns, in the words of the
    specification: a closed polygon of five points in lat/lon order, the
    count of the filtered records, the sorted list of the product names,
    as many timesteps as the stack has dates, and a dataset descriptor
    with the same polygon in lon/lat order. *)
Definition met_record_as_specified : Prop :=
  forall w f h,
    main w f [] = (h, Ok tt) ->
    exists args fi times p m,
      Filtered args ∈ h /\ filter_ifgs w args = inr fi /\
      h5_dates w (proc_stack w) = inr times /\
      Did (WriteFile p (MetJson m)) ∈ h /\
      length (bbox m) = 5%nat /\
      head (bbox m) = last (bbox m) /\
      Forall (fun pt => pt.1 ∈ [min_lat (fa_env args); max_lat (fa_env args)] /\
                        pt.2 ∈ [min_lon (fa_env args); max_lon (fa_env args)])
             (bbox m) /\
      ifg_count m = length (ifg_info fi) /\
      ifgs m = merge_sort str_le (map (fun kv => product kv.2) (ifg_info fi)) /\
      length (timesteps m) = length times /\
      exists d i t0 tn v,
        Did (WriteDatasetJson d i (map (fun pt => (pt.2, pt.1)) (bbox m)) t0 tn v) ∈ h.

(** The text that is hashed, in the words of the specification: the
    renderings, one after the other, of the envelope (min/max lon/lat),
    the reference point, the reference window, the coherence threshold,
    the range and azimuth pixel sizes, the incidence angle, the
    network-deramp, GPS-deramp and filter flags, the track number, the
    sensor code, the space-joined platforms and the space-joined
    date-pair keys. *)
Definition hash_input (env : Envelope) (ij : InputJson) (track : Z)
    (sensor : string) (platform ifg_list : list string) : string :=
  (format (min_lon env) ++ " " ++ format (max_lon env) ++ " "
   ++ format (min_lat env) ++ " " ++ format (max_lat env))
  ++ (format (fst (ref_point ij)) ++ " " ++ format (snd (ref_point ij)))
  ++ (str_of_Z (fst (ref_box_num_pixels ij)) ++ " "
      ++ str_of_Z (snd (ref_box_num_pixels ij)))
  ++ format (coherence_threshold ij)
  ++ format (range_pixel_size ij)
  ++ format (azimuth_pixel_size ij)
  ++ format (inc ij)
  ++ format (netramp ij)
  ++ format (gpsramp ij)
  ++ format (filt ij)
  ++ str_of_Z track
  ++ sensor
  ++ join " " platform
  ++ join " " ifg_list.

(** The identity of a run that returns, with what comes before the
    sensor code left open: [front ++ sensor-TNtrack-startZ-endZ-hash-v0.1]
    where start and end are the least and the greatest center-line time,
    and the directory created under that name. *)
Definition identity_has_form (front : string) : Prop :=
  forall w f h,
    main w f [] = (h, Ok tt) ->
    exists f' ij env fi idn s e,
      load w f = inr (f', ij) /\ envelope_of w ij = inr env /\
      filter_ifgs w (filter_args ij env) = inr fi /\
      derive_identity w ij env fi = inr idn /\
      s ∈ center_lines_utc fi /\ e ∈ center_lines_utc fi /\
      (forall c, c ∈ center_lines_utc fi -> dt_le s c /\ dt_le c e) /\
      String.length (id_hash idn) = 5%nat /\
      id_str idn
      = front ++ id_sensor idn ++ "-TN" ++ str_of_Z (id_track idn) ++ "-"
        ++ strftime s ++ "Z-" ++ strftime e ++ "Z-" ++ id_hash idn ++ "-" ++ "v0.1" /\
      Did (Makedirs (id_str idn) 493) ∈ h.

(** The form in the words of the specification: nothing before the
    sensor code. *)
Definition identity_as_specified : Prop := identity_has_form "".

(** A program only appends events of a given class to the trace. *)
Definition appends {A} (P : event -> Prop) (m : M A) : Prop :=
  forall h h' r, m h = (h', r) -> exists t, h' = (h ++ t)%list /\ Forall P t.

(** The request fields that enter the hash, and the coverage threshold. *)
Definition same_parameters (a b : InputJson) : Prop :=
  ref_point a = ref_point b /\
  ref_box_num_pixels a = ref_box_num_pixels b /\
  coverage_threshold a = coverage_threshold b /\
  coherence_threshold a = coherence_threshold b /\
  range_pixel_size a = range_pixel_size b /\
  azimuth_pixel_size a = azimuth_pixel_size b /\
  inc a = inc b /\
  netramp a = netramp b /\
  gpsramp a = gpsramp b /\
  filt a = filt b.

(** Determinism of the identity in the words of the specification: two
    derivations, in any two processes, that agree on the envelope, the
    request parameters, the track, the sensor, the platform set and the
    sorted date-pair keys give the same identity string. *)
Definition identity_determinism : Prop :=
  forall w1 w2 ij1 ij2 env fi1 fi2 idn1 idn2,
    iterates_sets w1 -> iterates_sets w2 ->
    same_parameters ij1 ij2 ->
    derive_identity w1 ij1 env fi1 = inr idn1 ->
    derive_identity w2 ij2 env fi2 = inr idn2 ->
    id_track idn1 = id_track idn2 ->
    id_sensor idn1 = id_sensor idn2 ->
    list_to_set (id_platform idn1) =@{gset string} list_to_set (id_platform idn2) ->
    id_ifg_list idn1 = id_ifg_list idn2 ->
    id_str idn1 = id_str idn2.

(* ===================================================================== *)
(** * Vocabulary of the further properties *)
(* ===================================================================== *)

(** A program that never ends with [sys.exit]. *)
Definition never_exits {A} (m : M A) : Prop :=
  forall h h' c, m h <> (h', SysExit c).

(** A string without a slash. *)
Definition no_slash (s : string) : Prop :=
  Forall (fun c => c <> "/"%char) (list_ascii_of_string s).

(** The characters of ["_TN"]. *)
Definition TN_mark : list ascii := ["_"; "T"; "N"]%char.

(** What the rendering step (lines 200-221) leaves in the trace when
    nothing raises: [ifg.list] with the rows, the three rendered files
    when there is a first row, and the copy of [userfn.py]. *)
Definition render_trace (w : world) (rows : list IfgRecord) : list event :=
  (Did (WriteFile "ifg.list" (IfgList rows))
   :: match rows with
      | first :: _ =>
          [ Did (WriteFile "example.rsc" (Rendered (RSC_TMPL w) None first));
            Did (WriteFile "prepdataxml.py" (Rendered (PREPDATA_TMPL w) None first));
            Did (WriteFile "prepsbasxml.py"
                   (Rendered (PREPSBAS_TMPL w) (Some (length rows)) first)) ]
      | [] => []
      end
   ++ [Did (Copy (path_join (BASE_PATH w) "userfn.py") "userfn.py")])%list.

(** The files of the working directory that end in the bundle. *)
Definition kept_files : list string :=
  ["filt_info.pkl"; "data.xml"; "example.rsc"; "ifg.list";
   "prepdataxml.py"; "prepsbasxml.py"; "sbas.xml"; "userfn.py"].

(** What the bundle assembler (lines 246-274) leaves in the trace when
    nothing raises, for the first browse image [png0]. *)
Definition assemble_trace (w : world) (id input_json_file png0 : string)
    : list event :=
  (Did (Makedirs id 493)
   :: flat_map (fun i => [ Did (Move i id);
                           Ran Compress
                             ("pigz -f -9 " ++ path_join id (basename i)) 0 ])
               (glob w "Stack/*")
   ++ [ Did (Copy png0 (path_join id "browse.png"));
        RanNoerr ("convert -resize 250x250 " ++ png0 ++ " "
                  ++ path_join id "browse_small.png") ]
   ++ map (fun i => Did (Move i id)) (glob w "Figs/Igrams/*.png")
   ++ Did (Copy input_json_file (path_join id (id ++ ".context.json")))
   :: map (fun f => Did (Move f id)) kept_files)%list.

(** A world like [w] in which the request file does not exist. *)
Definition without_request (w : world) : world :=
  {| BASE_PATH := BASE_PATH w; getcwd := getcwd w; abspath := abspath w;
     path_exists := fun _ => false;
     json_load := json_load w; get_envelope := get_envelope w;
     filter_ifgs := filter_ifgs w; set_iter := set_iter w;
     GRQ_ES_URL := GRQ_ES_URL w; DATASET_ALIAS := DATASET_ALIAS w;
     dataset_exists := dataset_exists w; exit_status := exit_status w;
     os_error := os_error w; h5_dates := h5_dates w; glob := glob w;
     RSC_TMPL := RSC_TMPL w; PREPDATA_TMPL := PREPDATA_TMPL w;
     PREPSBAS_TMPL := PREPSBAS_TMPL w |}.

(** A world like [w] in which the catalog query raises. *)
Definition catalog_down (w : world) : world :=
  {| BASE_PATH := BASE_PATH w; getcwd := getcwd w; abspath := abspath w;
     path_exists := path_exists w;
     json_load := json_load w; get_envelope := get_envelope w;
     filter_ifgs := filter_ifgs w; set_iter := set_iter w;
     GRQ_ES_URL := GRQ_ES_URL w; DATASET_ALIAS := DATASET_ALIAS w;
     dataset_exists := fun _ _ _ => inl (CollaboratorError "dataset_exists");
     exit_status := exit_status w;
     os_error := os_error w; h5_dates := h5_dates w; glob := glob w;
     RSC_TMPL := RSC_TMPL w; PREPDATA_TMPL := PREPDATA_TMPL w;
     PREPSBAS_TMPL := PREPSBAS_TMPL w |}.

(** A filter result whose first product name carries no track number. *)
Definition demo_filt_info_no_track : FiltInfo :=
  {| center_lines_utc := center_lines_utc demo_filt_info;
     ifg_info :=
       [("20170101_20170113", rec_b);
        ("20161220_20170101",
         {| product := "S1-IFG_RM_M1S1_TN_20170101T015012-20161220T015013";
            sensor := "S1"; sensor_name := "SAR-C Sentinel1";
            platform := PlatNone; fields := [] |})];
     ifg_coverage := [] |}.

(** The filter keeps nothing, and the working directory cannot be
    written to: every [open(..., "w")] raises. *)
Definition demo_nothing_left_readonly : world :=
  demo_world {| center_lines_utc := []; ifg_info := []; ifg_coverage := [] |}
    iter_asc false all_ok
    (fun _ o => match o with
                | WriteFile _ _ => true
                | _ => false
                end).

(** The empty-filter rejection as the specification words it: whenever
    the filter has returned a result without records, the run raises the
    error of line 138, and no step is invoked and no catalog query made. *)
Definition empty_result_rejected : Prop :=
  forall w f h r args fi,
    main w f [] = (h, r) ->
    Filtered args ∈ h ->
    filter_ifgs w args = inr fi ->
    ifg_info fi = [] ->
    r = Raise AllFilteredOutError /\
    Forall (fun e => ~ is_call e /\ ~ is_query e) h.

(** The two files of the handler of lines 324-330. *)
Definition error_txt : event :=
  Did (WriteFile "_alt_error.txt" (Text "str(e)")).
Definition traceback_txt : event :=
  Did (WriteFile "_alt_traceback.txt" (Text "traceback.format_exc()")).

(** A text of ASCII characters.  The strings of this development are
    sequences of 8-bit characters; a Python [str] is one of them exactly
    when it is ASCII, and on such a text the class [\d] of [re] is
    [0-9]. *)
Definition is_ascii_text (l : list ascii) : Prop :=
  Forall (fun c => (N_of_ascii c < 128)%N) l.

(** The product names on which the models of [TN_RE] and of [int] are
    those of Python: ASCII texts, short enough for every run of digits
    to stay within the 4300 digits that [int] converts by default. *)
Definition plain_name (s : string) : Prop :=
  is_ascii_text (list_ascii_of_string s) /\ (String.length s <= 4300)%nat.

(* ===================================================================== *)
(** * The library models against Python *)
(* ===================================================================== *)

(** The digests are those that [hashlib] prints. *)
Example md5_empty :
  hashlib.hexdigest hashlib.new = "d41d8cd98f00b204e9800998ecf8427e".
Proof. vm_compute. reflexivity. Qed.

Example md5_abc :
  hashlib.hexdigest (hashlib.update hashlib.new (encode_utf8 "abc"))
  = "900150983cd24fb0d6963f7d28e17f72".
Proof. vm_compute. reflexivity. Qed.

Example md5_two_blocks :
  hashlib.hexdigest (encode_utf8
    "12345678901234567890123456789012345678901234567890123456789012345678901234567890")
  = "57edf4a22be3c955ac49da2e2107b67a".
Proof. vm_compute. reflexivity. Qed.

Example md5_in_two_updates :
  hashlib.hexdigest
    (hashlib.update (hashlib.update hashlib.new (encode_utf8 "a")) (encode_utf8 "bc"))
  = "900150983cd24fb0d6963f7d28e17f72".
Proof. vm_compute. reflexivity. Qed.

Example fromordinal_dates :
  map (fun n => match fromordinal n with
                | inr d => isoformat d
                | inl _ => "ValueError"
                end) [0; 1; 60; 146097; 736330; 3652059; 3652060]
  = [ "ValueError"; "0001-01-01T00:00:00"; "0001-03-01T00:00:00";
      "0400-12-31T00:00:00"; "2017-01-01T00:00:00"; "9999-12-31T00:00:00";
      "ValueError" ].
Proof. vm_compute. reflexivity. Qed.

Example track_of_product :
  TN_RE_search_group1 "S1-IFG_RM_M1S1_TN042_20170101T015012-20161220T015013"
  = inr (list_ascii_of_string "042")
  /\ int_of_digits (list_ascii_of_string "042") = 42.
Proof. split; reflexivity. Qed.

Example track_missing :
  TN_RE_search_group1 "S1-IFG_TN_TNx_TN12"
  = inl (AttributeError "'NoneType' object has no attribute 'group'").
Proof. reflexivity. Qed.

Example sorted_by_code_point :
  sorted_keys [("b", 1); ("a", 2); ("B", 3); ("ab", 4)] = ["B"; "a"; "ab"; "b"].
Proof. vm_compute. reflexivity. Qed.

Example join_paths :
  path_join "a" "b" = "a/b" /\ path_join "a/" "b" = "a/b"
  /\ path_join "a" "/b" = "/b" /\ basename "Stack/PROC-STACK.h5" = "PROC-STACK.h5".
Proof. repeat split; reflexivity. Qed.

Example demo_ok_identity :
  (idn <~ derive_identity demo_ok demo_json demo_env demo_filt_info ;
   inr (id_str idn))
  = inr "filtered-ifg-stack_S1-TN42-20161220T015013Z-20170113T015011Z-0b7cc-v0.1".
Proof. vm_compute. reflexivity. Qed.

(* ===================================================================== *)
(** * The orders used by [sorted] and [list.sort] *)
(* ===================================================================== *)

Lemma string_leb_trans (a b c : string) :
  String.leb a b = true -> String.leb b c = true -> String.leb a c = true.
Proof.
  revert b c. induction a as [|x a IH]; intros [|y b] [|z c];
    unfold String.leb; simpl; try done.
  specialize (IH b c). unfold String.leb in IH. unfold Ascii.compare.
  destruct (N.compare_spec (N_of_ascii x) (N_of_ascii y)) as [Hxy|Hxy|Hxy];
    destruct (N.compare_spec (N_of_ascii y) (N_of_ascii z)) as [Hyz|Hyz|Hyz];
    try done;
    destruct (N.compare_spec (N_of_ascii x) (N_of_ascii z)) as [Hxz|Hxz|Hxz];
    try done; try lia.
  all: intros; auto.
Qed.

#[global] Instance str_le_total : Total str_le.
Proof. intros a b. apply String.leb_total. Qed.

#[global] Instance str_le_trans : Transitive str_le.
Proof. intros a b c. apply string_leb_trans. Qed.

#[global] Instance str_le_antisym : AntiSymm (=) str_le.
Proof. intros a b. apply String.leb_antisym. Qed.

Lemma lex_leb_total (a b : list Z) : lex_leb a b = true \/ lex_leb b a = true.
Proof.
  revert b. induction a as [|x a IH]; intros [|y b]; simpl; auto.
  destruct (IH b) as [H|H]; rewrite H;
    destruct (Z.ltb_spec x y), (Z.ltb_spec y x), (Z.eqb_spec x y), (Z.eqb_spec y x);
    simpl; auto; lia.
Qed.

Lemma lex_leb_trans (a b c : list Z) :
  lex_leb a b = true -> lex_leb b c = true -> lex_leb a c = true.
Proof.
  revert b c. induction a as [|x a IH]; intros [|y b] [|z c]; simpl; try done.
  specialize (IH b c).
  destruct (Z.ltb_spec x y), (Z.ltb_spec y z), (Z.ltb_spec x z),
    (Z.eqb_spec x y), (Z.eqb_spec y z), (Z.eqb_spec x z);
    simpl; try done; try lia; auto.
Qed.

Lemma lex_leb_antisym (a b : list Z) :
  lex_leb a b = true -> lex_leb b a = true -> a = b.
Proof.
  revert b. induction a as [|x a IH]; intros [|y b]; simpl; try done.
  specialize (IH b).
  destruct (Z.ltb_spec x y), (Z.ltb_spec y x), (Z.eqb_spec x y), (Z.eqb_spec y x);
    simpl; try done; try lia.
  intros. f_equal; auto.
Qed.

#[global] Instance dt_le_total : Total dt_le.
Proof. intros a b. apply lex_leb_total. Qed.

#[global] Instance dt_le_trans : Transitive dt_le.
Proof. intros a b c. apply lex_leb_trans. Qed.

#[global] Instance dt_le_antisym : AntiSymm (=) dt_le.
Proof.
  intros [] [] H1 H2. pose proof (lex_leb_antisym _ _ H1 H2) as E.
  unfold dt_fields in E. simpl in E. congruence.
Qed.

(** A sorted list starts with its least and ends with its greatest
    member. *)
Lemma sorted_head_least {A} (R : relation A) `{!Transitive R} `{!Reflexive R}
    (l : list A) (x y : A) :
  Sorted R l -> head l = Some x -> y ∈ l -> R x y.
Proof.
  intros Hs Hh Hy. apply Sorted_StronglySorted in Hs; [|done].
  destruct l as [|z l]; simplify_eq/=.
  apply StronglySorted_inv in Hs as [_ Hall].
  apply elem_of_cons in Hy as [->|Hy]; [reflexivity|].
  rewrite Forall_forall in Hall. by apply Hall.
Qed.

Lemma sorted_last_greatest {A} (R : relation A) `{!Transitive R} `{!Reflexive R}
    (l : list A) (x y : A) :
  Sorted R l -> last l = Some x -> y ∈ l -> R y x.
Proof.
  intros Hs Hl Hy. apply Sorted_StronglySorted in Hs; [|done].
  induction Hs as [|z l Hs IH Hall]; [by apply elem_of_nil in Hy|].
  destruct l as [|z' l].
  - simplify_eq/=. apply list_elem_of_singleton in Hy as ->. reflexivity.
  - change (last (z :: z' :: l)) with (last (z' :: l)) in Hl.
    apply elem_of_cons in Hy as [->|Hy]; [|by apply IH].
    rewrite Forall_forall in Hall. apply Hall.
    destruct (last (z' :: l)) eqn:E; simplify_eq. by eapply last_Some_elem_of.
Qed.

#[global] Instance dt_le_refl : Reflexive dt_le.
Proof. intros a. destruct (dt_le_total a a); done. Qed.

#[global] Instance str_le_refl : Reflexive str_le.
Proof. intros a. destruct (str_le_total a a); done. Qed.

(** Sorting forgets the order of its input. *)
Lemma merge_sort_perm_eq {A} (R : relation A) `{!RelDecision R}
    `{!Total R} `{!Transitive R} `{!AntiSymm (=) R} (l1 l2 : list A) :
  l1 ≡ₚ l2 -> merge_sort R l1 = merge_sort R l2.
Proof.
  intros Hp. apply (Sorted_unique R); try apply Sorted_merge_sort; try apply _.
  by rewrite !merge_sort_Permutation.
Qed.

(* ===================================================================== *)
(** * Reasoning about programs and their traces *)
(* ===================================================================== *)

Lemma bind_inv {A B} (m : M A) (k : A -> M B) h h' r :
  bind m k h = (h', r) ->
  (exists h1 a, m h = (h1, Ok a) /\ k a h1 = (h', r)) \/
  (exists e, m h = (h', Raise e) /\ r = Raise e) \/
  (exists c, m h = (h', SysExit c) /\ r = SysExit c).
Proof.
  unfold bind. destruct (m h) as [h1 [a|e|c]]; intros H.
  - left. eauto.
  - right. left. inversion H. eauto.
  - right. right. inversion H. eauto.
Qed.

Lemma lift_inv {A} (x : exn + A) h h' r :
  lift x h = (h', r) ->
  h' = h /\ ((exists a, x = inr a /\ r = Ok a) \/ (exists e, x = inl e /\ r = Raise e)).
Proof. destruct x; inversion 1; eauto. Qed.

Lemma appends_weaken {A} (P Q : event -> Prop) (m : M A) :
  (forall e, P e -> Q e) -> appends P m -> appends Q m.
Proof.
  intros HPQ Hm h h' r H. destruct (Hm _ _ _ H) as (t & -> & Ht).
  exists t. split; [done|]. eapply Forall_impl; eauto.
Qed.

Lemma appends_ret {A} P (a : A) : appends P (ret a).
Proof. intros h h' r; inversion 1. exists []. by rewrite app_nil_r. Qed.

Lemma appends_raise {A} P e : appends P (@raise A e).
Proof. intros h h' r; inversion 1. exists []. by rewrite app_nil_r. Qed.

Lemma appends_sys_exit {A} P c : appends P (@sys_exit A c).
Proof. intros h h' r; inversion 1. exists []. by rewrite app_nil_r. Qed.

Lemma appends_lift {A} P (x : exn + A) : appends P (lift x).
Proof. destruct x; [apply appends_raise | apply appends_ret]. Qed.

Lemma appends_emit (P : event -> Prop) e : P e -> appends P (emit e).
Proof. intros He h h' r; inversion 1. exists [e]. auto. Qed.

Lemma appends_perform w (P : event -> Prop) o :
  P (Did o) -> appends P (perform w o).
Proof.
  intros He h h' r. unfold perform. destruct (os_error w h o); inversion 1.
  - exists []. by rewrite app_nil_r.
  - exists [Did o]. auto.
Qed.

Lemma appends_check_call w (P : event -> Prop) site cmd :
  (forall rc, P (Ran site cmd rc)) -> appends P (check_call w site cmd).
Proof. intros He h h' r. unfold check_call. inversion 1. eexists [_]. auto. Qed.

Lemma appends_bind {A B} P (m : M A) (k : A -> M B) :
  appends P m -> (forall a, appends P (k a)) -> appends P (bind m k).
Proof.
  intros Hm Hk h h' r H.
  apply bind_inv in H as [(h1 & a & H1 & H2)|[(e & H1 & ->)|(c & H1 & ->)]].
  - destruct (Hm _ _ _ H1) as (t1 & -> & Ht1).
    destruct (Hk _ _ _ _ H2) as (t2 & -> & Ht2).
    exists (t1 ++ t2)%list. rewrite app_assoc. split; [done|].
    by apply Forall_app.
  - destruct (Hm _ _ _ H1) as (t1 & -> & Ht1). eauto.
  - destruct (Hm _ _ _ H1) as (t1 & -> & Ht1). eauto.
Qed.

Lemma appends_for_each {A} P (l : list A) (body : A -> M unit) :
  (forall x, appends P (body x)) -> appends P (for_each l body).
Proof.
  intros Hb. induction l as [|x l IH]; simpl.
  - apply appends_ret.
  - apply appends_bind; auto.
Qed.

Lemma appends_if {A} P (b : bool) (m1 m2 : M A) :
  appends P m1 -> appends P m2 -> appends P (if b then m1 else m2).
Proof. by destruct b. Qed.

Create HintDb trace discriminated.
#[global] Hint Resolve appends_ret appends_raise appends_sys_exit appends_lift
  appends_bind appends_for_each appends_if : trace.
#[global] Hint Extern 1 (appends _ (emit _)) =>
  apply appends_emit; simpl; exact I : trace.
#[global] Hint Extern 1 (appends _ (perform _ _)) =>
  apply appends_perform; simpl; exact I : trace.
#[global] Hint Extern 1 (appends _ (check_call _ _ _)) =>
  apply appends_check_call; intros; simpl; exact I : trace.
#[global] Hint Extern 1 (appends _ (call_noerr _)) =>
  apply appends_emit; simpl; exact I : trace.

(** Shows [appends P m] for a program [m] made of the primitives. *)
Ltac step_appends :=
  repeat first
    [ progress intros
    | match goal with
      | |- appends _ (let '(_, _) := ?p in _) => destruct p
      | |- appends _ (match ?x with _ => _ end) => destruct x
      end
    | solve [auto with trace]
    | apply appends_bind | apply appends_for_each ].

(* ===================================================================== *)
(** * The phases of [main] *)
(* ===================================================================== *)

Section Phases.

Variable w : world.

Lemma render_appends fi l : appends is_render_event (render w fi l).
Proof. unfold render. step_appends. Qed.

Lemma stages_appends : appends is_stage_event (stages w).
Proof. unfold stages, run_stage. step_appends. Qed.

Lemma read_timesteps_appends P : appends P (read_timesteps w).
Proof. unfold read_timesteps. step_appends. Qed.

Lemma assemble_appends id f : appends is_assemble_event (assemble w id f).
Proof. unfold assemble. step_appends. Qed.

Lemma emit_metadata_appends ij env fi idn ts :
  appends is_emit_event (emit_metadata w ij env fi idn ts).
Proof. unfold emit_metadata. step_appends. Qed.

Lemma cleanup_appends ij l : appends is_removal (cleanup w ij l).
Proof. unfold cleanup. step_appends. Qed.

Lemma produce_appends f ij env fi idn :
  appends is_produce_event (produce w f ij env fi idn).
Proof.
  unfold produce.
  apply appends_bind; [|intros _; apply appends_bind;
    [|intros _; apply appends_bind;
      [|intros ts; apply appends_bind; [|intros _]]]].
  - eapply appends_weaken; [|apply render_appends]. unfold is_produce_event; tauto.
  - eapply appends_weaken; [|apply stages_appends]. unfold is_produce_event; tauto.
  - apply read_timesteps_appends.
  - eapply appends_weaken; [|apply assemble_appends]. unfold is_produce_event; tauto.
  - eapply appends_weaken; [|apply emit_metadata_appends].
    unfold is_produce_event; tauto.
Qed.

Lemma report_error_appends e :
  appends (fun ev => exists p s, ev = Did (WriteFile p (Text s))) (report_error w e).
Proof.
  unfold report_error.
  apply appends_bind; intros; apply appends_perform; eauto.
Qed.

Lemma run_stage_inv s h h' r :
  run_stage w s h = (h', r) ->
  exists rc, h' = (h ++ [Ran (Stage s) (stage_cmd w s) rc])%list /\
    ((rc = 0 /\ r = Ok tt) \/
     (rc <> 0 /\ r = Raise (CalledProcessError (stage_cmd w s) rc))).
Proof.
  unfold run_stage, check_call. intros H. inversion H; subst; clear H.
  eexists; split; [reflexivity|].
  destruct (Z.eqb_spec (exit_status w h (stage_cmd w s)) 0); auto.
Qed.

(** The four steps run in order until one fails. *)
Lemma stages_run h h' r :
  stages w h = (h', r) ->
  exists t, h' = (h ++ t)%list /\ stage_run w [Step1; Step2; Step3; Step4] t r.
Proof.
  unfold stages. intros H.
  repeat match goal with
  | H : bind (run_stage w _) _ _ = _ |- _ =>
      apply bind_inv in H as [(? & [] & ?H1 & H)|[(? & ?H1 & ->)|(? & ?H1 & ->)]]
  end;
  repeat match goal with
  | H : run_stage w _ _ = _ |- _ =>
      apply run_stage_inv in H as (? & -> & [[-> ?]|[? ?]]); simplify_eq
  end;
  rewrite <- ?app_assoc; eexists; (split; [reflexivity|]); cbn [app];
  repeat first [ apply stage_run_done
               | by apply stage_run_fail | apply stage_run_ok ].
Qed.

Lemma read_timesteps_inv h h' r :
  read_timesteps w h = (h', r) ->
  h' = h /\
  forall ts, r = Ok ts ->
    exists times,
      h5_dates w (path_join (path_join (getcwd w) "Stack") "PROC-STACK.h5")
        = inr times /\
      emap (fun i => d <~ fromordinal i ; inr (isoformat d)) times = inr ts.
Proof.
  unfold read_timesteps. intros H.
  apply bind_inv in H as [(h1 & a & H1 & H2)|[(e & H1 & ->)|(c & H1 & ->)]];
    apply lift_inv in H1 as [-> H1].
  - apply lift_inv in H2 as [-> H2]. split; [done|]. intros ts ->.
    destruct H1 as [(a' & Ha & ?)|(? & ? & ?)]; simplify_eq.
    destruct H2 as [(ts' & Hts & ?)|(? & ? & ?)]; simplify_eq. eauto.
  - split; [done|]. intros; simplify_eq.
  - split; [done|]. intros; simplify_eq.
Qed.

Lemma emap_length {A B} (f : A -> exn + B) l l' :
  emap f l = inr l' -> length l' = length l.
Proof.
  revert l'. induction l as [|x l IH]; simpl; intros l' H; [by simplify_eq|].
  destruct (f x); simpl in H; [done|].
  destruct (emap f l); simpl in H; [done|]. simplify_eq. simpl. f_equal. auto.
Qed.

End Phases.

Section Runs.

Variable w : world.

(** Splits a hypothesis about [bind m k] into the three ways [m] ends. *)
Ltac inv_bind H :=
  let h1 := fresh "h" in
  let a := fresh "a" in
  let H1 := fresh "Hm" in
  let He := fresh "He" in
  apply bind_inv in H as [(h1 & a & H1 & H)|[(? & H1 & He)|(? & H1 & He)]];
  [ | match type of He with ?r = _ => first [discriminate He | subst r] end .. ].

Lemma perform_inv o h h' r :
  perform w o h = (h', r) ->
  (h' = h /\ r = Raise (OSError o)) \/ (h' = (h ++ [Did o])%list /\ r = Ok tt).
Proof. unfold perform. destruct (os_error w h o); inversion 1; auto. Qed.

Lemma identify_inv ij h h' r :
  identify w ij h = (h', r) ->
  exists t, h' = (h ++ t)%list /\ identify_run w ij t r.
Proof.
  unfold identify, run_filter, dump_filter_info, croak_if_empty, gate,
    bind, lift, ret, raise, emit, sys_exit, perform.
  intros H.
  repeat (case_match; simplify_eq).
  all: rewrite <- ?app_assoc; cbn [app].
  all: try (exists []; rewrite app_nil_r; split; [done|]).
  all: try (eexists; split; [reflexivity|]).
  all: try match goal with
       | H : (length ?l =? 0)%nat = false |- _ =>
           assert (l <> []) by (intros E; rewrite E in H; done)
       | H : (length ?l =? 0)%nat = true |- _ =>
           assert (l = []) by (destruct l; done)
       end.
  all: first
    [ by eapply no_envelope
    | by eapply filter_raised
    | by eapply dump_raised
    | eapply dumped; [done|done|];
      first [ by eapply all_filtered_out | by eapply no_identity
            | by eapply catalog_error | by eapply already_exists
            | by eapply not_yet_there ] ].
Qed.

(** Everything [identify] leaves in the trace. *)
Lemma identify_run_events ij t r :
  identify_run w ij t r ->
  Forall (fun e => match e with
                   | Filtered _ | Did (WriteFile _ (Pickle _)) | Queried _ _ _ _ => True
                   | _ => False
                   end) t.
Proof.
  destruct 1 as [| | |???? ?? Hd]; repeat constructor.
  destruct Hd; repeat constructor.
Qed.

(** The ways [main] can go: it stops before or at the gate, or it goes
    on to [produce] and, if that returns, to [cleanup]. *)
Lemma main_inv f h r :
  main w f [] = (h, r) ->
  (exists e, load w f = inl e /\ h = [] /\ r = Raise e) \/
  exists f' ij t1 r1,
    load w f = inr (f', ij) /\ identify_run w ij t1 r1 /\
    ((h = t1 /\ stopped r1 r) \/
     exists env fi idn t2 r2,
       r1 = Ok (env, fi, idn) /\
       produce w f' ij env fi idn t1 = ((t1 ++ t2)%list, r2) /\
       Forall is_produce_event t2 /\
       ((h = (t1 ++ t2)%list /\ stopped r2 r) \/
        exists t3,
          r2 = Ok tt /\
          cleanup w ij (id_ifg_list idn) (t1 ++ t2)%list = ((t1 ++ t2 ++ t3)%list, r) /\
          h = (t1 ++ t2 ++ t3)%list /\ Forall is_removal t3)).
Proof.
  unfold main. intros H.
  inv_bind H; apply lift_inv in Hm as [-> [([f' ij] & Hl & ?)|(e & Hl & ?)]];
    simplify_eq; [|left; eauto].
  right. exists f', ij.
  inv_bind H.
  2,3: apply identify_inv in Hm as (t1 & -> & Hrun); simpl;
       exists t1; eexists; (split; [done|]); (split; [done|]); left;
       (split; [done|]); unfold stopped; eauto.
  apply identify_inv in Hm as (t1 & -> & Hrun). simpl in *.
  destruct a as [[env fi] idn].
  exists t1, (Ok (env, fi, idn)). split; [done|]. split; [done|]. right.
  exists env, fi, idn.
  inv_bind H.
  2,3: destruct (produce_appends w _ _ _ _ _ _ _ _ Hm) as (t2 & -> & Ht2);
       exists t2; eexists; (split; [done|]); (split; [done|]); (split; [done|]);
       left; (split; [done|]); unfold stopped; eauto.
  destruct (produce_appends w _ _ _ _ _ _ _ _ Hm) as (t2 & -> & Ht2).
  destruct a. exists t2, (Ok tt). split; [done|]. split; [done|]. split; [done|].
  right. destruct (cleanup_appends w _ _ _ _ _ H) as (t3 & -> & Ht3).
  exists t3. rewrite <- app_assoc in *. done.
Qed.

Lemma for_each_perform_inv {A} (F : A -> op) (l : list A) h h' r :
  for_each l (fun x => perform w (F x)) h = (h', r) ->
  (r = Ok tt /\ h' = (h ++ map (fun x => Did (F x)) l)%list) \/
  (exists l1 x l2, l = (l1 ++ x :: l2)%list /\ r = Raise (OSError (F x)) /\
                   h' = (h ++ map (fun x => Did (F x)) l1)%list).
Proof.
  revert h. induction l as [|x l IH]; simpl; intros h H.
  - inversion H; subst. left. by rewrite app_nil_r.
  - inv_bind H; apply perform_inv in Hm as [[-> ?]|[-> ?]]; simplify_eq.
    + apply IH in H as [[-> ->]|(l1 & y & l2 & -> & -> & ->)].
      * left. by rewrite <- app_assoc.
      * right. exists (x :: l1), y, l2. by rewrite <- app_assoc.
    + right. exists [], x, l. by rewrite app_nil_r.
Qed.

Lemma stage_run_ok_inv l t :
  stage_run w l t (Ok tt) ->
  t = map (fun s => Ran (Stage s) (stage_cmd w s) 0) l.
Proof.
  intros H. remember (Ok tt) as r eqn:Hr. induction H; simplify_eq/=; [done|].
  f_equal. auto.
Qed.

Lemma assemble_ok id f h h' :
  assemble w id f h = (h', Ok tt) ->
  exists t, h' = (h ++ Did (Makedirs id 493) :: t)%list /\
            Forall is_assemble_event t.
Proof.
  intros H. pose proof (assemble_appends w id f _ _ _ H) as (t & -> & Ht).
  unfold assemble in H. inv_bind H.
  apply perform_inv in Hm as [[-> ?]|[-> ?]]; simplify_eq.
  match type of H with ?m _ = _ => assert (appends is_assemble_event m) as Ha
    by step_appends end.
  destruct (Ha _ _ _ H) as (t' & E & Ht'). rewrite <- app_assoc in E.
  apply app_inv_head in E. subst. eauto.
Qed.

Lemma emit_metadata_ok ij env fi idn ts h h' :
  emit_metadata w ij env fi idn ts h = (h', Ok tt) ->
  exists m,
    build_met ij env fi idn ts = inr m /\
    h' = (h ++ [ Did (WriteFile (path_join (id_str idn) (id_str idn ++ ".met.json"))
                               (MetJson m));
                 Did (WriteDatasetJson (id_str idn) (id_str idn) (geojson_bbox env)
                        (sensing_time_initial m) (sensing_time_final m)
                        DATASET_VERSION) ])%list.
Proof.
  unfold emit_metadata. intros H.
  inv_bind H. apply lift_inv in Hm as [-> [(m & Hmet & ?)|(? & ? & ?)]]; simplify_eq.
  inv_bind H. apply perform_inv in Hm as [[-> ?]|[-> ?]]; simplify_eq.
  apply perform_inv in H as [[-> ?]|[-> ?]]; simplify_eq.
  exists m. by rewrite <- app_assoc.
Qed.

Lemma cleanup_inv ij l h h' r :
  cleanup w ij l h = (h', r) ->
  (r = Ok tt /\
   h' = (h ++ map (fun p => Did (Rmtree p)) (products ij)
           ++ map (fun k => Did (Unlink k)) l)%list) \/
  (exists p, r = Raise (OSError (Rmtree p))) \/
  (exists k, r = Raise (OSError (Unlink k))).
Proof.
  unfold cleanup. intros H. inv_bind H.
  - apply for_each_perform_inv in Hm as [[_ ->]|(? & ? & ? & ? & ? & ?)]; [|done].
    apply for_each_perform_inv in H as [[-> ->]|(? & k & ? & ? & -> & ?)].
    + left. by rewrite <- app_assoc.
    + right. right. eauto.
  - apply for_each_perform_inv in Hm as [[? _]|(? & p & ? & ? & ? & ?)]; [done|].
    simplify_eq. right. left. eauto.
  - apply for_each_perform_inv in Hm as [[? _]|(? & p & ? & ? & ? & ?)]; done.
Qed.

(** The ways [produce] can go: the rendering raises; or a stage fails;
    or the four stages pass and the assembler and the emitter follow. *)
Lemma produce_inv f ij env fi idn h h' r :
  produce w f ij env fi idn h = (h', r) ->
  exists tr, Forall is_render_event tr /\
    ((h' = (h ++ tr)%list /\ r <> Ok tt) \/
     exists ts rs, stage_run w [Step1; Step2; Step3; Step4] ts rs /\
       ((h' = (h ++ tr ++ ts)%list /\ rs <> Ok tt /\ r = rs) \/
        (rs = Ok tt /\ exists tb,
           h' = (h ++ tr ++ ts ++ tb)%list /\
           Forall (fun e => is_assemble_event e \/ is_emit_event e) tb /\
           (r = Ok tt ->
            exists times tsteps ta m,
              h5_dates w (path_join (path_join (getcwd w) "Stack") "PROC-STACK.h5")
                = inr times /\
              emap (fun i => d <~ fromordinal i ; inr (isoformat d)) times
                = inr tsteps /\
              build_met ij env fi idn tsteps = inr m /\
              Forall is_assemble_event ta /\
              tb = (Did (Makedirs (id_str idn) 493) :: ta ++
                    [ Did (WriteFile (path_join (id_str idn)
                                        (id_str idn ++ ".met.json")) (MetJson m));
                      Did (WriteDatasetJson (id_str idn) (id_str idn)
                             (geojson_bbox env) (sensing_time_initial m)
                             (sensing_time_final m) DATASET_VERSION) ])%list)))).
Proof.
  unfold produce. intros H.
  inv_bind H;
    destruct (render_appends w _ _ _ _ _ Hm) as (tr & -> & Htr);
    exists tr; (split; [done|]); try (left; split; done).
  right. inv_bind H;
    destruct (stages_run w _ _ _ Hm0) as (ts & -> & Hts);
    exists ts; eexists; (split; [exact Hts|]);
    try (left; rewrite <- app_assoc; repeat split; done).
  right. destruct a0. split; [done|].
  inv_bind H; apply read_timesteps_inv in Hm1 as [-> Hdates].
  2,3: exists []; rewrite !app_nil_r, <- app_assoc; repeat split; done.
  destruct (Hdates _ eq_refl) as (times & Hh5 & Hsteps).
  inv_bind H.
  2,3: destruct (assemble_appends w _ _ _ _ _ Hm1) as (ta & -> & Hta);
       exists ta; rewrite <- !app_assoc; repeat split; try done;
       eapply Forall_impl; eauto; tauto.
  destruct a1. apply assemble_ok in Hm1 as (ta & -> & Hta).
  destruct (emit_metadata_appends w _ _ _ _ _ _ _ _ H) as (te & -> & Hte).
  exists ((Did (Makedirs (id_str idn) 493) :: ta) ++ te)%list.
  rewrite <- !app_assoc. split; [done|]. split.
  - apply Forall_app. split; [constructor; [by left|]|];
      eapply Forall_impl; eauto; tauto.
  - intros ->. apply emit_metadata_ok in H as (m & Hmet & E).
    apply app_inv_head in E. subst te.
    exists times, a0, ta, m. repeat split; done.
Qed.

(** The trace of a run that returns. *)
Lemma main_ok_shape f h :
  main w f [] = (h, Ok tt) ->
  exists f' ij env fi idn tr ta times tsteps m,
    load w f = inr (f', ij) /\
    envelope_of w ij = inr env /\
    filter_ifgs w (filter_args ij env) = inr fi /\
    ifg_info fi <> [] /\
    derive_identity w ij env fi = inr idn /\
    h5_dates w (path_join (path_join (getcwd w) "Stack") "PROC-STACK.h5")
      = inr times /\
    emap (fun i => d <~ fromordinal i ; inr (isoformat d)) times = inr tsteps /\
    build_met ij env fi idn tsteps = inr m /\
    Forall is_render_event tr /\
    Forall is_assemble_event ta /\
    h = ([ Filtered (filter_args ij env);
           Did (WriteFile "filt_info.pkl" (Pickle fi));
           Queried (GRQ_ES_URL w) (DATASET_ALIAS w) (id_str idn) false ]
         ++ tr
         ++ map (fun s => Ran (Stage s) (stage_cmd w s) 0) [Step1; Step2; Step3; Step4]
         ++ Did (Makedirs (id_str idn) 493) :: ta
         ++ [ Did (WriteFile (path_join (id_str idn) (id_str idn ++ ".met.json"))
                             (MetJson m));
              Did (WriteDatasetJson (id_str idn) (id_str idn) (geojson_bbox env)
                     (sensing_time_initial m) (sensing_time_final m)
                     DATASET_VERSION) ]
         ++ map (fun p => Did (Rmtree p)) (products ij)
         ++ map (fun k => Did (Unlink k)) (id_ifg_list idn))%list.
Proof.
  intros H. apply main_inv in H as [(e & _ & _ & ?)|H]; [done|].
  destruct H as (f' & ij & t1 & r1 & Hload & Hrun & H).
  destruct H as [[_ [(? & _ & ?)|(? & _ & ?)]]|H]; try done.
  destruct H as (env & fi & idn & t2 & r2 & -> & Hprod & _ & H).
  destruct H as [[_ [(? & _ & ?)|(? & _ & ?)]]|H]; try done.
  destruct H as (t3 & -> & Hclean & -> & _).
  inversion Hrun as [| | |env' fi' t r Henv Hfilt Hdump]; subst.
  inversion Hdump as [| | | |idn' Hne Hid Hq]; subst.
  apply produce_inv in Hprod as (tr & Htr & H).
  destruct H as [[_ ?]|(ts & rs & Hts & H)]; [done|].
  destruct H as [(_ & ? & ?)|(-> & tb & E & _ & Hok)]; [congruence|].
  destruct (Hok eq_refl) as (times & tsteps & ta & m & ? & ? & ? & ? & ->).
  apply app_inv_head in E. subst t2.
  apply stage_run_ok_inv in Hts. subst ts.
  apply cleanup_inv in Hclean as [[_ E]|[(? & ?)|(? & ?)]]; try done.
  rewrite <- !app_assoc in E. apply app_inv_head in E.
  do 2 apply app_inv_head in E. cbn [app] in E.
  injection E as E. apply app_inv_head in E.
  exists f', ij, env, fi, idn, tr, ta, times, tsteps, m.
  repeat (split; [done|]). subst t3. cbn [app].
  by repeat (f_equal; rewrite <- ?app_assoc; cbn [app]).
Qed.

Lemma stage_run_cases l t r :
  stage_run w l t r ->
  (r = Ok tt /\ t = map (passed w) l) \/
  (exists l1 s l2 rc,
     l = (l1 ++ s :: l2)%list /\ rc <> 0 /\
     t = (map (passed w) l1 ++ [Ran (Stage s) (stage_cmd w s) rc])%list /\
     r = Raise (CalledProcessError (stage_cmd w s) rc)).
Proof.
  induction 1 as [|s rest t r H IH|s rest rc Hrc].
  - by left.
  - destruct IH as [[-> ->]|(l1 & s' & l2 & rc & -> & ? & -> & ->)].
    + by left.
    + right. by exists (s :: l1), s', l2, rc.
  - right. by exists [], s, rest, rc.
Qed.

(** Where a run stands with respect to the four stages: it never got to
    the first one; or one of them failed, and that is the last thing
    that happened; or all four passed. *)
Lemma main_stage_cases f h r :
  main w f [] = (h, r) ->
  (r <> Ok tt /\ Forall is_pre_stage_event h) \/
  (exists tpre l1 s l2 rc,
     Forall is_pre_stage_event tpre /\
     all_stages = (l1 ++ s :: l2)%list /\ rc <> 0 /\
     h = (tpre ++ map (passed w) l1 ++ [Ran (Stage s) (stage_cmd w s) rc])%list /\
     r = Raise (CalledProcessError (stage_cmd w s) rc)) \/
  (exists tpre tpost,
     Forall is_pre_stage_event tpre /\ Forall is_post_stage_event tpost /\
     h = (tpre ++ map (passed w) all_stages ++ tpost)%list).
Proof.
  intros H. apply main_inv in H as [(e & _ & -> & ->)|H]; [left; by split|].
  destruct H as (f' & ij & t1 & r1 & Hload & Hrun & H).
  assert (Forall is_pre_stage_event t1) as Ht1.
  { eapply Forall_impl; [by eapply identify_run_events|].
    intros [| [] | | |]; simpl; try done. by destruct c. }
  destruct H as [[-> Hs]|H].
  { left. split; [|done]. by destruct Hs as [(? & _ & ->)|(? & _ & ->)]. }
  destruct H as (env & fi & idn & t2 & r2 & -> & Hprod & _ & H).
  apply produce_inv in Hprod as (tr & Htr & Hp).
  assert (Forall is_pre_stage_event (t1 ++ tr)) as Hpre.
  { apply Forall_app. split; [done|]. eapply Forall_impl; [exact Htr|].
    intros [| [] | | |]; simpl; try done. by destruct c. }
  destruct Hp as [[E Hr2]|(ts & rs & Hts & Hp)].
  { apply app_inv_head in E. subst t2. left.
    destruct H as [[-> Hs]|(t3 & -> & _)]; [|done]. split; [|done].
    by destruct Hs as [(? & _ & ->)|(? & _ & ->)]. }
  apply stage_run_cases in Hts.
  destruct Hp as [(E & Hrs & ->)|(-> & tb & E & Htb & _)];
    apply app_inv_head in E; subst t2.
  - destruct Hts as [[? _]|(l1 & s & l2 & rc & Hl & Hrc & -> & ->)]; [done|].
    destruct H as [[-> Hs]|(t3 & ? & _)]; [|done].
    destruct Hs as [(? & ? & ->)|(? & ? & _)]; [|done]. simplify_eq.
    right. left. exists (t1 ++ tr)%list, l1, s, l2, rc.
    repeat split; try done. by rewrite <- !app_assoc.
  - destruct Hts as [[_ ->]|(? & ? & ? & ? & _ & _ & _ & ?)]; [|done].
    right. right.
    destruct H as [[-> _]|(t3 & _ & _ & -> & Ht3)].
    + exists (t1 ++ tr)%list, tb. split; [done|]. split.
      * eapply Forall_impl; [exact Htb|]. unfold is_post_stage_event. tauto.
      * by rewrite <- !app_assoc.
    + exists (t1 ++ tr)%list, (tb ++ t3)%list. split; [done|]. split.
      * apply Forall_app. split; (eapply Forall_impl; [eassumption|]);
          unfold is_post_stage_event; tauto.
      * by rewrite <- !app_assoc.
Qed.

End Runs.

(* ===================================================================== *)
(** * The process and the stage events *)
(* ===================================================================== *)

(** The process adds nothing to the trace of [main] but the two error
    files, and only after an exception. *)
Lemma script_inv w f :
  exists h r t,
    main w f [] = (h, r) /\
    (script w f).1 = (h ++ t)%list /\
    Forall is_error_file t /\
    (script w f).2 = match r with Ok _ => 0 | SysExit c => c | Raise _ => 1 end /\
    (t <> [] -> exists e, r = Raise e).
Proof.
  unfold script. destruct (main w f []) as [h [[]|e|c]] eqn:E.
  - exists h, (Ok tt), []. rewrite app_nil_r. by repeat split.
  - destruct (report_error w e h) as [h' r'] eqn:Er.
    destruct (report_error_appends w e _ _ _ Er) as (t & -> & Ht).
    exists h, (Raise e), t. repeat split; eauto.
  - exists h, (SysExit c), []. rewrite app_nil_r. by repeat split.
Qed.




Lemma pre_stage_not_stage e : is_pre_stage_event e -> ~ is_stage_event e.
Proof. destruct e as [| [? []| | | | | |] | [] | |]; simpl; tauto. Qed.

Lemma post_stage_not_stage e : is_post_stage_event e -> ~ is_stage_event e.
Proof.
  unfold is_post_stage_event.
  destruct e as [| [? []| | | | | |] | [] | |]; simpl; tauto.
Qed.



(* ===================================================================== *)
(** * Failure of a stage *)
(* ===================================================================== *)

Lemma pre_stage_not_bundle e :
  is_pre_stage_event e -> ~ is_bundle_event e /\ ~ is_removal e.
Proof. destruct e as [| [? []| | | | | |] | [] | |]; simpl; tauto. Qed.

Lemma error_file_not_bundle e :
  is_error_file e -> ~ is_bundle_event e /\ ~ is_removal e.
Proof. intros (p & s & ->). simpl. tauto. Qed.

Lemma passed_not_bundle w s :
  ~ is_bundle_event (passed w s) /\ ~ is_removal (passed w s).
Proof. simpl. tauto. Qed.

(** C5: if one of the four steps exits with a non-zero status, the
    process ends with status 1 and its trace holds no event of the bundle
    assembler or the metadata emitter (no [makedirs], no move, no
    compression, no metadata record, no descriptor) and no removal: no
    directory is created under the identity and no input product or
    symlink is deleted. *)
Theorem failed_stage_no_bundle w f s cmd rc :
  Ran (Stage s) cmd rc ∈ (script w f).1 -> rc <> 0 ->
  (script w f).2 = 1 /\
  Forall (fun e => ~ is_bundle_event e /\ ~ is_removal e) (script w f).1.
Proof.
  intros Hin Hrc.
  destruct (script_inv w f) as (h & r & t & Hmain & Hh & Ht & Hst & _).
  rewrite Hh in *. rewrite Hst. clear Hh Hst.
  apply elem_of_app in Hin as [Hin|Hin].
  2: { rewrite Forall_forall in Ht. destruct (Ht _ Hin) as (? & ? & ?). done. }
  assert (Forall (fun e => ~ is_bundle_event e /\ ~ is_removal e) t) as Ht'
    by (eapply Forall_impl; [exact Ht|apply error_file_not_bundle]).
  apply main_stage_cases in Hmain as [[Hr Hpre]|[H|H]].
  - rewrite Forall_forall in Hpre. by destruct (pre_stage_not_stage _ (Hpre _ Hin)).
  - destruct H as (tpre & l1 & s' & l2 & rc' & Hpre & Hl & Hrc' & -> & ->).
    split; [done|]. rewrite !Forall_app. repeat split; try done.
    + eapply Forall_impl; [exact Hpre|apply pre_stage_not_bundle].
    + apply Forall_forall. intros e He. apply list_elem_of_fmap in He as (? & -> & _).
      apply passed_not_bundle.
    + constructor; [simpl; tauto|constructor].
  - destruct H as (tpre & tpost & Hpre & Hpost & ->). exfalso.
    rewrite !elem_of_app in Hin. destruct Hin as [Hin|[Hin|Hin]].
    + rewrite Forall_forall in Hpre. by destruct (pre_stage_not_stage _ (Hpre _ Hin)).
    + apply list_elem_of_fmap in Hin as (? & E & _). unfold passed in E. congruence.
    + rewrite Forall_forall in Hpost.
      by destruct (post_stage_not_stage _ (Hpost _ Hin)).
Qed.

Lemma failed_stage_no_bundle_witness :
  Ran (Stage Step3) "python2 prepsbasxml.py" 2 ∈ (script demo_step3_fails "req.json").1 /\
  2 <> 0 /\
  (script demo_step3_fails "req.json").2 = 1 /\
  Forall (fun e => ~ is_bundle_event e /\ ~ is_removal e)
         (script demo_step3_fails "req.json").1.
Proof.
  assert (Ran (Stage Step3) "python2 prepsbasxml.py" 2
          ∈ (script demo_step3_fails "req.json").1) as Hin.
  { apply list_elem_of_In. vm_compute. do 10 right. left. reflexivity. }
  split; [exact Hin|]. split; [lia|].
  apply (failed_stage_no_bundle demo_step3_fails "req.json" Step3
           "python2 prepsbasxml.py" 2); [exact Hin|lia].
Defined.

(* ===================================================================== *)
(** * The snapshot, the empty check and the gate *)
(* ===================================================================== *)

(** A run seen from the filter: nothing happened; or the filter returned
    and the snapshot raised; or the snapshot was written and the run went
    on to the empty check, the identity and the gate, and past the gate
    only if the identity was derived and not found. *)
Lemma main_gate_cases w f h r :
  main w f [] = (h, r) ->
  (h = [] /\ exists e, r = Raise e) \/
  exists f' ij env fi,
    load w f = inr (f', ij) /\ envelope_of w ij = inr env /\
    filter_ifgs w (filter_args ij env) = inr fi /\
    ((h = [Filtered (filter_args ij env)] /\
      r = Raise (OSError (WriteFile "filt_info.pkl" (Pickle fi)))) \/
     exists t1 r1 t,
       after_dump w ij env fi t1 r1 /\
       h = (Filtered (filter_args ij env)
            :: Did (WriteFile "filt_info.pkl" (Pickle fi)) :: t1 ++ t)%list /\
       Forall (fun e => is_produce_event e \/ is_removal e) t /\
       ((t = [] /\ stopped r1 r) \/ exists idn, r1 = Ok (env, fi, idn))).
Proof.
  intros H. apply main_inv in H as [(e & _ & -> & ->)|H]; [left; eauto|].
  destruct H as (f' & ij & t1 & r1 & Hload & Hrun & H).
  destruct Hrun as [e Henv|env e Henv Hf|env fi Henv Hf|env fi t1 r1 Henv Hf Hd].
  - left. destruct H as [[-> [(? & ? & ->)|(? & ? & _)]]|(? & ? & ? & ? & ? & ? & _)];
      simplify_eq. eauto.
  - left. destruct H as [[-> [(? & ? & ->)|(? & ? & _)]]|(? & ? & ? & ? & ? & ? & _)];
      simplify_eq. eauto.
  - right. exists f', ij, env, fi. repeat (split; [done|]). left.
    destruct H as [[-> [(? & ? & ->)|(? & ? & _)]]|(? & ? & ? & ? & ? & ? & _)];
      by simplify_eq.
  - right. exists f', ij, env, fi. repeat (split; [done|]). right.
    destruct H as [[-> Hs]|(env' & fi' & idn & t2 & r2 & -> & _ & Ht2 & H)].
    + exists t1, r1, []. rewrite app_nil_r.
      split; [done|]. split; [done|]. split; [done|]. left. by split.
    + inversion Hd; subst.
      destruct H as [[-> _]|(t3 & _ & _ & -> & Ht3)].
      * eexists _, _, t2. split; [exact Hd|]. split; [done|]. split; [|eauto].
        eapply Forall_impl; [exact Ht2|]. tauto.
      * eexists _, _, (t2 ++ t3)%list. split; [exact Hd|]. split; [done|].
        split; [|eauto]. apply Forall_app.
        split; (eapply Forall_impl; [eassumption|]); tauto.
Qed.

Lemma produce_or_removal_inv e :
  is_produce_event e \/ is_removal e ->
  match e with
  | Filtered _ | Queried _ _ _ _ | Did (WriteFile _ (Pickle _))
  | Did (WriteFile _ (Text _)) => False
  | _ => True
  end.
Proof.
  unfold is_produce_event.
  destruct e as [| [? []| | | | | |] | [] | |]; simpl; tauto.
Qed.

(** The empty-filter rejection, as the specification words it, fails:
    the snapshot is written before the check of line 137, so when that
    write raises the run ends with its [OSError], not with the error of
    line 138. *)
Lemma empty_result_rejected_refuted : ~ empty_result_rejected.
Proof.
  intros Hclaim.
  destruct (main demo_nothing_left_readonly "req.json" []) as [h r] eqn:Hrun.
  assert (Filtered (filter_args demo_json demo_env) ∈ h) as Hin.
  { vm_compute in Hrun. injection Hrun as <- _.
    apply list_elem_of_singleton. vm_compute. reflexivity. }
  destruct (Hclaim demo_nothing_left_readonly "req.json" h r
              (filter_args demo_json demo_env)
              {| center_lines_utc := []; ifg_info := []; ifg_coverage := [] |}
              Hrun Hin eq_refl eq_refl) as [Hr _].
  vm_compute in Hrun. injection Hrun as _ <-. discriminate Hr.
Qed.

(** C4, amended: when the filter has returned a result without records,
    the run ends in one of two ways and in no other.  Either the snapshot
    is written and the run raises the error of line 138 with the snapshot
    as its last event; or the write of the snapshot raises, and the run
    ends with that [OSError] right after the filter.  The first happens
    whenever the write does not raise.  Either way nothing is invoked, no
    catalog query is made (so no identity is looked up), no directory is
    made, and the process ends with status 1. *)
Theorem empty_filter_result_rejected w f h r args fi :
  main w f [] = (h, r) ->
  Filtered args ∈ h ->
  filter_ifgs w args = inr fi ->
  ifg_info fi = [] ->
  ((h = [Filtered args; Did (WriteFile "filt_info.pkl" (Pickle fi))] /\
    r = Raise AllFilteredOutError) \/
   (h = [Filtered args] /\
    r = Raise (OSError (WriteFile "filt_info.pkl" (Pickle fi))))) /\
  (os_error w [Filtered args] (WriteFile "filt_info.pkl" (Pickle fi)) = false ->
   r = Raise AllFilteredOutError) /\
  (Did (WriteFile "filt_info.pkl" (Pickle fi)) ∈ h -> r = Raise AllFilteredOutError) /\
  Forall (fun e => ~ is_call e /\ ~ is_query e /\ ~ is_mkdir e) h /\
  (script w f).2 = 1.
Proof.
  intros Hmain Hin Hf Hempty.
  assert ((script w f).2 = match r with Ok _ => 0 | SysExit c => c | Raise _ => 1 end)
    as Hst by (unfold script; rewrite Hmain; by destruct r).
  rewrite Hst. clear Hst.
  pose proof Hmain as Hrun.
  apply main_gate_cases in Hmain as [[-> _]|H]; [by apply elem_of_nil in Hin|].
  destruct H as (f' & ij & env & fi' & Hload & Henv & Hf' & H).
  assert (args = filter_args ij env) as ->.
  { destruct H as [[-> _]|(t1 & r1 & t & Hd & -> & Ht & _)].
    - apply list_elem_of_singleton in Hin. congruence.
    - rewrite !elem_of_cons, elem_of_app in Hin.
      destruct Hin as [?|[?|[Hin|Hin]]]; try done; [congruence| |].
      + inversion Hd; subst; rewrite ?elem_of_nil, ?list_elem_of_singleton in Hin;
          done.
      + rewrite Forall_forall in Ht. by destruct (produce_or_removal_inv _ (Ht _ Hin)). }
  assert (fi' = fi) as -> by congruence.
  assert (main w f [] =
          if os_error w [Filtered (filter_args ij env)]
               (WriteFile "filt_info.pkl" (Pickle fi))
          then ([Filtered (filter_args ij env)],
                Raise (OSError (WriteFile "filt_info.pkl" (Pickle fi))))
          else ([Filtered (filter_args ij env);
                 Did (WriteFile "filt_info.pkl" (Pickle fi))],
                Raise AllFilteredOutError)) as Hshape.
  { unfold main, identify, run_filter, dump_filter_info, croak_if_empty,
      bind, lift, perform, emit, ret, raise.
    rewrite Hload, Henv, Hf. simpl.
    destruct (os_error w [Filtered (filter_args ij env)]
                (WriteFile "filt_info.pkl" (Pickle fi))); [done|].
    by rewrite Hempty. }
  clear H. rewrite Hrun in Hshape.
  destruct (os_error w [Filtered (filter_args ij env)]
              (WriteFile "filt_info.pkl" (Pickle fi))); simplify_eq.
  - split; [by right|]. split; [done|]. split.
    + by intros ?%list_elem_of_singleton.
    + split; [|done]. repeat constructor; simpl; tauto.
  - split; [by left|]. split; [done|]. split; [done|].
    split; [|done]. repeat constructor; simpl; tauto.
Qed.

(** The run of [demo_nothing_left], whose snapshot is written. *)
Lemma empty_filter_result_rejected_witness :
  exists h r,
    main demo_nothing_left "req.json" [] = (h, r) /\
    Filtered (filter_args demo_json demo_env) ∈ h /\
    r = Raise AllFilteredOutError /\
    (script demo_nothing_left "req.json").2 = 1.
Proof.
  destruct (main demo_nothing_left "req.json" []) as [h r] eqn:Hrun.
  exists h, r. split; [reflexivity|].
  assert (Filtered (filter_args demo_json demo_env) ∈ h) as Hin.
  { vm_compute in Hrun. injection Hrun as <- _.
    apply list_elem_of_In. vm_compute. left. reflexivity. }
  split; [exact Hin|].
  destruct (empty_filter_result_rejected demo_nothing_left "req.json" h r
              (filter_args demo_json demo_env)
              {| center_lines_utc := []; ifg_info := []; ifg_coverage := [] |}
              Hrun Hin eq_refl eq_refl) as (_ & Hr & _ & _ & Hst).
  split; [apply Hr; reflexivity|exact Hst].
Defined.



(* ===================================================================== *)
(** * The idempotent skip *)
(* ===================================================================== *)

Lemma found_in_catalog w f h r u i id :
  main w f [] = (h, r) ->
  Queried u i id true ∈ h ->
  r = SysExit 0 /\
  exists args fi,
    h = [Filtered args; Did (WriteFile "filt_info.pkl" (Pickle fi));
         Queried u i id true].
Proof.
  intros Hmain Hin.
  apply main_gate_cases in Hmain as [[-> _]|H]; [by apply elem_of_nil in Hin|].
  destruct H as (f' & ij & env & fi & Hload & Henv & Hf & H).
  destruct H as [[-> ->]|(t1 & r1 & t & Hd & -> & Ht & H)].
  { apply list_elem_of_singleton in Hin. done. }
  rewrite !elem_of_cons, elem_of_app in Hin.
  destruct Hin as [?|[?|[Hi|Hi]]]; try done.
  - inversion Hd; subst; rewrite ?elem_of_nil, ?list_elem_of_singleton in Hi;
      try done. simplify_eq.
    destruct H as [[-> [(? & ? & _)|(? & ? & ->)]]|(? & ?)]; simplify_eq.
    split; [done|]. eauto.
  - rewrite Forall_forall in Ht. by destruct (produce_or_removal_inv _ (Ht _ Hi)).
Qed.

(** C2, as the specification words it, fails: the run of [demo_exists]
    finds its identity in the catalog and has written [filt_info.pkl]. *)
Lemma skip_writes_nothing_refuted : ~ skip_writes_nothing.
Proof.
  intros Hclaim.
  destruct (Hclaim demo_exists "req.json" "http://grq:9200" "grq"
    "filtered-ifg-stack_S1-TN42-20161220T015013Z-20170113T015011Z-0b7cc-v0.1")
    as [_ Hall].
  { apply list_elem_of_In. vm_compute. do 2 right. left. reflexivity. }
  rewrite Forall_forall in Hall.
  destruct (Hall (Did (WriteFile "filt_info.pkl" (Pickle demo_filt_info))))
    as (_ & _ & Hw).
  { apply list_elem_of_In. vm_compute. right. left. reflexivity. }
  apply Hw. exact I.
Qed.

(** C2, amended: when the catalog holds the identity, the process ends
    with status 0 and all that happened is the filter call, the write of
    [filt_info.pkl] and the catalog query: no stage, no directory, and no
    file but the snapshot. *)
Theorem skip_leaves_only_snapshot w f u i id :
  Queried u i id true ∈ (script w f).1 ->
  (script w f).2 = 0 /\
  exists args fi,
    (script w f).1
    = [Filtered args; Did (WriteFile "filt_info.pkl" (Pickle fi));
       Queried u i id true].
Proof.
  intros Hin.
  destruct (script_inv w f) as (h & r & t & Hmain & Hh & Ht & Hst & Hne).
  rewrite Hh in *. rewrite Hst. clear Hh Hst.
  apply elem_of_app in Hin as [Hin|Hin].
  2: { rewrite Forall_forall in Ht. destruct (Ht _ Hin) as (? & ? & ?). done. }
  destruct (found_in_catalog _ _ _ _ _ _ _ Hmain Hin) as (-> & args & fi & ->).
  split; [done|]. exists args, fi.
  destruct t as [|e t]; [done|]. destruct Hne as (? & ?); done.
Qed.

Lemma skip_leaves_only_snapshot_witness :
  Queried "http://grq:9200" "grq"
    "filtered-ifg-stack_S1-TN42-20161220T015013Z-20170113T015011Z-0b7cc-v0.1" true
    ∈ (script demo_exists "req.json").1 /\
  (script demo_exists "req.json").2 = 0.
Proof.
  assert (Queried "http://grq:9200" "grq"
    "filtered-ifg-stack_S1-TN42-20161220T015013Z-20170113T015011Z-0b7cc-v0.1" true
    ∈ (script demo_exists "req.json").1) as Hin.
  { apply list_elem_of_In. vm_compute. do 2 right. left. reflexivity. }
  split; [exact Hin|].
  apply (skip_leaves_only_snapshot demo_exists "req.json" _ _ _ Hin).
Defined.

(* ===================================================================== *)
(** * What the identity generator returns *)
(* ===================================================================== *)

Lemma ebind_inr {A B} (x : exn + A) (k : A -> exn + B) b :
  ebind x k = inr b -> exists a, x = inr a /\ k a = inr b.
Proof. destruct x; simpl; [done|eauto]. Qed.

Lemma derive_identity_inv w ij env fi idn :
  derive_identity w ij env fi = inr idn ->
  exists first_key first digits recs startdt enddt,
    index0 (sorted_keys (ifg_info fi)) = inr first_key /\
    getitem (ifg_info fi) first_key = inr first /\
    TN_RE_search_group1 (product first) = inr digits /\
    emap (getitem (ifg_info fi)) (sorted_keys (ifg_info fi)) = inr recs /\
    index0 (merge_sort dt_le (center_lines_utc fi)) = inr startdt /\
    index_last (merge_sort dt_le (center_lines_utc fi)) = inr enddt /\
    id_ifg_list idn = sorted_keys (ifg_info fi) /\
    id_track idn = int_of_digits digits /\
    id_sensor idn = sensor first /\
    id_sensor_name idn = sensor_name first /\
    id_platform idn = set_iter w (collect_platforms recs) /\
    id_hash idn = str_prefix 5 (hashlib.hexdigest
                    (hash_updates env ij (id_track idn) (id_sensor idn)
                       (id_platform idn) (id_ifg_list idn))) /\
    id_centers idn = merge_sort dt_le (center_lines_utc fi) /\
    id_str idn = ID_TMPL_format (id_sensor idn) (id_track idn) (strftime startdt)
                   (strftime enddt) (id_hash idn) DATASET_VERSION.
Proof.
  unfold derive_identity. intros H.
  repeat (apply ebind_inr in H as (? & ? & H)). injection H as <-.
  do 6 eexists. repeat (split; [eassumption|]). simpl. by repeat split.
Qed.

Lemma elem_of_sorted_keys {V} (d : list (string * V)) k :
  k ∈ sorted_keys d <-> k ∈ d.*1.
Proof. unfold sorted_keys. by rewrite merge_sort_Permutation. Qed.

(* ===================================================================== *)
(** * Cleanup *)
(* ===================================================================== *)

Lemma produce_not_removal e : is_produce_event e -> ~ is_removal e.
Proof.
  unfold is_produce_event.
  destruct e as [| [? []| | | | | |] | [] | |]; simpl; tauto.
Qed.

Lemma identify_run_no_removal w ij t r :
  identify_run w ij t r -> Forall (fun e => ~ is_removal e) t.
Proof.
  intros H. eapply Forall_impl; [by eapply identify_run_events|].
  intros [| [? []| | | | | |] | | |]; simpl; tauto.
Qed.

(** C7, as the specification words it, fails: in the run of
    [demo_unlink_fails] the products are removed, then the second
    [os.unlink] raises, and the run ends with that exception. *)
Lemma cleanup_on_success_only_refuted : ~ cleanup_on_success_only.
Proof.
  intros Hclaim.
  destruct (Hclaim demo_unlink_fails "req.json"
              (main demo_unlink_fails "req.json" []).1
              (Raise (OSError (Unlink "20170101_20170113")))) as [_ Hfail].
  { vm_compute. reflexivity. }
  specialize (Hfail _ eq_refl). rewrite Forall_forall in Hfail.
  apply (Hfail (Did (Rmtree "S1-IFG_a"))); [|exact I].
  apply list_elem_of_In. vm_compute. do 32 right. left. reflexivity.
Qed.

(** C7, amended: a run that returns has removed every input product of
    the request and every date-pair key of the filter result; a run that
    ends with an exception other than one raised by the removals
    themselves, or with [sys.exit], has removed nothing. *)
Theorem cleanup_after_success_only w f h r :
  main w f [] = (h, r) ->
  (r = Ok tt ->
   exists f' ij args fi,
     load w f = inr (f', ij) /\ Filtered args ∈ h /\
     filter_ifgs w args = inr fi /\
     (forall p, p ∈ products ij -> Did (Rmtree p) ∈ h) /\
     (forall k, k ∈ (ifg_info fi).*1 -> Did (Unlink k) ∈ h)) /\
  (forall e, r = Raise e ->
     (forall p, e <> OSError (Rmtree p)) -> (forall k, e <> OSError (Unlink k)) ->
     Forall (fun ev => ~ is_removal ev) h) /\
  (forall c, r = SysExit c -> Forall (fun ev => ~ is_removal ev) h).
Proof.
  intros Hmain. split; [|].
  - intros ->. apply main_ok_shape in Hmain.
    destruct Hmain as (f' & ij & env & fi & idn & tr & ta & times & tsteps & m
                       & Hload & Henv & Hf & Hne & Hid & _ & _ & _ & _ & _ & ->).
    exists f', ij, (filter_args ij env), fi.
    split; [done|]. split; [apply elem_of_cons; by left|]. split; [done|].
    apply derive_identity_inv in Hid
      as (? & ? & ? & ? & ? & ? & _ & _ & _ & _ & _ & _ & Hkeys & _).
    split.
    + intros p Hp. rewrite !elem_of_app. do 3 right. rewrite elem_of_cons.
      right. rewrite !elem_of_app. right. right. left.
      apply list_elem_of_fmap. eauto.
    + intros k Hk. rewrite !elem_of_app. do 3 right. rewrite elem_of_cons.
      right. rewrite !elem_of_app. right. right. right.
      apply list_elem_of_fmap. exists k. split; [done|].
      rewrite Hkeys. by apply elem_of_sorted_keys.
  - assert (forall r', (r' = r) -> (forall p, r' <> Raise (OSError (Rmtree p))) ->
              (forall k, r' <> Raise (OSError (Unlink k))) -> r' <> Ok tt ->
              Forall (fun ev => ~ is_removal ev) h) as Hgen.
    { intros r' -> Hrm Hun Hok.
      apply main_inv in Hmain as [(e & _ & -> & _)|H]; [constructor|].
      destruct H as (f' & ij & t1 & r1 & Hload & Hrun & H).
      pose proof (identify_run_no_removal _ _ _ _ Hrun) as Ht1.
      destruct H as [[-> _]|(env & fi & idn & t2 & r2 & -> & _ & Ht2 & H)]; [done|].
      assert (Forall (fun ev => ~ is_removal ev) t2) as Ht2'
        by (eapply Forall_impl; [exact Ht2|apply produce_not_removal]).
      destruct H as [[-> _]|(t3 & _ & Hclean & -> & _)].
      - by apply Forall_app.
      - apply cleanup_inv in Hclean as [[-> _]|[(p & ->)|(k & ->)]]; try done.
        + by destruct (Hrm p).
        + by destruct (Hun k). }
    split.
    + intros e -> Hrm Hun. apply (Hgen (Raise e)); try done; congruence.
    + intros c ->. by apply (Hgen (SysExit c)).
Qed.

Lemma cleanup_after_success_only_witness :
  main demo_step3_fails "req.json" []
  = ((main demo_step3_fails "req.json" []).1,
     Raise (CalledProcessError "python2 prepsbasxml.py" 2)) /\
  Forall (fun ev => ~ is_removal ev) (main demo_step3_fails "req.json" []).1.
Proof.
  assert (main demo_step3_fails "req.json" []
          = ((main demo_step3_fails "req.json" []).1,
             Raise (CalledProcessError "python2 prepsbasxml.py" 2))) as Hrun
    by (vm_compute; reflexivity).
  split; [exact Hrun|].
  destruct (cleanup_after_success_only demo_step3_fails "req.json" _ _ Hrun)
    as (_ & Hfail & _).
  apply (Hfail _ eq_refl); intros ?; discriminate.
Defined.

(* ===================================================================== *)
(** * The metadata record *)
(* ===================================================================== *)

Lemma build_met_inv ij env fi idn ts m :
  build_met ij env fi idn ts = inr m ->
  exists t0 tn recs,
    index0 ts = inr t0 /\ index_last ts = inr tn /\
    emap (getitem (ifg_info fi)) (sorted_keys (ifg_info fi)) = inr recs /\
    bbox m = [ (max_lat env, max_lon env); (max_lat env, min_lon env);
               (min_lat env, min_lon env); (min_lat env, max_lon env);
               (max_lat env, max_lon env) ] /\
    sensing_time_initial m = t0 /\ sensing_time_final m = tn /\
    ifg_count m = length (ifg_info fi) /\
    ifgs m = map product recs /\
    timestep_count m = length ts /\
    timesteps m = ts.
Proof.
  unfold build_met. intros H.
  repeat (apply ebind_inr in H as (? & ? & H)). injection H as <-.
  do 3 eexists. repeat (split; [eassumption|]). simpl. by repeat split.
Qed.

(** C9, as the specification words it, fails: in the run of [demo_m2]
    the product names are listed in the order of their keys, which is
    not their own order. *)
Lemma met_record_as_specified_refuted : ~ met_record_as_specified.
Proof.
  intros Hclaim.
  destruct (Hclaim demo_m2 "req.json" (main demo_m2 "req.json" []).1)
    as (args & fi & times & p & m & _ & Hf & _ & Hmet & _ & _ & _ & _ & Hifgs & _).
  { vm_compute. reflexivity. }
  simpl in Hf. injection Hf as <-.
  apply list_elem_of_In in Hmet. vm_compute in Hmet.
  repeat (destruct Hmet as [Hmet|Hmet]; [try discriminate Hmet|]);
    [|destruct Hmet].
  injection Hmet as _ <-. vm_compute in Hifgs. discriminate Hifgs.
Qed.

(** C9, amended: a run that returns has written one metadata record
    whose bounding polygon is the closed five-point ring of the envelope
    in lat/lon order, whose [ifg_count] is the number of filtered
    records, whose [ifgs] are the product names taken in ascending order
    of their date-pair keys, and whose [timesteps] are as many as the
    dates read from [PROC-STACK.h5]; the dataset descriptor is written
    with the same ring in lon/lat order. *)
Theorem met_record_of_a_run w f h :
  main w f [] = (h, Ok tt) ->
  exists ij env fi times recs m id,
    Filtered (filter_args ij env) ∈ h /\
    filter_ifgs w (filter_args ij env) = inr fi /\
    h5_dates w (proc_stack w) = inr times /\
    Sorted str_le (sorted_keys (ifg_info fi)) /\
    emap (getitem (ifg_info fi)) (sorted_keys (ifg_info fi)) = inr recs /\
    Did (WriteFile (path_join id (id ++ ".met.json")) (MetJson m)) ∈ h /\
    bbox m = [ (max_lat env, max_lon env); (max_lat env, min_lon env);
               (min_lat env, min_lon env); (min_lat env, max_lon env);
               (max_lat env, max_lon env) ] /\
    ifg_count m = length (ifg_info fi) /\
    ifgs m = map product recs /\
    length (timesteps m) = length times /\
    Did (WriteDatasetJson id id
           [ (max_lon env, max_lat env); (max_lon env, min_lat env);
             (min_lon env, min_lat env); (min_lon env, max_lat env);
             (max_lon env, max_lat env) ]
           (sensing_time_initial m) (sensing_time_final m) "v0.1") ∈ h.
Proof.
  intros Hmain. apply main_ok_shape in Hmain.
  destruct Hmain as (f' & ij & env & fi & idn & tr & ta & times & tsteps & m
                     & Hload & Henv & Hf & Hne & Hid & Hh5 & Hsteps & Hmet & _ & _ & ->).
  apply build_met_inv in Hmet
    as (t0 & tn & recs & _ & _ & Hrecs & Hbbox & _ & _ & Hcount & Hifgs & _ & Hts).
  exists ij, env, fi, times, recs, m, (id_str idn).
  split; [apply elem_of_cons; by left|]. split; [done|]. split; [done|].
  split; [apply Sorted_merge_sort, _|]. split; [done|].
  split.
  { rewrite !elem_of_app. do 3 right. rewrite elem_of_cons. right.
    rewrite !elem_of_app. right. left. apply elem_of_cons. by left. }
  repeat (split; [done|]). split.
  { rewrite Hts. by eapply emap_length. }
  rewrite !elem_of_app. do 3 right. rewrite elem_of_cons. right.
  rewrite !elem_of_app. right. left. apply elem_of_cons. right.
  apply elem_of_cons. by left.
Qed.

Lemma met_record_of_a_run_witness :
  main demo_m2 "req.json" [] = ((main demo_m2 "req.json" []).1, Ok tt) /\
  exists m id,
    Did (WriteFile (path_join id (id ++ ".met.json")) (MetJson m))
      ∈ (main demo_m2 "req.json" []).1 /\
    ifg_count m = 2%nat /\
    length (timesteps m) = 3%nat.
Proof.
  assert (main demo_m2 "req.json" [] = ((main demo_m2 "req.json" []).1, Ok tt))
    as Hrun by (vm_compute; reflexivity).
  split; [exact Hrun|].
  destruct (met_record_of_a_run demo_m2 "req.json" _ Hrun)
    as (ij & env & fi & times & recs & m & id & _ & Hf & Hh5 & _ & _ & Hmet
        & _ & Hcount & _ & Hlen & _).
  exists m, id. split; [exact Hmet|].
  simpl in Hf. injection Hf as <-. simpl in Hh5. injection Hh5 as <-.
  split; [exact Hcount|exact Hlen].
Defined.

(* ===================================================================== *)
(** * The hash component *)
(* ===================================================================== *)

Lemma list_ascii_of_string_app (a b : string) :
  list_ascii_of_string (a ++ b)
  = (list_ascii_of_string a ++ list_ascii_of_string b)%list.
Proof. induction a as [|c a IH]; simpl; [done|]. by rewrite IH. Qed.

Lemma string_append_assoc (a b c : string) : (a ++ b) ++ c = a ++ (b ++ c).
Proof.
  induction a as [|x a IH]; [done|].
  change (String x ((a ++ b) ++ c) = String x (a ++ b ++ c)). by rewrite IH.
Qed.

Lemma encode_utf8_app (a b : string) :
  encode_utf8 (a ++ b) = (encode_utf8 a ++ encode_utf8 b)%list.
Proof. unfold encode_utf8. by rewrite list_ascii_of_string_app, map_app. Qed.

(** Feeding the pieces one by one hashes their concatenation. *)
Lemma hash_updates_input env ij track sensor platform ifg_list :
  hash_updates env ij track sensor platform ifg_list
  = encode_utf8 (hash_input env ij track sensor platform ifg_list).
Proof.
  unfold hash_updates, hash_input, hashlib.update, hashlib.new.
  rewrite !encode_utf8_app. simpl. by rewrite <- !app_assoc.
Qed.

Lemma str_prefix_take n s :
  list_ascii_of_string (str_prefix n s) = take n (list_ascii_of_string s).
Proof.
  unfold str_prefix. revert s. induction n as [|n IH]; intros [|c s]; simpl;
    try done. by rewrite IH.
Qed.

Lemma string_length_list s : String.length s = length (list_ascii_of_string s).
Proof. induction s; simpl; auto. Qed.

Lemma hex_digit_is_hex n : is_hex_digit (hashlib.hex_digit n).
Proof.
  unfold is_hex_digit, hashlib.hex_digit. apply nth_In.
  assert (0 <= n mod 16 < 16) by (apply Z.mod_pos_bound; lia).
  change (length (list_ascii_of_string "0123456789abcdef")) with 16%nat. lia.
Qed.

Lemma hex_chars bytes :
  Forall is_hex_digit (list_ascii_of_string (hashlib.hex bytes)) /\
  length (list_ascii_of_string (hashlib.hex bytes)) = (2 * length bytes)%nat.
Proof.
  unfold hashlib.hex. rewrite list_ascii_of_string_of_list_ascii.
  induction bytes as [|b bytes [IH1 IH2]]; [by split|].
  cbn [flat_map hashlib.hex_byte app length].
  split.
  - constructor; [apply hex_digit_is_hex|].
    constructor; [apply hex_digit_is_hex|done].
  - rewrite IH2. lia.
Qed.

Lemma hexdigest_chars m :
  Forall is_hex_digit (list_ascii_of_string (hashlib.hexdigest m)) /\
  String.length (hashlib.hexdigest m) = 32%nat.
Proof.
  unfold hashlib.hexdigest. destruct (hex_chars (hashlib.digest m)) as [H1 H2].
  split; [done|]. by rewrite string_length_list, H2.
Qed.

(** C6: the hash component of a derived identity is the first five
    characters of the hexadecimal MD5 digest of [hash_input], the
    concatenation in the documented order, in which the platforms are
    those of the records as the set hands them out and the date-pair
    keys are sorted; it is five lower-case hexadecimal digits, and it is
    the part of the identity string between the end time and the
    version. *)
Theorem hash_component w ij env fi idn :
  derive_identity w ij env fi = inr idn ->
  id_hash idn
  = str_prefix 5 (hashlib.hexdigest (encode_utf8
      (hash_input env ij (id_track idn) (id_sensor idn) (id_platform idn)
                  (id_ifg_list idn)))) /\
  String.length (id_hash idn) = 5%nat /\
  Forall is_hex_digit (list_ascii_of_string (id_hash idn)) /\
  (exists recs,
     emap (getitem (ifg_info fi)) (sorted_keys (ifg_info fi)) = inr recs /\
     id_platform idn = set_iter w (collect_platforms recs)) /\
  id_ifg_list idn = sorted_keys (ifg_info fi) /\
  Sorted str_le (id_ifg_list idn) /\
  exists front, id_str idn = front ++ "Z-" ++ id_hash idn ++ "-" ++ DATASET_VERSION.
Proof.
  intros H. apply derive_identity_inv in H
    as (k & first & ds & recs & s & e & _ & _ & _ & Hrecs & _ & _ & Hkeys & _ & _
        & _ & Hplat & Hhash & _ & Hstr).
  rewrite hash_updates_input in Hhash.
  destruct (hexdigest_chars (encode_utf8
    (hash_input env ij (id_track idn) (id_sensor idn) (id_platform idn)
       (id_ifg_list idn)))) as [Hhex Hlen].
  split; [done|]. split; [|split; [|split; [eauto|split; [done|split]]]].
  - rewrite Hhash, string_length_list, str_prefix_take, length_take,
      <- string_length_list, Hlen. done.
  - rewrite Hhash, str_prefix_take. by apply Forall_take.
  - rewrite Hkeys. apply Sorted_merge_sort, _.
  - exists ("filtered-ifg-stack_" ++ id_sensor idn ++ "-TN" ++ str_of_Z (id_track idn)
            ++ "-" ++ strftime s ++ "Z-" ++ strftime e).
    rewrite Hstr. unfold ID_TMPL_format.
    by rewrite !string_append_assoc.
Qed.

Lemma hash_component_witness :
  (exists idn, derive_identity demo_ok demo_json demo_env demo_filt_info = inr idn /\
               id_hash idn = "0b7cc") /\
  hashlib.hexdigest (encode_utf8
    ("-118.5 -117.5 34.5 35.5" ++ "35.0 -118.0" ++ "9 9" ++ "0.3" ++ "2.33"
     ++ "14.1" ++ "39.0" ++ "False" ++ "False" ++ "True" ++ "42" ++ "S1"
     ++ "Sentinel-1A Sentinel-1B" ++ "20161220_20170101 20170101_20170113"))
  = "0b7cc88f62afe215626951a52bb01790".
Proof.
  destruct (derive_identity demo_ok demo_json demo_env demo_filt_info)
    as [e|idn] eqn:Hid; [vm_compute in Hid; discriminate Hid|].
  destruct (hash_component demo_ok demo_json demo_env demo_filt_info idn Hid)
    as (Hhash & _).
  split; [|vm_compute; reflexivity].
  exists idn. split; [reflexivity|].
  rewrite Hhash. vm_compute in Hid. injection Hid as <-. vm_compute. reflexivity.
Defined.

(* ===================================================================== *)
(** * The form of the identity *)
(* ===================================================================== *)

Lemma index0_head {A} (l : list A) x : index0 l = inr x -> head l = Some x.
Proof. destruct l; simpl; congruence. Qed.

Lemma index_last_last {A} (l : list A) x : index_last l = inr x -> last l = Some x.
Proof. unfold index_last. destruct (last l); congruence. Qed.

Lemma earliest_least l s :
  earliest l = Some s -> s ∈ l /\ forall c, c ∈ l -> dt_le s c.
Proof.
  unfold earliest. intros H. split.
  - rewrite <- (merge_sort_Permutation dt_le l). by eapply head_Some_elem_of.
  - intros c Hc. eapply (sorted_head_least dt_le); [|exact H|].
    + apply Sorted_merge_sort, _.
    + by rewrite merge_sort_Permutation.
Qed.

Lemma latest_greatest l e :
  latest l = Some e -> e ∈ l /\ forall c, c ∈ l -> dt_le c e.
Proof.
  unfold latest. intros H. split.
  - rewrite <- (merge_sort_Permutation dt_le l). by eapply last_Some_elem_of.
  - intros c Hc. eapply (sorted_last_greatest dt_le); [|exact H|].
    + apply Sorted_merge_sort, _.
    + by rewrite merge_sort_Permutation.
Qed.

(** C3, as the specification words it, fails: the identity of the run of
    [demo_ok] starts with ["filtered-ifg-stack_"], not with the sensor
    code. *)
Lemma identity_as_specified_refuted : ~ identity_as_specified.
Proof.
  intros Hclaim.
  destruct (Hclaim demo_ok "req.json" (main demo_ok "req.json" []).1)
    as (f' & ij & env & fi & idn & s & e & Hload & Henv & Hf & Hid & _ & _ & _ & _
        & Hstr & _).
  { vm_compute. reflexivity. }
  vm_compute in Hload. injection Hload as <- <-.
  vm_compute in Henv. injection Henv as <-.
  vm_compute in Hf. injection Hf as <-.
  vm_compute in Hid. injection Hid as <-.
  vm_compute in Hstr. discriminate Hstr.
Qed.

(** C3, amended: the identity of a run that returns is
    ["filtered-ifg-stack_"] followed by
    [sensor-TNtrack-startZ-endZ-hash-v0.1], where start and end are the
    least and the greatest center-line time to the second and the hash
    has five characters; the bundle directory is created under exactly
    that name. *)
Theorem identity_of_a_run : identity_has_form "filtered-ifg-stack_".
Proof.
  intros w f h Hmain. apply main_ok_shape in Hmain.
  destruct Hmain as (f' & ij & env & fi & idn & tr & ta & times & tsteps & m
                     & Hload & Henv & Hf & Hne & Hid & _ & _ & _ & _ & _ & ->).
  pose proof Hid as Hinv. apply derive_identity_inv in Hinv
    as (k & first & ds & recs & s & e & _ & _ & _ & _ & Hs & He & _ & _ & _
        & _ & _ & Hhash & _ & Hstr).
  apply index0_head, earliest_least in Hs as [Hs1 Hs2].
  apply index_last_last, latest_greatest in He as [He1 He2].
  exists f', ij, env, fi, idn, s, e. repeat (split; [done|]).
  split; [by auto|]. split; [|split; [done|]].
  - rewrite Hhash, string_length_list, str_prefix_take, length_take,
      <- string_length_list.
    destruct (hexdigest_chars (hash_updates env ij (id_track idn) (id_sensor idn)
                (id_platform idn) (id_ifg_list idn))) as [_ ->]. done.
  - rewrite !elem_of_app. do 3 right. apply elem_of_cons. by left.
Qed.

Lemma identity_of_a_run_witness :
  main demo_ok "req.json" [] = ((main demo_ok "req.json" []).1, Ok tt) /\
  Did (Makedirs
         "filtered-ifg-stack_S1-TN42-20161220T015013Z-20170113T015011Z-0b7cc-v0.1"
         493) ∈ (main demo_ok "req.json" []).1.
Proof.
  assert (main demo_ok "req.json" [] = ((main demo_ok "req.json" []).1, Ok tt))
    as Hrun by (vm_compute; reflexivity).
  split; [exact Hrun|].
  destruct (identity_of_a_run demo_ok "req.json" _ Hrun)
    as (f' & ij & env & fi & idn & s & e & Hload & Henv & Hf & Hid & _ & _ & _ & _
        & _ & Hmk).
  vm_compute in Hload. injection Hload as <- <-.
  vm_compute in Henv. injection Henv as <-.
  vm_compute in Hf. injection Hf as <-.
  vm_compute in Hid. injection Hid as <-.
  exact Hmk.
Defined.

(* ===================================================================== *)
(** * Determinism of the identity *)
(* ===================================================================== *)

Lemma iter_asc_iterates s : iter_asc s ≡ₚ elements s.
Proof. apply merge_sort_Permutation. Qed.

Lemma iter_desc_iterates s : iter_desc s ≡ₚ elements s.
Proof.
  unfold iter_desc. rewrite <- (merge_sort_Permutation str_le (elements s)) at 2.
  symmetry. apply Permutation_rev.
Qed.

(** Apart from the platforms, the identity depends by design on the
    center-line times, which [ID_TMPL] prints: the interferograms of
    [demo_filt_info] and those of the neighbouring frame agree on the
    request, the envelope, the track, the sensor, the platforms and the
    keys, and their identities differ in the times. *)
Lemma identity_determinism_refuted : ~ identity_determinism.
Proof.
  intros Hclaim.
  destruct (derive_identity demo_ok demo_json demo_env demo_filt_info)
    as [?|idn1] eqn:H1; [vm_compute in H1; discriminate H1|].
  destruct (derive_identity demo_ok demo_json demo_env demo_filt_info_next_frame)
    as [?|idn2] eqn:H2; [vm_compute in H2; discriminate H2|].
  assert (iterates_sets demo_ok) as Hw by (intros s; apply iter_asc_iterates).
  assert (same_parameters demo_json demo_json) as Hsame by (by repeat split).
  pose proof (Hclaim demo_ok demo_ok demo_json demo_json demo_env
                demo_filt_info demo_filt_info_next_frame idn1 idn2
                Hw Hw Hsame H1 H2) as Hsame_id.
  vm_compute in H1. injection H1 as <-.
  vm_compute in H2. injection H2 as <-.
  specialize (Hsame_id eq_refl eq_refl eq_refl eq_refl).
  vm_compute in Hsame_id. discriminate Hsame_id.
Qed.

(** C1: the identity is not the same across process restarts, because
    line 161 is [list(platform)] and not [sorted(platform)]: the platform
    names are joined, and hashed, in the order in which the process walks
    the set.  Here one request, one envelope and one filter result (so
    the same records and the same center-line times) are given to two
    processes that walk sets in opposite orders.  Both derive an
    identity from the same track, sensor, keys and set of platforms; one
    hashes ["Sentinel-1A Sentinel-1B"], the other
    ["Sentinel-1B Sentinel-1A"], and the two identities differ in the
    hash. *)
Theorem platform_order_changes_identity :
  iterates_sets demo_ok /\ iterates_sets demo_desc /\
  exists idn1 idn2,
    derive_identity demo_ok demo_json demo_env demo_filt_info = inr idn1 /\
    derive_identity demo_desc demo_json demo_env demo_filt_info = inr idn2 /\
    id_track idn1 = id_track idn2 /\
    id_sensor idn1 = id_sensor idn2 /\
    id_ifg_list idn1 = id_ifg_list idn2 /\
    list_to_set (id_platform idn1) =@{gset string} list_to_set (id_platform idn2) /\
    id_platform idn1 = ["Sentinel-1A"; "Sentinel-1B"] /\
    id_platform idn2 = ["Sentinel-1B"; "Sentinel-1A"] /\
    id_str idn1
    = "filtered-ifg-stack_S1-TN42-20161220T015013Z-20170113T015011Z-0b7cc-v0.1" /\
    id_str idn2
    = "filtered-ifg-stack_S1-TN42-20161220T015013Z-20170113T015011Z-2652a-v0.1" /\
    id_str idn1 <> id_str idn2.
Proof.
  split; [intros s; apply iter_asc_iterates|].
  split; [intros s; apply iter_desc_iterates|].
  destruct (derive_identity demo_ok demo_json demo_env demo_filt_info)
    as [?|idn1] eqn:H1; [vm_compute in H1; discriminate H1|].
  destruct (derive_identity demo_desc demo_json demo_env demo_filt_info)
    as [?|idn2] eqn:H2; [vm_compute in H2; discriminate H2|].
  exists idn1, idn2. split; [done|]. split; [done|].
  vm_compute in H1. injection H1 as <-.
  vm_compute in H2. injection H2 as <-.
  do 3 (split; [vm_compute; reflexivity|]).
  split.
  { cbn [id_platform]. apply set_eq. intros x.
    rewrite !elem_of_list_to_set, !elem_of_cons, !elem_of_nil. tauto. }
  do 4 (split; [vm_compute; reflexivity|]).
  vm_compute. discriminate.
Qed.

(** The order in which the filter lists its records and its center lines
    does not matter to the identity generator. *)
Lemma getitem_Permutation {V} (d d' : list (string * V)) k :
  NoDup d.*1 -> d ≡ₚ d' -> getitem d k = getitem d' k.
Proof.
  intros Hnd Hp. induction Hp as [|[k1 v1] d d' Hp IH|[k1 v1] [k2 v2] d|d d' d'' Hp1 IH1 Hp2 IH2].
  - done.
  - simpl. apply NoDup_cons in Hnd as [_ Hnd]. rewrite IH; done.
  - simpl. apply NoDup_cons in Hnd as [Hin _].
    destruct (String.eqb_spec k2 k), (String.eqb_spec k1 k); try done.
    subst. destruct Hin. simpl. apply elem_of_cons. by left.
  - rewrite IH1; [|done]. apply IH2. by rewrite <- Hp1.
Qed.

Lemma emap_ext {A B} (f g : A -> exn + B) l :
  (forall x, f x = g x) -> emap f l = emap g l.
Proof. intros H. induction l as [|x l IH]; simpl; [done|]. by rewrite H, IH. Qed.

Lemma derive_identity_Permutation w ij env fi1 fi2 :
  NoDup (ifg_info fi1).*1 ->
  ifg_info fi1 ≡ₚ ifg_info fi2 ->
  center_lines_utc fi1 ≡ₚ center_lines_utc fi2 ->
  derive_identity w ij env fi1 = derive_identity w ij env fi2.
Proof.
  intros Hnd Hp Hc. unfold derive_identity.
  assert (sorted_keys (ifg_info fi1) = sorted_keys (ifg_info fi2)) as ->
    by (apply (merge_sort_perm_eq str_le); by rewrite Hp).
  rewrite (merge_sort_perm_eq dt_le _ _ Hc).
  rewrite (emap_ext _ _ _ (fun k => getitem_Permutation _ _ k Hnd Hp)).
  destruct (index0 (sorted_keys (ifg_info fi2))) as [|k]; [done|]. simpl.
  by rewrite (getitem_Permutation _ _ k Hnd Hp).
Qed.

(* ===================================================================== *)
(** * Where the process can end *)
(* ===================================================================== *)

Lemma never_exits_ret {A} (a : A) : never_exits (ret a).
Proof. intros h h' c. unfold ret. congruence. Qed.

Lemma never_exits_lift {A} (x : exn + A) : never_exits (lift x).
Proof. intros h h' c. destruct x; simpl; unfold raise, ret; congruence. Qed.

Lemma never_exits_emit e : never_exits (emit e).
Proof. intros h h' c. unfold emit. congruence. Qed.

Lemma never_exits_perform w o : never_exits (perform w o).
Proof. intros h h' c. unfold perform. destruct (os_error w h o); congruence. Qed.

Lemma never_exits_check_call w site cmd : never_exits (check_call w site cmd).
Proof.
  intros h h' c. unfold check_call.
  destruct (exit_status w h cmd =? 0)%Z; congruence.
Qed.

Lemma never_exits_bind {A B} (m : M A) (k : A -> M B) :
  never_exits m -> (forall a, never_exits (k a)) -> never_exits (bind m k).
Proof.
  intros Hm Hk h h' c H.
  apply bind_inv in H as [(h1 & a & _ & H)|[(e & _ & ?)|(c' & H & _)]].
  - by apply Hk in H.
  - done.
  - by apply Hm in H.
Qed.

Lemma never_exits_for_each {A} (l : list A) (body : A -> M unit) :
  (forall x, never_exits (body x)) -> never_exits (for_each l body).
Proof.
  intros Hb. induction l as [|x l IH]; simpl.
  - apply never_exits_ret.
  - apply never_exits_bind; auto.
Qed.

#[global] Hint Resolve never_exits_ret never_exits_lift never_exits_emit
  never_exits_perform never_exits_check_call never_exits_bind
  never_exits_for_each : trace.

(** Shows [never_exits m] for a program [m] made of the primitives. *)
Ltac step_never_exits :=
  repeat first
    [ progress intros
    | match goal with
      | |- never_exits (match ?x with _ => _ end) => destruct x
      end
    | solve [auto with trace]
    | apply never_exits_bind | apply never_exits_for_each ].

Lemma produce_never_exits w f ij env fi idn :
  never_exits (produce w f ij env fi idn).
Proof.
  unfold produce, render, stages, run_stage, read_timesteps, assemble,
    emit_metadata, call_noerr.
  step_never_exits.
Qed.

Lemma cleanup_never_exits w ij l : never_exits (cleanup w ij l).
Proof. unfold cleanup. step_never_exits. Qed.

(** The only exit code of [main] is 0. *)
Lemma main_exit_code w f h c : main w f [] = (h, SysExit c) -> c = 0.
Proof.
  intros H. apply main_inv in H as [(e & _ & _ & ?)|H]; [done|].
  destruct H as (f' & ij & t1 & r1 & _ & Hrun & H).
  destruct H as [[-> Hs]|(env & fi & idn & t2 & r2 & -> & Hprod & _ & H)].
  - destruct Hs as [(? & _ & ?)|(c' & -> & ?)]; [done|]. simplify_eq.
    inversion Hrun as [| | |env fi t r _ _ Hd]; subst.
    by inversion Hd.
  - destruct H as [[_ Hs]|(t3 & _ & Hclean & _ & _)].
    + destruct Hs as [(? & _ & ?)|(c' & -> & _)]; [done|].
      by apply produce_never_exits in Hprod.
    + by apply cleanup_never_exits in Hclean.
Qed.

(** [sys.exit] is reached at one place only, the gate of line 198: a run
    that ends with it ends with status 0, and the last thing that
    happened is the catalog query that found the identity. *)
Theorem exit_only_at_the_gate w f h c :
  main w f [] = (h, SysExit c) ->
  c = 0 /\ exists u i id, last h = Some (Queried u i id true).
Proof.
  intros H. apply main_inv in H as [(e & _ & _ & ?)|H]; [done|].
  destruct H as (f' & ij & t1 & r1 & _ & Hrun & H).
  destruct H as [[-> Hs]|(env & fi & idn & t2 & r2 & -> & Hprod & _ & H)].
  - destruct Hs as [(? & _ & ?)|(c' & -> & ?)]; [done|]. simplify_eq.
    inversion Hrun as [| | |env fi t r _ _ Hd]; subst.
    inversion Hd; subst. split; [done|]. eauto.
  - destruct H as [[_ Hs]|(t3 & _ & Hclean & _ & _)].
    + destruct Hs as [(? & _ & ?)|(c' & -> & _)]; [done|].
      by apply produce_never_exits in Hprod.
    + by apply cleanup_never_exits in Hclean.
Qed.

Lemma exit_only_at_the_gate_witness :
  main demo_exists "req.json" [] = ((main demo_exists "req.json" []).1, SysExit 0) /\
  exists u i id, last (main demo_exists "req.json" []).1 = Some (Queried u i id true).
Proof.
  assert (main demo_exists "req.json" []
          = ((main demo_exists "req.json" []).1, SysExit 0)) as Hrun
    by (vm_compute; reflexivity).
  split; [exact Hrun|].
  apply (exit_only_at_the_gate demo_exists "req.json" _ 0 Hrun).
Defined.

(** The exit status of the process is 1 when [main] raises and 0
    otherwise; when it is 0, the process has added nothing to what
    [main] did, so neither error file exists. *)
Theorem exit_status_of_the_process w f :
  match (main w f []).2 with
  | Raise _ => (script w f).2 = 1
  | _ => (script w f).2 = 0 /\ (script w f).1 = (main w f []).1
  end.
Proof.
  destruct (main w f []) as [h r] eqn:Hmain. simpl.
  destruct r as [[]|e|c]; unfold script; rewrite Hmain; simpl; try done.
  by rewrite (main_exit_code _ _ _ _ Hmain).
Qed.

(** After an exception the handler of lines 325-330 writes
    [_alt_error.txt] and then [_alt_traceback.txt]; if the first write
    raises, the second is not tried. *)
Theorem error_files_after_a_failure w f h e :
  main w f [] = (h, Raise e) ->
  (script w f).2 = 1 /\
  ((script w f).1 = h \/
   (script w f).1 = (h ++ [Did (WriteFile "_alt_error.txt" (Text "str(e)"))])%list \/
   (script w f).1
   = (h ++ [ Did (WriteFile "_alt_error.txt" (Text "str(e)"));
             Did (WriteFile "_alt_traceback.txt" (Text "traceback.format_exc()")) ])%list) /\
  ((forall hh o, os_error w hh o = false) ->
   (script w f).1
   = (h ++ [ Did (WriteFile "_alt_error.txt" (Text "str(e)"));
             Did (WriteFile "_alt_traceback.txt" (Text "traceback.format_exc()")) ])%list).
Proof.
  intros Hmain. unfold script. rewrite Hmain. simpl. split; [done|].
  unfold report_error, bind, perform.
  split.
  - repeat case_match; simplify_eq/=; rewrite <- ?app_assoc; auto.
  - intros Hok. rewrite !Hok. simpl. by rewrite <- app_assoc.
Qed.

Lemma error_files_after_a_failure_witness :
  main demo_step3_fails "req.json" []
  = ((main demo_step3_fails "req.json" []).1,
     Raise (CalledProcessError "python2 prepsbasxml.py" 2)) /\
  (script demo_step3_fails "req.json").1
  = ((main demo_step3_fails "req.json" []).1
     ++ [ Did (WriteFile "_alt_error.txt" (Text "str(e)"));
          Did (WriteFile "_alt_traceback.txt" (Text "traceback.format_exc()")) ])%list.
Proof.
  assert (main demo_step3_fails "req.json" []
          = ((main demo_step3_fails "req.json" []).1,
             Raise (CalledProcessError "python2 prepsbasxml.py" 2))) as Hrun
    by (vm_compute; reflexivity).
  split; [exact Hrun|].
  destruct (error_files_after_a_failure demo_step3_fails "req.json" _ _ Hrun)
    as (_ & _ & Hall).
  apply Hall. reflexivity.
Defined.

(** A request file that does not exist: [main] raises the error of line
    65 before anything else happens, and the process ends with status 1.
    All that it has done by then is to write [_alt_error.txt] and
    [_alt_traceback.txt], in this order and as far as the writes succeed:
    nothing if the first raises, the first alone if the second raises,
    and no other file in any case. *)
Theorem missing_request_file w f :
  path_exists w (abspath w f) = false ->
  main w f [] = ([], Raise (RuntimeError ("Failed to find " ++ abspath w f ++ "."))) /\
  (script w f).2 = 1 /\
  (script w f).1
  = (if os_error w [] (WriteFile "_alt_error.txt" (Text "str(e)")) then []
     else if os_error w [error_txt]
               (WriteFile "_alt_traceback.txt" (Text "traceback.format_exc()"))
          then [error_txt]
          else [error_txt; traceback_txt]).
Proof.
  intros Hex.
  assert (main w f [] = ([], Raise (RuntimeError ("Failed to find " ++ abspath w f ++ "."))))
    as Hmain by (unfold main, bind, lift, load; by rewrite Hex).
  split; [done|].
  unfold script. rewrite Hmain. split; [done|].
  unfold report_error, bind, perform, error_txt, traceback_txt. simpl.
  destruct (os_error w [] (WriteFile "_alt_error.txt" (Text "str(e)"))); [done|].
  simpl.
  by destruct (os_error w [Did (WriteFile "_alt_error.txt" (Text "str(e)"))]
                 (WriteFile "_alt_traceback.txt" (Text "traceback.format_exc()"))).
Qed.

Lemma missing_request_file_witness :
  path_exists (without_request demo_ok) (abspath (without_request demo_ok) "req.json")
  = false /\
  main (without_request demo_ok) "req.json" []
  = ([], Raise (RuntimeError "Failed to find /data/work/job-1/req.json.")) /\
  script (without_request demo_ok) "req.json" = ([error_txt; traceback_txt], 1).
Proof.
  split; [reflexivity|].
  destruct (missing_request_file (without_request demo_ok) "req.json" eq_refl)
    as (Hmain & Hst & Htr).
  split; [exact Hmain|].
  destruct (script (without_request demo_ok) "req.json") as [h c].
  simpl in Hst, Htr. by rewrite Hst, Htr.
Defined.

(** The script does not guard the catalog query: if [dataset_exists]
    raises, the run ends with that exception right after the snapshot,
    and nothing is rendered or run. *)
Theorem catalog_error_ends_the_run w f f' ij env fi idn e :
  load w f = inr (f', ij) ->
  envelope_of w ij = inr env ->
  filter_ifgs w (filter_args ij env) = inr fi ->
  os_error w [Filtered (filter_args ij env)]
    (WriteFile "filt_info.pkl" (Pickle fi)) = false ->
  ifg_info fi <> [] ->
  derive_identity w ij env fi = inr idn ->
  dataset_exists w (GRQ_ES_URL w) (DATASET_ALIAS w) (id_str idn) = inl e ->
  main w f [] = ([ Filtered (filter_args ij env);
                   Did (WriteFile "filt_info.pkl" (Pickle fi)) ], Raise e).
Proof.
  intros Hload Henv Hf Hos Hne Hid Hq.
  unfold main, identify, run_filter, dump_filter_info, croak_if_empty, gate,
    bind, lift, perform, emit, ret, raise.
  rewrite Hload, Henv, Hf. simpl. rewrite Hos.
  destruct (ifg_info fi) as [|kv rest] eqn:E; [done|]. simpl.
  rewrite Hid, Hq. done.
Qed.

Lemma catalog_error_ends_the_run_witness :
  main (catalog_down demo_ok) "req.json" []
  = ([ Filtered (filter_args demo_json demo_env);
       Did (WriteFile "filt_info.pkl" (Pickle demo_filt_info)) ],
     Raise (CollaboratorError "dataset_exists")).
Proof.
  destruct (derive_identity (catalog_down demo_ok) demo_json demo_env demo_filt_info)
    as [?|idn] eqn:Hid; [vm_compute in Hid; discriminate Hid|].
  apply (catalog_error_ends_the_run (catalog_down demo_ok) "req.json"
           "/data/work/job-1/req.json" demo_json demo_env demo_filt_info idn
           (CollaboratorError "dataset_exists"));
    try reflexivity; try exact Hid. discriminate.
Defined.

(* ===================================================================== *)
(** * Lookups and the failure modes of the identity generator *)
(* ===================================================================== *)

Lemma getitem_elem {V} (d : list (string * V)) k :
  k ∈ d.*1 -> exists v, getitem d k = inr v /\ (k, v) ∈ d.
Proof.
  induction d as [|[k' v'] d IH]; simpl; intros Hk; [by apply elem_of_nil in Hk|].
  destruct (String.eqb_spec k' k) as [->|Hne].
  - exists v'. split; [done|]. apply elem_of_cons. by left.
  - apply elem_of_cons in Hk as [?|Hk]; [congruence|].
    destruct (IH Hk) as (v & ? & ?). exists v. split; [done|].
    apply elem_of_cons. by right.
Qed.

Lemma getitem_inr_elem {V} (d : list (string * V)) k v :
  getitem d k = inr v -> (k, v) ∈ d.
Proof.
  induction d as [|[k' v'] d IH]; simpl; [done|].
  destruct (String.eqb_spec k' k) as [->|Hne].
  - intros [= ->]. apply elem_of_cons. by left.
  - intros H. apply elem_of_cons. right. auto.
Qed.

Lemma getitem_NoDup {V} (d : list (string * V)) k v :
  NoDup d.*1 -> (k, v) ∈ d -> getitem d k = inr v.
Proof.
  induction d as [|[k' v'] d IH]; simpl; intros Hnd Hin;
    [by apply elem_of_nil in Hin|].
  apply NoDup_cons in Hnd as [Hk' Hnd].
  apply elem_of_cons in Hin as [[= -> ->]|Hin].
  - by rewrite String.eqb_refl.
  - destruct (String.eqb_spec k' k) as [->|Hne]; [|auto].
    destruct Hk'. apply list_elem_of_fmap. by exists (k, v).
Qed.

Lemma emap_total {A B} (f : A -> exn + B) l :
  (forall x, x ∈ l -> exists y, f x = inr y) -> exists ys, emap f l = inr ys.
Proof.
  induction l as [|x l IH]; intros H; simpl; [eauto|].
  destruct (H x) as (y & ->); [apply elem_of_cons; by left|].
  destruct IH as (ys & ->); [intros; apply H; apply elem_of_cons; by right|].
  simpl. eauto.
Qed.

Lemma emap_elem {A B} (f : A -> exn + B) l ys y :
  emap f l = inr ys -> (y ∈ ys <-> exists x, x ∈ l /\ f x = inr y).
Proof.
  revert ys. induction l as [|x l IH]; simpl; intros ys H.
  - simplify_eq. split; [by intros ?%elem_of_nil|].
    by intros (? & ?%elem_of_nil & _).
  - apply ebind_inr in H as (y0 & Hx & H).
    apply ebind_inr in H as (ys0 & Hl & H). simplify_eq.
    rewrite elem_of_cons, (IH _ Hl). split.
    + intros [->|(x' & ? & ?)].
      * exists x. split; [apply elem_of_cons; by left|done].
      * exists x'. split; [apply elem_of_cons; by right|done].
    + intros (x' & [->|?]%elem_of_cons & Hf); [left; congruence|right; eauto].
Qed.

Lemma merge_sort_nil {A} (R : relation A) `{!RelDecision R} (l : list A) :
  merge_sort R l = [] -> l = [].
Proof.
  intros H. apply Permutation_nil_r. by rewrite <- H, merge_sort_Permutation.
Qed.

Lemma index_last_cons {A} (x : A) l : exists y, index_last (x :: l) = inr y.
Proof.
  unfold index_last. destruct (last (x :: l)) eqn:E; [eauto|].
  by apply last_None in E.
Qed.

(** Whether the identity generator fails is decided by the record of
    the least key and by the center lines.  The filter result has at
    least one record, and the product names are plain: ASCII texts of at
    most 4300 characters, on which [TN_RE] and [int] are as modelled
    (beyond that [int] refuses the digits, and [\d] matches other
    digits than [0-9]).  Then every lookup [ifg_info[k]] of a sorted key
    finds its record, and the generator fails in two ways only: with
    [AttributeError] from [None.group] when the product name of the
    record with the least key has no [_TN<digits>_]; with [IndexError]
    from [center_lines_utc[0]] when there is no center-line time.  With
    that marker and a center-line time it returns an identity. *)
Theorem derive_identity_failures w ij env fi :
  ifg_info fi <> [] ->
  Forall (fun kv => plain_name (product kv.2)) (ifg_info fi) ->
  (forall k, k ∈ sorted_keys (ifg_info fi) ->
     exists r, getitem (ifg_info fi) k = inr r) /\
  (forall e, derive_identity w ij env fi = inl e ->
     (exists k r,
        head (sorted_keys (ifg_info fi)) = Some k /\
        getitem (ifg_info fi) k = inr r /\
        search (list_ascii_of_string (product r)) = None /\
        e = AttributeError "'NoneType' object has no attribute 'group'") \/
     (center_lines_utc fi = [] /\ e = IndexError "list index out of range")) /\
  (forall k r,
     head (sorted_keys (ifg_info fi)) = Some k ->
     getitem (ifg_info fi) k = inr r ->
     search (list_ascii_of_string (product r)) <> None ->
     center_lines_utc fi <> [] ->
     exists idn, derive_identity w ij env fi = inr idn).
Proof.
  intros Hne _.
  assert (forall k, k ∈ sorted_keys (ifg_info fi) ->
            exists r, getitem (ifg_info fi) k = inr r) as Hget.
  { intros k Hk. apply elem_of_sorted_keys in Hk.
    destruct (getitem_elem (ifg_info fi) k Hk) as (r & ? & _). eauto. }
  assert (forall e, derive_identity w ij env fi = inl e ->
     (exists k r,
        head (sorted_keys (ifg_info fi)) = Some k /\
        getitem (ifg_info fi) k = inr r /\
        search (list_ascii_of_string (product r)) = None /\
        e = AttributeError "'NoneType' object has no attribute 'group'") \/
     (center_lines_utc fi = [] /\ e = IndexError "list index out of range"))
    as Hfail.
  { intros e H. unfold derive_identity in H.
    destruct (sorted_keys (ifg_info fi)) as [|k keys] eqn:Hkeys.
    { apply merge_sort_nil in Hkeys. by destruct (ifg_info fi). }
    simpl in H.
    destruct (Hget k) as (r & Hr); [apply elem_of_cons; by left|].
    rewrite Hr in H. simpl in H.
    unfold TN_RE_search_group1 in H.
    destruct (search (list_ascii_of_string (product r))) as [g|] eqn:Hs; simpl in H.
    2: { left. exists k, r. simplify_eq. done. }
    destruct (emap_total (getitem (ifg_info fi)) keys) as (recs & Hrecs).
    { intros k' Hk'. apply Hget, elem_of_cons. by right. }
    rewrite Hrecs in H. simpl in H.
    destruct (merge_sort dt_le (center_lines_utc fi)) as [|c cs] eqn:Hc; simpl in H.
    { right. apply merge_sort_nil in Hc. simplify_eq. done. }
    destruct (index_last_cons c cs) as (y & Hy). rewrite Hy in H. done. }
  split; [exact Hget|]. split; [exact Hfail|].
  intros k r Hk Hr Hs Hc.
  destruct (derive_identity w ij env fi) as [e|idn] eqn:Hid; [|eauto].
  destruct (Hfail e eq_refl) as [(k' & r' & Hk' & Hr' & Hs' & _)|[Hc' _]];
    [|done].
  congruence.
Qed.

Lemma derive_identity_failures_witness :
  (ifg_info demo_filt_info_no_track <> [] /\
   Forall (fun kv => plain_name (product kv.2)) (ifg_info demo_filt_info_no_track)) /\
  derive_identity demo_ok demo_json demo_env demo_filt_info_no_track
  = inl (AttributeError "'NoneType' object has no attribute 'group'").
Proof.
  assert (ifg_info demo_filt_info_no_track <> []) as Hne by discriminate.
  assert (Forall (fun kv => plain_name (product kv.2))
            (ifg_info demo_filt_info_no_track)) as Hplain.
  { repeat (constructor;
            [split; [repeat (constructor; [reflexivity|]); constructor
                    |apply Nat.leb_le; reflexivity]|]).
    constructor. }
  split; [by split|].
  destruct (derive_identity demo_ok demo_json demo_env demo_filt_info_no_track)
    as [e|idn] eqn:Hid; [|vm_compute in Hid; discriminate Hid].
  destruct (derive_identity_failures demo_ok demo_json demo_env
              demo_filt_info_no_track Hne Hplain) as (_ & Hfail & _).
  destruct (Hfail e Hid) as [(k & r & _ & _ & _ & ->)|[Hc _]];
    [reflexivity|discriminate Hc].
Defined.

(* ===================================================================== *)
(** * The platform list *)
(* ===================================================================== *)

Lemma elem_of_collect_platforms recs p :
  p ∈ collect_platforms recs <->
  exists r, r ∈ recs /\ p ∈ platform_names (platform r).
Proof.
  unfold collect_platforms.
  assert (forall acc : gset string,
            p ∈ fold_left (fun acc r => acc ∪ list_to_set (platform_names (platform r)))
                  recs acc
            <-> p ∈ acc \/ exists r, r ∈ recs /\ p ∈ platform_names (platform r)) as H.
  { induction recs as [|r recs IH]; intros acc; simpl.
    - split; [auto|]. intros [?|(? & ?%elem_of_nil & _)]; done.
    - rewrite IH, elem_of_union, elem_of_list_to_set. split.
      + intros [[?|?]|(r' & ? & ?)]; [by left| |].
        * right. exists r. split; [apply elem_of_cons; by left|done].
        * right. exists r'. split; [apply elem_of_cons; by right|done].
      + intros [?|(r' & [->|?]%elem_of_cons & ?)]; [by left; left|by left; right|].
        right. eauto. }
  rewrite H. split; [|auto]. intros [?%elem_of_empty|?]; done.
Qed.

(** The platform list that is hashed and written to the metadata holds
    every platform name of every record, each name once, and nothing
    else; a record whose platform is [None] adds nothing. *)
Theorem platform_list_members w ij env fi idn :
  iterates_sets w ->
  NoDup (ifg_info fi).*1 ->
  derive_identity w ij env fi = inr idn ->
  NoDup (id_platform idn) /\
  forall p, p ∈ id_platform idn <->
            exists k r, (k, r) ∈ ifg_info fi /\ p ∈ platform_names (platform r).
Proof.
  intros Hw Hnd Hid. apply derive_identity_inv in Hid
    as (? & ? & ? & recs & ? & ? & _ & _ & _ & Hrecs & _ & _ & _ & _ & _ & _
        & -> & _).
  split.
  - rewrite (Hw _). apply NoDup_elements.
  - intros p. rewrite (Hw _), elem_of_elements, elem_of_collect_platforms. split.
    + intros (r & Hr & Hp). apply (emap_elem _ _ _ _ Hrecs) in Hr as (k & _ & Hk).
      exists k, r. split; [by apply getitem_inr_elem|done].
    + intros (k & r & Hkr & Hp). exists r. split; [|done].
      apply (emap_elem _ _ _ _ Hrecs). exists k. split.
      * apply elem_of_sorted_keys, list_elem_of_fmap. by exists (k, r).
      * by apply getitem_NoDup.
Qed.

Lemma platform_list_members_witness :
  exists idn,
    derive_identity demo_desc demo_json demo_env demo_filt_info = inr idn /\
    NoDup (id_platform idn) /\
    "Sentinel-1B" ∈ id_platform idn.
Proof.
  destruct (derive_identity demo_desc demo_json demo_env demo_filt_info)
    as [?|idn] eqn:Hid; [vm_compute in Hid; discriminate Hid|].
  exists idn. split; [reflexivity|].
  destruct (platform_list_members demo_desc demo_json demo_env demo_filt_info idn)
    as [Hnd Hmem]; [intros s; apply iter_desc_iterates| |exact Hid|].
  - cbn. apply NoDup_cons. split; [|apply NoDup_singleton].
    intros H%list_elem_of_singleton. discriminate H.
  - split; [exact Hnd|]. apply Hmem.
    exists "20170101_20170113", rec_b. split.
    + apply elem_of_cons. left. reflexivity.
    + apply elem_of_cons. left. reflexivity.
Defined.

(* ===================================================================== *)
(** * The track number *)
(* ===================================================================== *)

Lemma span_digits_spec l ds tl :
  span_digits l = (ds, tl) ->
  l = (ds ++ tl)%list /\ Forall (fun c => is_digit c = true) ds /\
  match tl with
  | c :: _ => is_digit c = false
  | [] => True
  end.
Proof.
  revert ds tl. induction l as [|c l IH]; simpl; intros ds tl H.
  - by simplify_eq.
  - destruct (is_digit c) eqn:Hc.
    + destruct (span_digits l) as [ds' tl'] eqn:E. simplify_eq.
      destruct (IH _ _ eq_refl) as (-> & ? & ?). repeat split; auto.
    + simplify_eq. repeat split; auto.
Qed.

Lemma span_digits_run g c post :
  Forall (fun c => is_digit c = true) g -> is_digit c = false ->
  span_digits (g ++ c :: post) = (g, c :: post).
Proof.
  intros Hg Hc. induction Hg as [|d g Hd _ IH]; simpl.
  - by rewrite Hc.
  - by rewrite Hd, IH.
Qed.

(** [match_here] with its comparisons written out. *)
Lemma match_here_eq l :
  match_here l
  = match l with
    | c1 :: c2 :: c3 :: tl =>
        if (Ascii.eqb c1 "_" && Ascii.eqb c2 "T" && Ascii.eqb c3 "N")%bool then
          match span_digits tl with
          | (d :: ds, c :: _) => if Ascii.eqb c "_" then Some (d :: ds) else None
          | _ => None
          end
        else None
    | _ => None
    end.
Proof.
  destruct l as [|c1 l]; [done|].
  destruct c1 as [[] [] [] [] [] [] [] []]; try (by destruct l as [|? [|? ?]]).
  destruct l as [|c2 l]; [done|].
  destruct c2 as [[] [] [] [] [] [] [] []]; try (by destruct l).
  destruct l as [|c3 l]; [done|].
  destruct c3 as [[] [] [] [] [] [] [] []]; try done.
  simpl. destruct (span_digits l) as [[|d ds] [|c rest]]; try done.
  by destruct c as [[] [] [] [] [] [] [] []].
Qed.

Lemma match_here_sound l g :
  match_here l = Some g ->
  g <> [] /\ Forall (fun c => is_digit c = true) g /\
  exists post, l = (TN_mark ++ g ++ "_"%char :: post)%list.
Proof.
  rewrite match_here_eq. destruct l as [|c1 [|c2 [|c3 tl]]]; try done.
  destruct (Ascii.eqb_spec c1 "_"); [|done].
  destruct (Ascii.eqb_spec c2 "T"); [|done].
  destruct (Ascii.eqb_spec c3 "N"); [|done]. subst. simpl.
  destruct (span_digits tl) as [[|d ds] [|c rest]] eqn:E; try done.
  destruct (Ascii.eqb_spec c "_"); [|done]. intros [= <-]. subst.
  apply span_digits_spec in E as (-> & Hds & _).
  split; [done|]. split; [done|]. by exists rest.
Qed.

(** The shape of a text in which the search succeeds. *)
Lemma search_inv l g :
  search l = Some g ->
  Forall (fun c => is_digit c = true) g /\
  exists pre post, l = (pre ++ TN_mark ++ g ++ "_"%char :: post)%list.
Proof.
  induction l as [|c l IH].
  - done.
  - cbn [search]. destruct (match_here (c :: l)) as [g'|] eqn:Hm.
    + intros [= ->]. apply match_here_sound in Hm as (_ & ? & post & ->).
      split; [done|]. by exists [], post.
    + intros H. destruct (IH H) as (? & pre & post & ->).
      split; [done|]. by exists (c :: pre), post.
Qed.

(** In an ASCII text, where [\d] is the class [0-9], what
    [TN_RE.search(...).group(1)] returns is a non-empty run of the digits
    [0] to [9] that stands in the text directly between ["_TN"] and
    ["_"], and it is taken from the leftmost place where such a marker
    starts: none starts at an earlier position. *)
Theorem search_sound l g :
  is_ascii_text l ->
  search l = Some g ->
  g <> [] /\ Forall (fun c => is_digit c = true) g /\
  exists pre post,
    l = (pre ++ TN_mark ++ g ++ "_"%char :: post)%list /\
    forall n, (n < length pre)%nat -> match_here (drop n l) = None.
Proof.
  intros _. induction l as [|c l IH].
  - done.
  - cbn [search]. destruct (match_here (c :: l)) as [g'|] eqn:Hm.
    + intros [= ->]. apply match_here_sound in Hm as (? & ? & post & ->).
      split; [done|]. split; [done|]. exists [], post. split; [done|].
      simpl. lia.
    + intros H. destruct (IH H) as (? & ? & pre & post & -> & Hleft).
      split; [done|]. split; [done|]. exists (c :: pre), post. split; [done|].
      intros [|n] Hn; [exact Hm|]. simpl in Hn. apply Hleft. lia.
Qed.

Lemma search_sound_witness :
  is_ascii_text (list_ascii_of_string "S1-IFG_RM_M1S1_TN042_20170101T015012") /\
  search (list_ascii_of_string "S1-IFG_RM_M1S1_TN042_20170101T015012")
  = Some (list_ascii_of_string "042") /\
  exists pre post,
    list_ascii_of_string "S1-IFG_RM_M1S1_TN042_20170101T015012"
    = (pre ++ TN_mark ++ list_ascii_of_string "042" ++ "_"%char :: post)%list.
Proof.
  assert (is_ascii_text (list_ascii_of_string "S1-IFG_RM_M1S1_TN042_20170101T015012"))
    as Ha by (repeat (constructor; [reflexivity|]); constructor).
  assert (search (list_ascii_of_string "S1-IFG_RM_M1S1_TN042_20170101T015012")
          = Some (list_ascii_of_string "042")) as Hs by reflexivity.
  split; [exact Ha|]. split; [exact Hs|].
  destruct (search_sound _ _ Ha Hs) as (_ & _ & pre & post & H & _).
  by exists pre, post.
Defined.

(** The first marker wins: in a text whose part before ["_TN<digits>_"]
    has no capital T, the search returns those digits, whatever follows
    (a later [_TN<digits>_] included). *)
Theorem search_finds_first pre g post :
  Forall (fun c => c <> "T"%char) pre ->
  g <> [] ->
  Forall (fun c => is_digit c = true) g ->
  search (pre ++ TN_mark ++ g ++ "_"%char :: post) = Some g.
Proof.
  intros Hpre Hg Hdig.
  assert (match_here (TN_mark ++ g ++ "_"%char :: post) = Some g) as Hhere.
  { rewrite match_here_eq. simpl.
    rewrite (span_digits_run g "_" post Hdig eq_refl). by destruct g. }
  induction Hpre as [|c pre Hc Hpre IH].
  - simpl app. unfold TN_mark in *. cbn [app search] in *. by rewrite Hhere.
  - cbn [app search].
    assert (match_here (c :: pre ++ TN_mark ++ g ++ "_"%char :: post) = None) as ->.
    { rewrite match_here_eq. destruct pre as [|c' pre'].
      - simpl. by rewrite andb_false_r.
      - apply Forall_cons in Hpre as [Hc' _].
        assert (Ascii.eqb c' "T" = false) as Hf by (by apply Ascii.eqb_neq).
        destruct pre' as [|c'' pre'']; simpl; by rewrite Hf, andb_false_r. }
    exact IH.
Qed.

Lemma search_finds_first_witness :
  search (list_ascii_of_string "S1-IFG_RM_M1S1" ++ TN_mark
          ++ list_ascii_of_string "042" ++ "_"%char
          :: list_ascii_of_string "2017_TN7_x")
  = Some (list_ascii_of_string "042").
Proof.
  apply (search_finds_first (list_ascii_of_string "S1-IFG_RM_M1S1")
           (list_ascii_of_string "042") (list_ascii_of_string "2017_TN7_x")).
  - repeat (constructor; [discriminate|]). constructor.
  - discriminate.
  - repeat (constructor; [reflexivity|]). constructor.
Defined.

Lemma int_of_digits_nonneg ds :
  Forall (fun c => is_digit c = true) ds -> 0 <= int_of_digits ds.
Proof.
  unfold int_of_digits. intros H.
  assert (forall acc, 0 <= acc ->
            0 <= fold_left (fun acc c => 10 * acc + (Z.of_N (N_of_ascii c) - 48)) ds acc)
    as Hgen.
  { induction H as [|c ds Hc _ IH]; simpl; intros acc Hacc; [done|].
    apply IH. unfold is_digit in Hc. apply andb_true_iff in Hc as [Hlo _].
    apply N.leb_le in Hlo. lia. }
  by apply Hgen.
Qed.

(** Track, sensor code and sensor name are those of one record: the one
    whose date-pair key is the least of all keys.  The track is the
    number written in the digits after ["_TN"] in its product name, and
    it is never negative. *)
Theorem identity_from_least_key w ij env fi idn :
  derive_identity w ij env fi = inr idn ->
  exists k r ds pre post,
    (k, r) ∈ ifg_info fi /\
    (forall k', k' ∈ (ifg_info fi).*1 -> str_le k k') /\
    list_ascii_of_string (product r)
    = (pre ++ TN_mark ++ ds ++ "_"%char :: post)%list /\
    id_track idn = int_of_digits ds /\
    0 <= id_track idn /\
    id_sensor idn = sensor r /\
    id_sensor_name idn = sensor_name r.
Proof.
  intros Hid. apply derive_identity_inv in Hid
    as (k & r & ds & recs & ? & ? & Hk & Hr & Hds & _ & _ & _ & _ & Ht & Hs & Hn & _).
  unfold TN_RE_search_group1 in Hds.
  destruct (search (list_ascii_of_string (product r))) as [g|] eqn:Hsearch;
    [|done]. simplify_eq.
  apply search_inv in Hsearch as (Hdig & pre & post & Hprod).
  exists k, r, ds, pre, post. split; [by apply getitem_inr_elem|]. split.
  - intros k' Hk'. apply (sorted_head_least str_le (sorted_keys (ifg_info fi))).
    + apply Sorted_merge_sort, _.
    + by apply index0_head.
    + by apply elem_of_sorted_keys.
  - repeat split; try done. rewrite Ht. by apply int_of_digits_nonneg.
Qed.

Lemma identity_from_least_key_witness :
  exists idn,
    derive_identity demo_ok demo_json demo_env demo_filt_info = inr idn /\
    0 <= id_track idn.
Proof.
  destruct (derive_identity demo_ok demo_json demo_env demo_filt_info)
    as [?|idn] eqn:Hid; [vm_compute in Hid; discriminate Hid|].
  exists idn. split; [reflexivity|].
  destruct (identity_from_least_key demo_ok demo_json demo_env demo_filt_info idn Hid)
    as (_ & _ & _ & _ & _ & _ & _ & _ & _ & H & _).
  exact H.
Defined.

(* ===================================================================== *)
(** * The trace of a run that returns *)
(* ===================================================================== *)

Lemma render_ok w fi l h h' :
  render w fi l h = (h', Ok tt) ->
  exists rows,
    emap (getitem (ifg_info fi)) l = inr rows /\
    h' = (h ++ match rows with
               | first :: _ =>
                   [ Did (WriteFile "ifg.list" (IfgList rows));
                     Did (WriteFile "example.rsc" (Rendered (RSC_TMPL w) None first));
                     Did (WriteFile "prepdataxml.py"
                            (Rendered (PREPDATA_TMPL w) None first));
                     Did (WriteFile "prepsbasxml.py"
                            (Rendered (PREPSBAS_TMPL w) (Some (length l)) first));
                     Did (Copy (path_join (BASE_PATH w) "userfn.py") "userfn.py") ]
               | [] =>
                   [ Did (WriteFile "ifg.list" (IfgList rows));
                     Did (Copy (path_join (BASE_PATH w) "userfn.py") "userfn.py") ]
               end)%list.
Proof.
  unfold render, bind, lift, ret, raise, perform. intros H.
  repeat (case_match; simplify_eq); rewrite <- ?app_assoc; eauto.
Qed.

Lemma for_each_move_compress w id (l : list string) h h' :
  for_each l (fun i =>
    bind (perform w (Move i id))
      (fun _ => check_call w Compress ("pigz -f -9 " ++ path_join id (basename i))))
    h = (h', Ok tt) ->
  h' = (h ++ flat_map (fun i => [ Did (Move i id);
                                  Ran Compress
                                    ("pigz -f -9 " ++ path_join id (basename i)) 0 ])
                l)%list.
Proof.
  revert h. induction l as [|i l IH]; simpl; intros h H.
  - inversion H. by rewrite app_nil_r.
  - apply bind_inv in H as [(h1 & [] & H1 & H)|[(? & _ & ?)|(? & _ & ?)]]; try done.
    unfold bind, perform, check_call in H1.
    destruct (os_error w h (Move i id)); [done|].
    destruct (Z.eqb_spec (exit_status w (h ++ [Did (Move i id)])
                (("pigz -f -9 " ++ path_join id (basename i)))) 0) as [E|E];
      [|done].
    rewrite E in H1. simplify_eq. apply IH in H. rewrite H.
    by rewrite <- !app_assoc.
Qed.

Lemma assemble_ok_trace w id f h h' :
  assemble w id f h = (h', Ok tt) ->
  exists png0,
    head (glob w "Figs/Igrams/*.png") = Some png0 /\
    h' = (h ++ assemble_trace w id f png0)%list.
Proof.
  unfold assemble, assemble_trace, kept_files, call_noerr. intros H.
  apply bind_inv in H as [(h1 & [] & H1 & H)|[(? & _ & ?)|(? & _ & ?)]]; try done.
  apply perform_inv in H1 as [[_ ?]|[-> _]]; [done|].
  apply bind_inv in H as [(h2 & [] & H2 & H)|[(? & _ & ?)|(? & _ & ?)]]; try done.
  apply for_each_move_compress in H2. subst h2.
  apply bind_inv in H as [(h3 & png0 & H3 & H)|[(? & _ & ?)|(? & _ & ?)]]; try done.
  apply lift_inv in H3 as [-> [(png & Hpng & Heq)|(? & _ & ?)]]; [|done].
  injection Heq as ->.
  apply bind_inv in H as [(h4 & [] & H4 & H)|[(? & _ & ?)|(? & _ & ?)]]; try done.
  apply perform_inv in H4 as [[_ ?]|[-> _]]; [done|].
  apply bind_inv in H as [(h5 & [] & H5 & H)|[(? & _ & ?)|(? & _ & ?)]]; try done.
  unfold emit in H5. simplify_eq.
  apply bind_inv in H as [(h6 & [] & H6 & H)|[(? & _ & ?)|(? & _ & ?)]]; try done.
  apply for_each_perform_inv in H6 as [[_ ->]|(? & ? & ? & _ & ? & _)]; [|done].
  apply bind_inv in H as [(h7 & [] & H7 & H)|[(? & _ & ?)|(? & _ & ?)]]; try done.
  apply perform_inv in H7 as [[_ ?]|[-> _]]; [done|].
  apply for_each_perform_inv in H as [[_ ->]|(? & ? & ? & _ & ? & _)]; [|done].
  exists png. split.
  - by destruct (glob w "Figs/Igrams/*.png"); simplify_eq/=.
  - rewrite <- !app_assoc. cbn [app]. done.
Qed.

Lemma produce_ok w f ij env fi idn h h' :
  produce w f ij env fi idn h = (h', Ok tt) ->
  exists rows png0 times tsteps m,
    emap (getitem (ifg_info fi)) (id_ifg_list idn) = inr rows /\
    head (glob w "Figs/Igrams/*.png") = Some png0 /\
    h5_dates w (proc_stack w) = inr times /\
    emap (fun i => d <~ fromordinal i ; inr (isoformat d)) times = inr tsteps /\
    build_met ij env fi idn tsteps = inr m /\
    h' = (h ++ render_trace w rows
            ++ map (passed w) all_stages
            ++ assemble_trace w (id_str idn) f png0
            ++ [ Did (WriteFile (path_join (id_str idn) (id_str idn ++ ".met.json"))
                                (MetJson m));
                 Did (WriteDatasetJson (id_str idn) (id_str idn) (geojson_bbox env)
                        (sensing_time_initial m) (sensing_time_final m)
                        DATASET_VERSION) ])%list.
Proof.
  unfold produce. intros H.
  apply bind_inv in H as [(h1 & [] & H1 & H)|[(? & _ & ?)|(? & _ & ?)]]; try done.
  apply render_ok in H1 as (rows & Hrows & ->).
  apply bind_inv in H as [(h2 & [] & H2 & H)|[(? & _ & ?)|(? & _ & ?)]]; try done.
  apply stages_run in H2 as (ts & -> & Hts). apply stage_run_ok_inv in Hts.
  apply bind_inv in H as [(h3 & tsteps & H3 & H)|[(? & _ & ?)|(? & _ & ?)]]; try done.
  apply read_timesteps_inv in H3 as [-> Hdates].
  destruct (Hdates _ eq_refl) as (times & Hh5 & Hsteps).
  apply bind_inv in H as [(h4 & [] & H4 & H)|[(? & _ & ?)|(? & _ & ?)]]; try done.
  apply assemble_ok_trace in H4 as (png0 & Hpng & ->).
  apply emit_metadata_ok in H as (m & Hmet & ->).
  exists rows, png0, times, tsteps, m. repeat (split; [done|]).
  rewrite <- !app_assoc. f_equal. subst ts. unfold render_trace, all_stages.
  rewrite (emap_length _ _ _ Hrows).
  destruct rows; cbn [app]; by rewrite <- ?app_assoc.
Qed.

Lemma main_ok_exact w f h :
  main w f [] = (h, Ok tt) ->
  exists f' ij env fi idn rows png0 times tsteps m,
    load w f = inr (f', ij) /\
    envelope_of w ij = inr env /\
    filter_ifgs w (filter_args ij env) = inr fi /\
    derive_identity w ij env fi = inr idn /\
    dataset_exists w (GRQ_ES_URL w) (DATASET_ALIAS w) (id_str idn) = inr false /\
    emap (getitem (ifg_info fi)) (sorted_keys (ifg_info fi)) = inr rows /\
    head (glob w "Figs/Igrams/*.png") = Some png0 /\
    h5_dates w (proc_stack w) = inr times /\
    emap (fun i => d <~ fromordinal i ; inr (isoformat d)) times = inr tsteps /\
    build_met ij env fi idn tsteps = inr m /\
    h = ([ Filtered (filter_args ij env);
           Did (WriteFile "filt_info.pkl" (Pickle fi));
           Queried (GRQ_ES_URL w) (DATASET_ALIAS w) (id_str idn) false ]
         ++ render_trace w rows
         ++ map (passed w) all_stages
         ++ assemble_trace w (id_str idn) f' png0
         ++ [ Did (WriteFile (path_join (id_str idn) (id_str idn ++ ".met.json"))
                             (MetJson m));
              Did (WriteDatasetJson (id_str idn) (id_str idn) (geojson_bbox env)
                     (sensing_time_initial m) (sensing_time_final m)
                     DATASET_VERSION) ]
         ++ map (fun p => Did (Rmtree p)) (products ij)
         ++ map (fun k => Did (Unlink k)) (id_ifg_list idn))%list.
Proof.
  intros H. apply main_inv in H as [(e & _ & _ & ?)|H]; [done|].
  destruct H as (f' & ij & t1 & r1 & Hload & Hrun & H).
  destruct H as [[_ [(? & _ & ?)|(? & _ & ?)]]|H]; try done.
  destruct H as (env & fi & idn & t2 & r2 & -> & Hprod & _ & H).
  destruct H as [[_ [(? & _ & ?)|(? & _ & ?)]]|H]; try done.
  destruct H as (t3 & -> & Hclean & -> & _).
  inversion Hrun as [| | |env' fi' t r Henv Hfilt Hdump]; subst.
  inversion Hdump as [| | | |idn' Hne Hid Hq]; subst.
  apply produce_ok in Hprod
    as (rows & png0 & times & tsteps & m & Hrows & Hpng & Hh5 & Hsteps & Hmet & E).
  apply app_inv_head in E. subst t2.
  apply cleanup_inv in Hclean as [[_ E]|[(? & ?)|(? & ?)]]; try done.
  rewrite <- !app_assoc in E. apply app_inv_head in E.
  do 4 apply app_inv_head in E. subst t3.
  pose proof Hid as Hinv. apply derive_identity_inv in Hinv
    as (? & ? & ? & ? & ? & ? & _ & _ & _ & _ & _ & _ & Hkeys & _).
  rewrite Hkeys in Hrows.
  exists f', ij, env, fi, idn, rows, png0, times, tsteps, m.
  repeat (split; [done|]). by rewrite <- !app_assoc.
Qed.

(** A run that returns did exactly this, in this order: the filter call,
    the snapshot, the catalog query answered with "not there", the
    rendered files, the four steps each with status 0, the assembly of
    the bundle (directory, every [Stack/*] file moved and compressed with
    status 0, the first browse image copied and scaled, every image
    moved, the request copied, the eight working files moved), the
    metadata record, the dataset descriptor, the removal of every input
    product and then of every date-pair key. *)
Theorem successful_run_trace w f h :
  main w f [] = (h, Ok tt) ->
  exists f' ij env fi idn rows png0 m,
    load w f = inr (f', ij) /\
    envelope_of w ij = inr env /\
    filter_ifgs w (filter_args ij env) = inr fi /\
    derive_identity w ij env fi = inr idn /\
    emap (getitem (ifg_info fi)) (sorted_keys (ifg_info fi)) = inr rows /\
    head (glob w "Figs/Igrams/*.png") = Some png0 /\
    h = ([ Filtered (filter_args ij env);
           Did (WriteFile "filt_info.pkl" (Pickle fi));
           Queried (GRQ_ES_URL w) (DATASET_ALIAS w) (id_str idn) false ]
         ++ render_trace w rows
         ++ map (passed w) [Step1; Step2; Step3; Step4]
         ++ assemble_trace w (id_str idn) f' png0
         ++ [ Did (WriteFile (path_join (id_str idn) (id_str idn ++ ".met.json"))
                             (MetJson m));
              Did (WriteDatasetJson (id_str idn) (id_str idn) (geojson_bbox env)
                     (sensing_time_initial m) (sensing_time_final m)
                     DATASET_VERSION) ]
         ++ map (fun p => Did (Rmtree p)) (products ij)
         ++ map (fun k => Did (Unlink k)) (sorted_keys (ifg_info fi)))%list.
Proof.
  intros H. apply main_ok_exact in H
    as (f' & ij & env & fi & idn & rows & png0 & times & tsteps & m
        & ? & ? & ? & Hid & ? & ? & ? & ? & ? & ? & ->).
  pose proof Hid as Hinv. apply derive_identity_inv in Hinv
    as (? & ? & ? & ? & ? & ? & _ & _ & _ & _ & _ & _ & Hkeys & _).
  exists f', ij, env, fi, idn, rows, png0, m. repeat (split; [done|]).
  by rewrite Hkeys.
Qed.

Lemma successful_run_trace_witness :
  main demo_ok "req.json" [] = ((main demo_ok "req.json" []).1, Ok tt) /\
  exists tl,
    (main demo_ok "req.json" []).1
    = (Filtered (filter_args demo_json demo_env)
       :: Did (WriteFile "filt_info.pkl" (Pickle demo_filt_info)) :: tl)%list.
Proof.
  assert (main demo_ok "req.json" [] = ((main demo_ok "req.json" []).1, Ok tt))
    as Hrun by (vm_compute; reflexivity).
  split; [exact Hrun|].
  destruct (successful_run_trace demo_ok "req.json" _ Hrun)
    as (f' & ij & env & fi & idn & rows & png0 & m & Hload & Henv & Hf & _ & _ & _ & ->).
  vm_compute in Hload. injection Hload as <- <-.
  vm_compute in Henv. injection Henv as <-.
  vm_compute in Hf. injection Hf as <-.
  eexists. reflexivity.
Defined.

Lemma emap_inr_all {A B} (f : A -> exn + B) l ys x :
  emap f l = inr ys -> x ∈ l -> exists y, f x = inr y.
Proof.
  revert ys. induction l as [|x' l IH]; simpl; intros ys H Hx;
    [by apply elem_of_nil in Hx|].
  apply ebind_inr in H as (y0 & Hx' & H). apply ebind_inr in H as (ys0 & Hl & _).
  apply elem_of_cons in Hx as [->|Hx]; eauto.
Qed.

Lemma fromordinal_range n d :
  fromordinal n = inr d -> 1 <= n <= 3652059.
Proof.
  unfold fromordinal.
  destruct (Z.ltb_spec n 1), (Z.ltb_spec 3652059 n); simpl; try done;
    intros _; lia.
Qed.

(** What a run needs in order to return: at least one record and one
    center-line time from the filter, an identity the catalog does not
    hold, at least one date in [PROC-STACK.h5], every date an ordinal
    that [datetime.fromordinal] accepts, and at least one browse image.
    Without any of these the run raises. *)
Theorem success_needs w f h :
  main w f [] = (h, Ok tt) ->
  exists f' ij env fi idn times,
    load w f = inr (f', ij) /\
    envelope_of w ij = inr env /\
    filter_ifgs w (filter_args ij env) = inr fi /\
    ifg_info fi <> [] /\
    center_lines_utc fi <> [] /\
    derive_identity w ij env fi = inr idn /\
    dataset_exists w (GRQ_ES_URL w) (DATASET_ALIAS w) (id_str idn) = inr false /\
    h5_dates w (proc_stack w) = inr times /\
    times <> [] /\
    Forall (fun t => 1 <= t <= 3652059) times /\
    glob w "Figs/Igrams/*.png" <> [].
Proof.
  intros H. apply main_ok_exact in H
    as (f' & ij & env & fi & idn & rows & png0 & times & tsteps & m
        & ? & ? & ? & Hid & ? & ? & Hpng & ? & Hsteps & Hmet & _).
  exists f', ij, env, fi, idn, times. repeat (split; [done|]).
  pose proof Hid as Hinv. apply derive_identity_inv in Hinv
    as (? & ? & ? & ? & ? & ? & Hk & _ & _ & _ & Hc & _).
  split.
  { intros E. unfold sorted_keys in Hk. by rewrite E in Hk. }
  split.
  { intros E. by rewrite E in Hc. }
  repeat (split; [done|]). split.
  { intros ->. simpl in Hsteps. by simplify_eq. }
  split.
  - apply Forall_forall. intros t Ht.
    destruct (emap_inr_all _ _ _ _ Hsteps Ht) as (y & Hy).
    apply ebind_inr in Hy as (d & Hd & _). by eapply fromordinal_range.
  - intros E. by rewrite E in Hpng.
Qed.

Lemma success_needs_witness :
  main demo_ok "req.json" [] = ((main demo_ok "req.json" []).1, Ok tt) /\
  glob demo_ok "Figs/Igrams/*.png" <> [].
Proof.
  assert (main demo_ok "req.json" [] = ((main demo_ok "req.json" []).1, Ok tt))
    as Hrun by (vm_compute; reflexivity).
  split; [exact Hrun|].
  destruct (success_needs demo_ok "req.json" _ Hrun)
    as (? & ? & ? & ? & ? & ? & _ & _ & _ & _ & _ & _ & _ & _ & _ & _ & H).
  exact H.
Defined.

(** The files rendered for the processing steps: [ifg.list] has one row
    per filtered record, in ascending order of the keys; [example.rsc],
    [prepdataxml.py] and [prepsbasxml.py] are rendered from the record of
    the least key, the last one with [nvalid] set to the number of
    records. *)
Theorem rendered_from_least_key w f h :
  main w f [] = (h, Ok tt) ->
  exists ij env fi k first rows,
    Filtered (filter_args ij env) ∈ h /\
    filter_ifgs w (filter_args ij env) = inr fi /\
    head (sorted_keys (ifg_info fi)) = Some k /\
    (forall k', k' ∈ (ifg_info fi).*1 -> str_le k k') /\
    getitem (ifg_info fi) k = inr first /\
    emap (getitem (ifg_info fi)) (sorted_keys (ifg_info fi)) = inr rows /\
    length rows = length (ifg_info fi) /\
    Did (WriteFile "ifg.list" (IfgList rows)) ∈ h /\
    Did (WriteFile "example.rsc" (Rendered (RSC_TMPL w) None first)) ∈ h /\
    Did (WriteFile "prepdataxml.py" (Rendered (PREPDATA_TMPL w) None first)) ∈ h /\
    Did (WriteFile "prepsbasxml.py"
           (Rendered (PREPSBAS_TMPL w) (Some (length (ifg_info fi))) first)) ∈ h.
Proof.
  intros H. apply main_ok_exact in H
    as (f' & ij & env & fi & idn & rows & png0 & times & tsteps & m
        & ? & ? & ? & Hid & ? & Hrows & _ & _ & _ & _ & ->).
  apply derive_identity_inv in Hid
    as (k & first & ? & ? & ? & ? & Hk & Hfirst & _).
  assert (length rows = length (ifg_info fi)) as Hlen.
  { rewrite (emap_length _ _ _ Hrows). unfold sorted_keys.
    by rewrite merge_sort_Permutation, length_fmap. }
  assert (exists rest, rows = first :: rest) as (rest & ->).
  { destruct (sorted_keys (ifg_info fi)) as [|k0 ks]; [done|]. simpl in Hk, Hrows.
    simplify_eq. rewrite Hfirst in Hrows. simpl in Hrows.
    apply ebind_inr in Hrows as (ys & _ & ?). simplify_eq. eauto. }
  exists ij, env, fi, k, first, (first :: rest).
  split; [apply elem_of_cons; by left|]. split; [done|].
  split; [by apply index0_head|]. split.
  { intros k' Hk'. apply (sorted_head_least str_le (sorted_keys (ifg_info fi))).
    - apply Sorted_merge_sort, _.
    - by apply index0_head.
    - by apply elem_of_sorted_keys. }
  repeat (split; [done|]).
  unfold render_trace. rewrite Hlen.
  repeat split; rewrite !elem_of_app; right; left;
    repeat first [ apply elem_of_cons; left; reflexivity | apply elem_of_cons; right ].
Qed.

Lemma rendered_from_least_key_witness :
  main demo_ok "req.json" [] = ((main demo_ok "req.json" []).1, Ok tt) /\
  Did (WriteFile "prepsbasxml.py" (Rendered "prepsbas {nvalid}" (Some 2%nat) rec_a))
    ∈ (main demo_ok "req.json" []).1.
Proof.
  assert (main demo_ok "req.json" [] = ((main demo_ok "req.json" []).1, Ok tt))
    as Hrun by (vm_compute; reflexivity).
  split; [exact Hrun|].
  destruct (rendered_from_least_key demo_ok "req.json" _ Hrun)
    as (ij & env & fi & k & first & rows & _ & Hf & Hk & _ & Hfirst & _ & _ & _ & _
        & _ & H).
  vm_compute in Hf. injection Hf as <-.
  vm_compute in Hk. injection Hk as <-.
  vm_compute in Hfirst. injection Hfirst as <-.
  exact H.
Defined.

(* ===================================================================== *)
(** * The names of the files in the bundle *)
(* ===================================================================== *)

Lemma basename_aux_no_slash p acc :
  (no_slash p -> no_slash acc) -> no_slash (basename_aux acc p).
Proof.
  revert acc. induction p as [|c p IH]; simpl; intros acc H.
  - apply H. constructor.
  - destruct (Ascii.eqb_spec c "/") as [->|Hc].
    + by apply IH.
    + apply IH. intros Hp. apply H. by constructor.
Qed.

Lemma basename_no_slash p : no_slash (basename p).
Proof. by apply basename_aux_no_slash. Qed.

Lemma path_join_relative a b :
  a <> "" -> ends_with_slash a = false ->
  (forall rest, b <> String "/" rest) ->
  path_join a b = a ++ "/" ++ b.
Proof.
  intros Ha He Hb. unfold path_join.
  assert (String.eqb a "" = false) as -> by (by apply String.eqb_neq).
  rewrite He. simpl.
  destruct b as [|c rest]; [done|].
  destruct (Ascii.eqb_spec c "/") as [->|Hc]; [by destruct (Hb rest)|].
  by destruct c as [[] [] [] [] [] [] [] []].
Qed.

Lemma id_str_not_a_directory_path w ij env fi idn :
  derive_identity w ij env fi = inr idn ->
  id_str idn <> "" /\ ends_with_slash (id_str idn) = false /\
  exists rest, id_str idn = String "f" rest.
Proof.
  intros H. apply derive_identity_inv in H
    as (? & ? & ? & ? & s & e & _ & _ & _ & _ & _ & _ & _ & _ & _ & _ & _ & _ & _ & ->).
  unfold ID_TMPL_format, DATASET_VERSION. split; [done|]. split; [|by eexists].
  unfold ends_with_slash. rewrite !list_ascii_of_string_app, !last_app. done.
Qed.

(** Every file of the bundle is named directly under the product
    directory: a compressed product goes to [<id>/<file name>] whatever
    directories its source path has, and the metadata record, the copy of
    the request and the two browse images go to [<id>/<id>.met.json],
    [<id>/<id>.context.json], [<id>/browse.png] and
    [<id>/browse_small.png]. *)
Theorem bundle_paths w ij env fi idn :
  derive_identity w ij env fi = inr idn ->
  (forall i,
     no_slash (basename i) /\
     path_join (id_str idn) (basename i) = id_str idn ++ "/" ++ basename i) /\
  path_join (id_str idn) (id_str idn ++ ".met.json")
  = id_str idn ++ "/" ++ id_str idn ++ ".met.json" /\
  path_join (id_str idn) (id_str idn ++ ".context.json")
  = id_str idn ++ "/" ++ id_str idn ++ ".context.json" /\
  path_join (id_str idn) "browse.png" = id_str idn ++ "/browse.png" /\
  path_join (id_str idn) "browse_small.png" = id_str idn ++ "/browse_small.png".
Proof.
  intros H. apply id_str_not_a_directory_path in H as (Hne & Hend & rest & Hf).
  split; [|split; [|split; [|split]]].
  - intros i. pose proof (basename_no_slash i) as Hb. split; [done|].
    apply path_join_relative; try done.
    intros r E. rewrite E in Hb. unfold no_slash in Hb. simpl in Hb.
    apply Forall_cons in Hb as [? _]. done.
  - apply path_join_relative; try done. intros r. by rewrite Hf.
  - apply path_join_relative; try done. intros r. by rewrite Hf.
  - by apply path_join_relative.
  - by apply path_join_relative.
Qed.

Lemma bundle_paths_witness :
  exists idn,
    derive_identity demo_ok demo_json demo_env demo_filt_info = inr idn /\
    path_join (id_str idn) (basename "Stack/PROC-STACK.h5")
    = id_str idn ++ "/" ++ "PROC-STACK.h5".
Proof.
  destruct (derive_identity demo_ok demo_json demo_env demo_filt_info)
    as [?|idn] eqn:Hid; [vm_compute in Hid; discriminate Hid|].
  exists idn. split; [reflexivity|].
  destruct (bundle_paths demo_ok demo_json demo_env demo_filt_info idn Hid)
    as (H & _).
  exact (proj2 (H "Stack/PROC-STACK.h5")).
Defined.

(* ===================================================================== *)
(** * The order of the filter's lists *)
(* ===================================================================== *)

(** The identity generator sorts the keys (line 141) and the center
    lines (line 188) before it uses them: listing the same records and
    the same center-line times in another order gives the same result,
    identity or exception. *)
Theorem identity_ignores_listing_order w ij env fi1 fi2 :
  NoDup (ifg_info fi1).*1 ->
  ifg_info fi1 ≡ₚ ifg_info fi2 ->
  center_lines_utc fi1 ≡ₚ center_lines_utc fi2 ->
  derive_identity w ij env fi1 = derive_identity w ij env fi2.
Proof. apply derive_identity_Permutation. Qed.

Lemma identity_ignores_listing_order_witness :
  NoDup (ifg_info demo_filt_info).*1 /\
  ifg_info demo_filt_info ≡ₚ ifg_info demo_filt_info_reordered /\
  center_lines_utc demo_filt_info ≡ₚ center_lines_utc demo_filt_info_reordered /\
  derive_identity demo_ok demo_json demo_env demo_filt_info
  = derive_identity demo_ok demo_json demo_env demo_filt_info_reordered.
Proof.
  assert (NoDup (ifg_info demo_filt_info).*1) as Hnd.
  { cbn. apply NoDup_cons. split; [|apply NoDup_singleton].
    intros H%list_elem_of_singleton. discriminate H. }
  assert (ifg_info demo_filt_info ≡ₚ ifg_info demo_filt_info_reordered) as Hp
    by apply Permutation_rev.
  assert (center_lines_utc demo_filt_info
          ≡ₚ center_lines_utc demo_filt_info_reordered) as Hc
    by apply Permutation_rev.
  repeat (split; [assumption|]).
  apply (identity_ignores_listing_order demo_ok demo_json demo_env
           demo_filt_info demo_filt_info_reordered Hnd Hp Hc).
Defined.

(* ===================================================================== *)
(** * What the metadata takes from the request and the stack *)
(* ===================================================================== *)





